(** * Sales report pipeline of the analytics bot (main.py)

    A shallow embedding of the report core of [main.py]:
    [parse_number], the row loop of [fetch_data], [filter_data],
    [compute_report] and [format_report], together with the parts of the
    Python run time they rest on (str methods, [float], [sum], true
    division, [strptime]/[strftime] for the format [%d.%m.%Y], [repr] and
    the [.2f] format of a float).

    Python values are modelled as the code has them:
    - a [str] is a list of Unicode code points ([pystr]);
    - a [float] is an IEEE 754 binary64 number, [spec_float] of the
      Standard Library with [prec = 53] and [emax = 1024];
    - exceptions are values of an error monad [exc];
    - the dictionaries built by [fetch_data] and [compute_report] have a
      fixed set of keys and are records ([Row], [Stats]).

    [compute_report] is written once, over an interface [FloatOps] of the
    float operations it uses, with two instances: binary64 (what the
    program runs on) and exact rationals (the reference for statements
    "up to floating-point rounding"). *)

From Stdlib Require Import ZArith NArith Bool List Lia.
From Stdlib Require Import Ascii String.
From Stdlib Require Import QArith Qcanon.
From Stdlib Require Import SpecFloat.
From stdpp Require Import base list.

Local Open Scope Z_scope.

(* ===================================================================== *)
(** ** Exceptions *)
(* ===================================================================== *)

Inductive exn : Set :=
  | ValueError
  | OverflowError
  | ZeroDivisionError
  | IndexError
  | TypeError
  | HttpError.

Global Instance exn_eq_dec : EqDecision exn.
Proof. solve_decision. Defined.

Inductive exc (A : Type) : Type :=
  | Ok (a : A)
  | Raise (e : exn).
Arguments Ok {A} a.
Arguments Raise {A} e.

Definition exc_bind {A B} (m : exc A) (k : A -> exc B) : exc B :=
  match m with
  | Ok a => k a
  | Raise e => Raise e
  end.

Notation "x <-- m ;; k" := (exc_bind m (fun x => k))
  (at level 100, m at next level, right associativity,
   format "'[v' x  <--  m  ;;  '/' k ']'").

(** [try: m except e: h] *)
Definition try_except {A} (m : exc A) (e : exn) (h : exc A) : exc A :=
  match m with
  | Ok a => Ok a
  | Raise e' => if decide (e' = e) then h else Raise e'
  end.

(** [try: m except Exception: h] *)
Definition try_except_all {A} (m : exc A) (h : exc A) : exc A :=
  match m with
  | Ok a => Ok a
  | Raise _ => h
  end.

(* ===================================================================== *)
(** ** Strings: [str] as a list of code points *)
(* ===================================================================== *)

Definition pystr := list N.

(** The code point of an ASCII character. *)
Definition ord (a : ascii) : N := N_of_ascii a.

(** Decoding of a UTF-8 byte sequence, used to write the literals of the
    source as they stand there. *)
Fixpoint utf8_decode (bs : list N) : pystr :=
  match bs with
  | [] => []
  | b0 :: r0 =>
    if (b0 <? 128)%N then b0 :: utf8_decode r0
    else match r0 with
    | [] => [b0]
    | b1 :: r1 =>
      if (b0 <? 224)%N then
        ((b0 - 192) * 64 + (b1 - 128))%N :: utf8_decode r1
      else match r1 with
      | [] => [b0; b1]
      | b2 :: r2 =>
        if (b0 <? 240)%N then
          ((b0 - 224) * 4096 + (b1 - 128) * 64 + (b2 - 128))%N :: utf8_decode r2
        else match r2 with
        | [] => [b0; b1; b2]
        | b3 :: r3 =>
          ((b0 - 240) * 262144 + (b1 - 128) * 4096
           + (b2 - 128) * 64 + (b3 - 128))%N :: utf8_decode r3
        end
      end
    end
  end.

Definition u (s : string) : pystr :=
  utf8_decode (List.map N_of_ascii (list_ascii_of_string s)).
Arguments u s%_string.

Definition NBSP : N := 160.      (* ' ' *)
Definition PERCENT : N := 37.    (* '%' *)
Definition COMMA : N := 44.      (* ',' *)
Definition DOT : N := 46.        (* '.' *)
Definition NEWLINE : N := 10.    (* '\n' *)
Definition SPACE : N := 32.
Definition UNDERSCORE : N := 95.
Definition MINUS : N := 45.
Definition PLUS : N := 43.
Definition QUESTION : N := 63.
Definition DIGIT0 : N := 48.

(** [str.isspace] of a single character: the white space of the Unicode
    database (bidirectional type WS, B or S, or category Zs). *)
Definition py_isspace (c : N) : bool :=
  ((9 <=? c) && (c <=? 13) || (28 <=? c) && (c <=? 32)
   || (c =? 133) || (c =? 160) || (c =? 5760)
   || (8192 <=? c) && (c <=? 8202)
   || (c =? 8232) || (c =? 8233) || (c =? 8239) || (c =? 8287)
   || (c =? 12288))%N.

Fixpoint drop_while {A} (p : A -> bool) (l : list A) : list A :=
  match l with
  | [] => []
  | x :: r => if p x then drop_while p r else l
  end.

(** [s.lstrip()], [s.rstrip()], [s.strip()] *)
Definition str_lstrip (s : pystr) : pystr := drop_while py_isspace s.
Definition str_rstrip (s : pystr) : pystr := rev (drop_while py_isspace (rev s)).
Definition str_strip (s : pystr) : pystr := str_rstrip (str_lstrip s).

(** [s.rstrip(chars)] *)
Definition str_rstrip_chars (chars : pystr) (s : pystr) : pystr :=
  rev (drop_while (fun c => bool_decide (c ∈ chars)) (rev s)).

Fixpoint is_prefix (p s : pystr) : bool :=
  match p, s with
  | [], _ => true
  | _ :: _, [] => false
  | a :: p', b :: s' => (a =? b)%N && is_prefix p' s'
  end.

(** [s.endswith(suffix)] *)
Definition str_endswith (suffix : pystr) (s : pystr) : bool :=
  is_prefix (rev suffix) (rev s).

(** [s == t] *)
Definition str_eqb (s t : pystr) : bool := bool_decide (s = t).

(** [s.replace(old, new)] for a one-character [old]. *)
Definition str_replace1 (old : N) (new : pystr) (s : pystr) : pystr :=
  flat_map (fun c => if (c =? old)%N then new else [c]) s.

(** Digits of a non-negative integer in base ten, most significant first. *)
Fixpoint decimal_digits_fuel (fuel : nat) (n : Z) (acc : pystr) : pystr :=
  match fuel with
  | O => acc
  | S fuel' =>
    let acc' := (DIGIT0 + Z.to_N (n mod 10))%N :: acc in
    if n <? 10 then acc' else decimal_digits_fuel fuel' (n / 10) acc'
  end.

(** Decimal digits of [n >= 0]; the fuel is an upper bound of their number. *)
Definition decimal_digits (n : Z) : pystr :=
  decimal_digits_fuel (S (Z.to_nat (Z.log2 n))) n [].

(** [str(n)] for an int *)
Definition str_of_int (n : Z) : pystr :=
  if n <? 0 then MINUS :: decimal_digits (- n) else decimal_digits n.

(** Left padding with zeros to a width, as [%02d] and [%04d] do. *)
Definition zero_pad (width : nat) (s : pystr) : pystr :=
  repeat DIGIT0 (width - length s) ++ s.

(* ===================================================================== *)
(** ** Floats: IEEE 754 binary64 *)
(* ===================================================================== *)

Definition float64 := spec_float.
Definition prec : Z := 53.
Definition emax : Z := 1024.

Definition b64_add : float64 -> float64 -> float64 := SFadd prec emax.
Definition b64_sub : float64 -> float64 -> float64 := SFsub prec emax.
Definition b64_div : float64 -> float64 -> float64 := SFdiv prec emax.
Definition b64_zero : float64 := S754_zero false.          (* 0.0 *)

Definition b64_is_finite (x : float64) : bool :=
  match x with
  | S754_zero _ | S754_finite _ _ _ => true
  | S754_infinity _ | S754_nan => false
  end.

Definition b64_same (x y : float64) : bool :=
  match x, y with
  | S754_zero a, S754_zero b => Bool.eqb a b
  | S754_infinity a, S754_infinity b => Bool.eqb a b
  | S754_nan, S754_nan => true
  | S754_finite a m e, S754_finite b m' e' =>
      Bool.eqb a b && (m =? m')%positive && (e =? e')
  | _, _ => false
  end.

(** The float nearest to [(-1)^neg * m * 10^e] for [m >= 0], ties to
    even, overflow to an infinity: what [strtod] returns for a decimal
    literal with digits [m] and exponent [e]. *)
Definition b64_of_decimal (neg : bool) (m e : Z) : float64 :=
  if m =? 0 then S754_zero neg
  else if 0 <=? e then
    binary_normalize prec emax (cond_Zopp neg (m * 10 ^ e)) 0 neg
  else
    let '(q, e', l) := SFdiv_core_binary prec emax m 0 (10 ^ (- e)) 0 in
    binary_round_aux prec emax neg q e' l.

(** [float(z)] for an int: round to nearest even; OverflowError ("int too
    large to convert to float") when the rounded value would reach
    [2^1024], that is from [2^1024 - 2^970] on. *)
Definition float_of_int (z : Z) : exc float64 :=
  if 2 ^ 1024 - 2 ^ 970 <=? Z.abs z then Raise OverflowError
  else Ok (binary_normalize prec emax z 0 false).

(** *** Text of a float *)

(** [floor (m * 2^e / 10^k)] *)
Definition scaled_floor (m e k : Z) : Z :=
  (m * 2 ^ Z.max e 0 * 10 ^ Z.max (- k) 0)
  / (2 ^ Z.max (- e) 0 * 10 ^ Z.max k 0).

(** Comparison of [a * 2^e] with [b * 10^k]. *)
Definition compare_scaled (a e b k : Z) : comparison :=
  (a * 2 ^ Z.max e 0 * 10 ^ Z.max (- k) 0
   ?= b * 10 ^ Z.max k 0 * 2 ^ Z.max (- e) 0).

(** The [p] with [10^p <= m * 2^e < 10^(p+1)], for a binary64 magnitude. *)
Definition decimal_exponent (m e : Z) : Z :=
  let est := (Z.log2 m + e) * 30103 / 100000 in
  if 1 <=? scaled_floor m e (est + 1) then est + 1
  else if 1 <=? scaled_floor m e est then est
  else est - 1.

(** Of the two [n]-digit neighbours [lo * 10^k <= m * 2^e < (lo+1) * 10^k]
    the nearer one, the even one on a tie. *)
Definition nearer (m e lo k : Z) : Z :=
  match compare_scaled (2 * m) e (2 * lo + 1) k with
  | Lt => lo
  | Gt => lo + 1
  | Eq => if Z.even lo then lo else lo + 1
  end.

(** Shortest decimal [d * 10^k] that reads back as [x = m * 2^e] (repr
    style): the least number [n] of digits for which one of the two
    [n]-digit neighbours of [x] rounds to [x]; 17 digits always do. *)
Fixpoint shortest_decimal (fuel : nat) (n : Z) (x : float64) (m e p : Z)
  : Z * Z :=
  let k := p - n + 1 in
  let lo := scaled_floor m e k in
  let ok_lo := b64_same (b64_of_decimal false lo k) x in
  let ok_hi := b64_same (b64_of_decimal false (lo + 1) k) x in
  match fuel with
  | O => (nearer m e lo k, k)
  | S fuel' =>
    if ok_lo && ok_hi then (nearer m e lo k, k)
    else if ok_lo then (lo, k)
    else if ok_hi then (lo + 1, k)
    else shortest_decimal fuel' (n + 1) x m e p
  end.

Fixpoint strip_trailing_zeros (fuel : nat) (d k : Z) : Z * Z :=
  match fuel with
  | O => (d, k)
  | S fuel' =>
    if (d mod 10 =? 0) && negb (d =? 0)
    then strip_trailing_zeros fuel' (d / 10) (k + 1)
    else (d, k)
  end.

Definition zeros (n : Z) : pystr := repeat DIGIT0 (Z.to_nat n).

(** The digits [ds] of a float and the position [decpt] of its decimal
    point laid out as [repr] does: exponent notation when
    [decpt <= -4] or [decpt > 16], and [.0] added to a whole number. *)
Definition repr_layout (ds : pystr) (decpt : Z) : pystr :=
  let nd := Z.of_nat (length ds) in
  if (decpt <=? -4) || (16 <? decpt) then
    let ex := decpt - 1 in
    let mant := match ds with
                | [] => []
                | d :: [] => [d]
                | d :: r => d :: DOT :: r
                end in
    mant ++ [ord "e"] ++ [if ex <? 0 then MINUS else PLUS]
         ++ zero_pad 2 (decimal_digits (Z.abs ex))
  else if decpt <=? 0 then
    [DIGIT0; DOT] ++ zeros (- decpt) ++ ds
  else if nd <=? decpt then
    ds ++ zeros (decpt - nd) ++ [DOT; DIGIT0]
  else
    take (Z.to_nat decpt) ds ++ [DOT] ++ drop (Z.to_nat decpt) ds.

Definition sign_text (neg : bool) : pystr := if neg then [MINUS] else [].

(** [repr(x)], which is also [str(x)] and the text of [f"{x}"]. *)
Definition float_repr (x : float64) : pystr :=
  match x with
  | S754_nan => u "nan"
  | S754_infinity s => sign_text s ++ u "inf"
  | S754_zero s => sign_text s ++ u "0.0"
  | S754_finite s m e =>
    let ax := S754_finite false m e in
    let p := decimal_exponent (Zpos m) e in
    let '(d0, k0) := shortest_decimal 16 1 ax (Zpos m) e p in
    let '(d, k) := strip_trailing_zeros 17 d0 k0 in
    let ds := decimal_digits d in
    sign_text s ++ repr_layout ds (Z.of_nat (length ds) + k)
  end.

(** The integer nearest to [m * 2^e * 100], ties to even. *)
Definition round_hundredths (m e : Z) : Z :=
  if 0 <=? e then m * 2 ^ e * 100
  else
    let den := 2 ^ (- e) in
    let q := (m * 100) / den in
    match (2 * ((m * 100) mod den) ?= den) with
    | Lt => q
    | Gt => q + 1
    | Eq => if Z.even q then q else q + 1
    end.

Definition digit_char (d : Z) : N := (DIGIT0 + Z.to_N d)%N.

(** [format(x, ".2f")] *)
Definition format_2f (x : float64) : pystr :=
  match x with
  | S754_nan => u "nan"
  | S754_infinity s => sign_text s ++ u "inf"
  | S754_zero s => sign_text s ++ u "0.00"
  | S754_finite s m e =>
    let r := round_hundredths (Zpos m) e in
    sign_text s ++ decimal_digits (r / 100) ++ [DOT]
      ++ [digit_char (r / 10 mod 10); digit_char (r mod 10)]
  end.

(** Python's [==] between a float and an int compares the exact values. *)
Definition b64_eq_int (x : float64) (z : Z) : bool :=
  match x with
  | S754_zero _ => z =? 0
  | S754_finite s m e =>
      match compare_scaled (cond_Zopp s (Zpos m)) e z 0 with
      | Eq => true
      | _ => false
      end
  | _ => false
  end.

(* ===================================================================== *)
(** ** Numbers: int or float, [+], [sum], [/] *)
(* ===================================================================== *)

(** The float operations [compute_report] uses. *)
Class FloatOps (F : Type) := {
  f_zero : F;                      (* 0.0 *)
  f_add : F -> F -> F;             (* float + float *)
  f_div : F -> F -> F;             (* float / float, divisor not zero *)
  f_of_int : Z -> exc F;           (* float(int) *)
  f_eqb : F -> F -> bool;          (* float == float *)
  f_eq_int : F -> Z -> bool        (* float == int *)
}.

(** What the program runs on. *)
Global Instance binary64 : FloatOps float64 := {|
  f_zero := b64_zero;
  f_add := b64_add;
  f_div := b64_div;
  f_of_int := float_of_int;
  f_eqb := SFeqb;
  f_eq_int := b64_eq_int
|}.

(** Exact rational arithmetic: the same operations without rounding. *)
Global Instance exact : FloatOps Qc := {|
  f_zero := Q2Qc 0;
  f_add := Qcplus;
  f_div := Qcdiv;
  f_of_int := fun z => Ok (Q2Qc (inject_Z z));
  f_eqb := Qc_eq_bool;
  f_eq_int := fun x z => Qc_eq_bool x (Q2Qc (inject_Z z))
|}.

Inductive pynum (F : Type) : Type :=
  | PInt (z : Z)
  | PFloat (x : F).
Arguments PInt {F} z.
Arguments PFloat {F} x.

Section Numbers.
Context {F : Type} `{FloatOps F}.

(** [a + b] *)
Definition py_add (a b : pynum F) : exc (pynum F) :=
  match a, b with
  | PInt m, PInt n => Ok (PInt (m + n))
  | PInt m, PFloat y => x <-- f_of_int m ;; Ok (PFloat (f_add x y))
  | PFloat x, PInt n => y <-- f_of_int n ;; Ok (PFloat (f_add x y))
  | PFloat x, PFloat y => Ok (PFloat (f_add x y))
  end.

(** [a == b] *)
Definition py_eq (a b : pynum F) : bool :=
  match a, b with
  | PInt m, PInt n => m =? n
  | PInt m, PFloat y => f_eq_int y m
  | PFloat x, PInt n => f_eq_int x n
  | PFloat x, PFloat y => f_eqb x y
  end.

(** The loop of [sum]: the items are added to the running total from
    left to right, as the language reference has it and CPython does up
    to version 3.11 (for the floats of later versions see
    [sum_compensated]). *)
Fixpoint sum_from (acc : pynum F) (xs : list (pynum F)) : exc (pynum F) :=
  match xs with
  | [] => Ok acc
  | x :: r => acc' <-- py_add acc x ;; sum_from acc' r
  end.

(** [sum(xs)] of floats; the start value is the int [0]. *)
Definition py_sum (xs : list F) : exc (pynum F) :=
  sum_from (PInt 0) (PFloat <$> xs).

(** [a / n] for an int [n] (in [compute_report] always a [len]):
    ZeroDivisionError when [n] is 0, else the float quotient of the two
    operands converted to float. *)
Definition py_truediv_int (a : pynum F) (n : Z) : exc F :=
  if n =? 0 then Raise ZeroDivisionError
  else
    x <-- match a with PInt m => f_of_int m | PFloat x => Ok x end ;;
    y <-- f_of_int n ;;
    Ok (f_div x y).
End Numbers.

(* ===================================================================== *)
(** ** Dates *)
(* ===================================================================== *)

(** [datetime.date] *)
Record pydate : Set := { year : Z; month : Z; day : Z }.

Definition is_leap (y : Z) : bool :=
  (y mod 4 =? 0) && (negb (y mod 100 =? 0) || (y mod 400 =? 0)).

Definition days_in_month (y m : Z) : Z :=
  if m =? 2 then (if is_leap y then 29 else 28)
  else if (m =? 4) || (m =? 6) || (m =? 9) || (m =? 11) then 30
  else 31.

(** [date(y, m, d)]: ValueError outside the calendar. *)
Definition date_new (y m d : Z) : exc pydate :=
  if (1 <=? y) && (y <=? 9999) && (1 <=? m) && (m <=? 12)
     && (1 <=? d) && (d <=? days_in_month y m)
  then Ok {| year := y; month := m; day := d |}
  else Raise ValueError.

Definition date_compare (a b : pydate) : comparison :=
  match year a ?= year b with
  | Eq => match month a ?= month b with
          | Eq => day a ?= day b
          | c => c
          end
  | c => c
  end.

(** [a <= b], [a >= b] *)
Definition date_le (a b : pydate) : bool :=
  match date_compare a b with Gt => false | _ => true end.
Definition date_ge (a b : pydate) : bool := date_le b a.

(** [d.strftime('%d.%m.%Y')]: the text is that of [strftime] of the C
    library. Day and month are written on two digits; the year is
    written by [%Y] of glibc as a plain decimal number, without padding:
    [05.03.999] for the year 999, four digits from the year 1000 on. *)
Definition strftime_dmy (d : pydate) : pystr :=
  zero_pad 2 (decimal_digits (day d)) ++ [DOT]
  ++ zero_pad 2 (decimal_digits (month d)) ++ [DOT]
  ++ decimal_digits (year d).

(* ===================================================================== *)
(** ** [float(str)], [parse_number], [strptime], the rows of [fetch_data] *)
(* ===================================================================== *)

Definition is_ascii_digit (c : N) : bool := ((48 <=? c) && (c <=? 57))%N.

(** [Py_ISSPACE]: the white space of C. *)
Definition c_isspace (c : N) : bool := ((9 <=? c) && (c <=? 13) || (c =? 32))%N.

Definition ascii_lower (c : N) : N :=
  if ((65 <=? c) && (c <=? 90))%N then (c + 32)%N else c.

(** The values a cell or an argument of [parse_number] can take. *)
Inductive pyval : Type :=
  | PyInt (z : Z)
  | PyBool (b : bool)          (* a subclass of int *)
  | PyFloat (x : float64)
  | PyStr (s : pystr)
  | PyNone
  | PyObject.                  (* anything else: a list, a dict, ... *)

(** A row as [fetch_data] stores it. *)
Record Row (F : Type) : Type := {
  date : pydate;
  batons : F;
  sales : F;
  type : pystr;
  expense : F;
  margin : F
}.
Arguments date {F} _.
Arguments batons {F} _.
Arguments sales {F} _.
Arguments type {F} _.
Arguments expense {F} _.
Arguments margin {F} _.

(** The leading run of ASCII digits of [s], as digit values, and the rest. *)
Fixpoint span_digits (s : pystr) : list Z * pystr :=
  match s with
  | [] => ([], [])
  | c :: r =>
    if is_ascii_digit c then
      let '(ds, rest) := span_digits r in (Z.of_N (c - DIGIT0) :: ds, rest)
    else ([], s)
  end.

Definition digits_value (ds : list Z) : Z :=
  fold_left (fun acc d => 10 * acc + d) ds 0.

Definition take_sign (s : pystr) : bool * pystr :=
  match s with
  | c :: r => if (c =? MINUS)%N then (true, r)
              else if (c =? PLUS)%N then (false, r)
              else (false, s)
  | [] => (false, [])
  end.

(** [_Py_dg_strtod]: an optional sign, digits with an optional point (at
    least one digit in all), an optional exponent [e]/[E] with an
    optional sign and at least one digit. The result is the value and
    the unread rest; [None] is a parse error at the first character. *)
Definition dg_strtod (s : pystr) : option (float64 * pystr) :=
  let '(neg, s1) := take_sign s in
  let '(ip, s2) := span_digits s1 in
  let '(fp, s3) := match s2 with
                   | c :: r => if (c =? DOT)%N then span_digits r else ([], s2)
                   | [] => ([], s2)
                   end in
  match ip ++ fp with
  | [] => None
  | ds =>
    let '(ex, s4) :=
      match s3 with
      | c :: r =>
        if (ascii_lower c =? ord "e")%N then
          let '(eneg, r1) := take_sign r in
          let '(ed, r2) := span_digits r1 in
          match ed with
          | [] => (0, s3)
          | _ => (cond_Zopp eneg (digits_value ed), r2)
          end
        else (0, s3)
      | [] => (0, s3)
      end in
    Some (b64_of_decimal neg (digits_value ds) (ex - Z.of_nat (length fp)), s4)
  end.

(** [case_insensitive_match]: [t] is in lower case. *)
Fixpoint case_insensitive_match (t s : pystr) : option pystr :=
  match t, s with
  | [], _ => Some s
  | _ :: _, [] => None
  | a :: t', c :: s' =>
    if (ascii_lower c =? a)%N then case_insensitive_match t' s' else None
  end.

(** [_Py_parse_inf_or_nan] *)
Definition parse_inf_or_nan (s : pystr) : option (float64 * pystr) :=
  let '(neg, s1) := take_sign s in
  match case_insensitive_match (u "inf") s1 with
  | Some r =>
    match case_insensitive_match (u "inity") r with
    | Some r' => Some (S754_infinity neg, r')
    | None => Some (S754_infinity neg, r)
    end
  | None =>
    match case_insensitive_match (u "nan") s1 with
    | Some r => Some (S754_nan, r)
    | None => None
    end
  end.

(** [PyOS_string_to_double] with the whole string to be consumed. *)
Definition string_to_double (s : pystr) : option float64 :=
  match dg_strtod s with
  | Some (x, rest) => match rest with [] => Some x | _ => None end
  | None =>
    match parse_inf_or_nan s with
    | Some (x, []) => Some x
    | _ => None
    end
  end.

(** [float_from_string_inner]: C white space is stripped from both ends,
    an empty string is an error. *)
Definition float_from_string_inner (s : pystr) : option float64 :=
  match drop_while c_isspace s with
  | [] => None
  | s1 => string_to_double (rev (drop_while c_isspace (rev s1)))
  end.

(** [_Py_string_to_number_with_underscores]: an underscore is allowed
    between two digits only; [prev] is the previous character. *)
Fixpoint strip_underscores (prev : N) (s : pystr) : option pystr :=
  match s with
  | [] => if (prev =? UNDERSCORE)%N then None else Some []
  | c :: r =>
    if (c =? UNDERSCORE)%N then
      if is_ascii_digit prev then strip_underscores c r else None
    else if (prev =? UNDERSCORE)%N && negb (is_ascii_digit c) then None
    else option_map (cons c) (strip_underscores c r)
  end.

Section UnicodeDatabase.

(** The digit value of a non-ASCII code point of category Nd
    ([Py_UNICODE_TODECIMAL]). The table is part of the Unicode database
    of the interpreter and changes with its version. *)
Variable unicode_decimal : N -> option N.

Definition to_decimal (c : N) : option N :=
  if (c <? 128)%N then
    if is_ascii_digit c then Some (c - DIGIT0)%N else None
  else unicode_decimal c.

(** [_PyUnicode_TransformDecimalAndSpaceToASCII]: white space becomes a
    space, a decimal digit its ASCII digit; at the first other
    non-ASCII character the result ends with a question mark. *)
Fixpoint transform_decimal_and_space (s : pystr) : pystr :=
  match s with
  | [] => []
  | c :: r =>
    if (c <? 127)%N then c :: transform_decimal_and_space r
    else if py_isspace c then SPACE :: transform_decimal_and_space r
    else match to_decimal c with
         | Some d => (DIGIT0 + d)%N :: transform_decimal_and_space r
         | None => [QUESTION]
         end
  end.

(** [float(s)] for a str: ValueError when [s] is not the text of a
    number. *)
Definition float_of_str (s : pystr) : exc float64 :=
  match strip_underscores 0%N (transform_decimal_and_space s) with
  | None => Raise ValueError
  | Some s' =>
    match float_from_string_inner s' with
    | Some x => Ok x
    | None => Raise ValueError
    end
  end.

(** [float(v)] on the two branches where [parse_number] calls it. *)
Definition py_float (v : pyval) : exc float64 :=
  match v with
  | PyInt z => float_of_int z
  | PyBool b => float_of_int (Z.b2z b)
  | PyFloat x => Ok x
  | PyStr s => float_of_str s
  | _ => Raise TypeError
  end.

Definition isinstance_int_or_float (v : pyval) : bool :=
  match v with
  | PyInt _ | PyBool _ | PyFloat _ => true
  | _ => false
  end.

Definition isinstance_str (v : pyval) : bool :=
  match v with PyStr _ => true | _ => false end.

(** [parse_number(v)] *)
Definition parse_number (v : pyval) : exc float64 :=
  if isinstance_int_or_float v then py_float v
  else match v with
  | PyStr v =>
    let s := str_strip (str_replace1 NBSP [] v) in
    let is_percent := str_endswith [PERCENT] s in
    let s := if is_percent
             then str_strip (str_rstrip_chars [PERCENT] s) else s in
    let s := str_replace1 COMMA [DOT] s in
    try_except (num <-- py_float (PyStr s) ;; Ok num) ValueError (Ok b64_zero)
  | _ => Ok b64_zero
  end.

(** *** [datetime.strptime(raw_date, "%d.%m.%Y")] *)

(** A character class of a regular expression. *)
Definition charclass := N -> bool.
Definition cc_range (a b : N) : charclass :=
  fun c => ((a <=? c) && (c <=? b))%N.
Definition cc_char (a : N) : charclass := fun c => (c =? a)%N.
(** [\d] on a str pattern: any decimal digit of Unicode. *)
Definition cc_digit : charclass :=
  fun c => match to_decimal c with Some _ => true | None => false end.

(** A sequence of character classes against the start of [s]: the
    matched text and the rest. *)
Fixpoint match_classes (cs : list charclass) (s : pystr)
  : option (pystr * pystr) :=
  match cs, s with
  | [], _ => Some ([], s)
  | _ :: _, [] => None
  | cc :: cs', c :: s' =>
    if cc c then
      match match_classes cs' s' with
      | Some (m, rest) => Some (c :: m, rest)
      | None => None
      end
    else None
  end.

(** A sequence of groups, each an ordered choice between sequences of
    character classes, matched with backtracking as [re.match] does:
    the first choice for which the rest of the pattern matches wins.
    The result is the text of each group and the unmatched rest. *)
Fixpoint match_groups (gs : list (list (list charclass))) (s : pystr)
  : option (list pystr * pystr) :=
  match gs with
  | [] => Some ([], s)
  | alts :: gs' =>
    (fix try_alts (alts : list (list charclass)) :=
       match alts with
       | [] => None
       | alt :: alts' =>
         match match_classes alt s with
         | Some (m, rest) =>
           match match_groups gs' rest with
           | Some (caps, r) => Some (m :: caps, r)
           | None => try_alts alts'
           end
         | None => try_alts alts'
         end
       end) alts
  end.

(** The pattern [_strptime] compiles for ["%d.%m.%Y"]:
    [(3[0-1]|[1-2]\d|0[1-9]|[1-9]| [1-9])\.(1[0-2]|0[1-9]|[1-9])\.(\d\d\d\d)] *)
Definition re_d : list (list charclass) :=
  [ [cc_char (ord "3"); cc_range (ord "0") (ord "1")];
    [cc_range (ord "1") (ord "2"); cc_digit];
    [cc_char (ord "0"); cc_range (ord "1") (ord "9")];
    [cc_range (ord "1") (ord "9")];
    [cc_char SPACE; cc_range (ord "1") (ord "9")] ].
Definition re_m : list (list charclass) :=
  [ [cc_char (ord "1"); cc_range (ord "0") (ord "2")];
    [cc_char (ord "0"); cc_range (ord "1") (ord "9")];
    [cc_range (ord "1") (ord "9")] ].
Definition re_Y : list (list charclass) :=
  [ [cc_digit; cc_digit; cc_digit; cc_digit] ].
Definition re_dot : list (list charclass) := [ [cc_char DOT] ].
Definition re_dmY : list (list (list charclass)) :=
  [re_d; re_dot; re_m; re_dot; re_Y].

(** [int(s)] on the text of a group: decimal digits, white space
    around them ignored. *)
Definition int_of_group (s : pystr) : Z :=
  fold_left (fun acc c => match to_decimal c with
                          | Some d => 10 * acc + Z.of_N d
                          | None => acc
                          end) s 0.

Definition strptime_dmy (data_string : pystr) : exc pydate :=
  match match_groups re_dmY data_string with
  | Some ([d; _; m; _; Y], rest) =>
    match rest with
    | [] => date_new (int_of_group Y) (int_of_group m) (int_of_group d)
    | _ => Raise ValueError       (* unconverted data remains *)
    end
  | _ => Raise ValueError         (* does not match format *)
  end.

(** *** The loop of [fetch_data] *)

(** [row[i]] *)
Definition getitem (row : list pystr) (i : nat) : exc pystr :=
  match row !! i with
  | Some c => Ok c
  | None => Raise IndexError
  end.

(** The body of the loop on one row: [None] stands for [continue], an
    exception leaves the loop. *)
Definition parse_row (row : list pystr) : exc (option (Row float64)) :=
  if (length row <? 6)%nat then Ok None
  else
    raw_date <-- getitem row 0 ;;
    match strptime_dmy raw_date with
    | Raise _ => Ok None
    | Ok date_obj =>
      c1 <-- getitem row 1 ;; v1 <-- parse_number (PyStr c1) ;;
      c2 <-- getitem row 2 ;; v2 <-- parse_number (PyStr c2) ;;
      c3 <-- getitem row 3 ;;
      c4 <-- getitem row 4 ;; v4 <-- parse_number (PyStr c4) ;;
      c5 <-- getitem row 5 ;; v5 <-- parse_number (PyStr c5) ;;
      Ok (Some {| date := date_obj; batons := v1; sales := v2;
                  type := c3; expense := v4; margin := v5 |})
    end.

Fixpoint parse_rows (rows : list (list pystr)) : exc (list (Row float64)) :=
  match rows with
  | [] => Ok []
  | row :: rest =>
    r <-- parse_row row ;;
    data <-- parse_rows rest ;;
    Ok (match r with Some item => item :: data | None => data end)
  end.

(** [fetch_data()], given what the request to the sheet gives: an
    exception, or a response with or without the key ['values']. The
    first row of the values is the header. Any exception ends in an
    empty list. *)
Definition fetch_data (result : exc (option (list (list pystr))))
  : list (Row float64) :=
  match (r <-- result ;;
         let values := default [] r in
         parse_rows (tail values)) with
  | Ok data => data
  | Raise _ => []
  end.

End UnicodeDatabase.

(* ===================================================================== *)
(** ** [filter_data] *)
(* ===================================================================== *)

(** The condition of the comprehension; [or] and [and] evaluate their
    right operand only when needed, so a bound that is [None] is never
    compared. *)
Definition in_period {F} (start_date end_date : option pydate) (item : Row F)
  : bool :=
  (match start_date with
   | None => true
   | Some s => date_ge (date item) s
   end)
  &&
  (match end_date with
   | None => true
   | Some e => date_le (date item) e
   end).

(** [filter_data(data, start_date=None, end_date=None)] *)
Fixpoint filter_data {F} (data : list (Row F))
    (start_date end_date : option pydate) : list (Row F) :=
  match data with
  | [] => []
  | item :: rest =>
    if in_period start_date end_date item
    then item :: filter_data rest start_date end_date
    else filter_data rest start_date end_date
  end.

(* ===================================================================== *)
(** ** [compute_report] *)
(* ===================================================================== *)

Definition ONLINE : pystr := Eval vm_compute in u "Онлайн".
Definition FOP : pystr := Eval vm_compute in u "ФОП".

(** The dictionary [compute_report] returns. A total is what [sum]
    gives, an int or a float; an average is a float. *)
Record Stats (F : Type) : Type := {
  total_batons : pynum F;
  total_sales : pynum F;
  total_online : pynum F;
  total_fop : pynum F;
  stats_expense : pynum F;       (* key 'expense' *)
  avg_margin : F;
  avg_online : F;
  avg_fop : F
}.
Arguments total_batons {F} _.
Arguments total_sales {F} _.
Arguments total_online {F} _.
Arguments total_fop {F} _.
Arguments stats_expense {F} _.
Arguments avg_margin {F} _.
Arguments avg_online {F} _.
Arguments avg_fop {F} _.

(** The truth value of a list: not empty. *)
Definition truthy {A} (l : list A) : bool :=
  match l with [] => false | _ :: _ => true end.

(** [len(l)] *)
Definition len {A} (l : list A) : Z := Z.of_nat (length l).

(** [item['type'] == label] *)
Definition type_is {F} (label : pystr) (item : Row F) : Prop :=
  type item = label.

Global Instance type_is_dec {F} (label : pystr) (item : Row F) :
  Decision (type_is label item).
Proof. unfold type_is. apply _. Defined.

Section Report.
Context {F : Type} `{FloatOps F}.

(** [sum(xs) / len(xs) if xs else 0.0] *)
Definition average_or_zero (xs : list F) : exc F :=
  if truthy xs then
    s <-- py_sum xs ;; py_truediv_int s (len xs)
  else Ok f_zero.

Definition compute_report (rows : list (Row F)) : exc (Stats F) :=
  total_batons <-- py_sum (batons <$> rows) ;;
  total_sales <-- py_sum (sales <$> rows) ;;
  total_online <-- py_sum (sales <$> filter (type_is ONLINE) rows) ;;
  total_fop <-- py_sum (sales <$> filter (type_is FOP) rows) ;;
  total_expense <-- py_sum (expense <$> rows) ;;
  let margins := margin <$> rows in
  let margins_online := margin <$> filter (type_is ONLINE) rows in
  let margins_fop := margin <$> filter (type_is FOP) rows in
  avg_margin <-- average_or_zero margins ;;
  avg_online <-- average_or_zero margins_online ;;
  avg_fop <-- average_or_zero margins_fop ;;
  Ok {| total_batons := total_batons;
        total_sales := total_sales;
        total_online := total_online;
        total_fop := total_fop;
        stats_expense := total_expense;
        avg_margin := avg_margin;
        avg_online := avg_online;
        avg_fop := avg_fop |}.
End Report.

(* ===================================================================== *)
(** ** [format_report] *)
(* ===================================================================== *)

(** The most digits an int may have to be converted to text
    ([sys.int_info.default_max_str_digits]). *)
Definition MAX_STR_DIGITS : Z := 4300.

(** [str(z)] for an int, as an f-string and [str] compute it: ValueError
    for an int of more than [MAX_STR_DIGITS] digits (the sign is not
    counted). *)
Definition py_str_of_int (z : Z) : exc pystr :=
  if MAX_STR_DIGITS <? Z.of_nat (length (decimal_digits (Z.abs z)))
  then Raise ValueError
  else Ok (str_of_int z).

(** The text of [{x}] in an f-string: [str(x)]. *)
Definition format_default (x : pynum float64) : exc pystr :=
  match x with
  | PInt z => py_str_of_int z
  | PFloat f => Ok (float_repr f)
  end.

Definition format_report (start_date end_date : pydate) (stats : Stats float64)
  : exc pystr :=
  let header :=
    u "📊 Звіт Чіназес за " ++ strftime_dmy start_date ++ u "–"
      ++ strftime_dmy end_date ++ [NEWLINE; NEWLINE] in
  batons_text <-- format_default (total_batons stats) ;;
  sales_text <-- format_default (total_sales stats) ;;
  online_text <-- format_default (total_online stats) ;;
  fop_text <-- format_default (total_fop stats) ;;
  expense_text <-- format_default (stats_expense stats) ;;
  let body :=
    u "🔹 Батонів продано: " ++ batons_text ++ [NEWLINE]
    ++ u "🔹 Сума продажів: " ++ sales_text ++ [NEWLINE; NEWLINE]
    ++ u "💳 ФОП-онлайн: " ++ online_text ++ [NEWLINE]
    ++ u "🤝 ФОП-ФОП: " ++ fop_text ++ [NEWLINE; NEWLINE]
    ++ u "💸 Витрати: " ++ expense_text ++ [NEWLINE; NEWLINE]
    ++ u "📈 Середня маржа: " ++ format_2f (avg_margin stats)
         ++ [PERCENT; NEWLINE]
    ++ u "- Онлайн: " ++ format_2f (avg_online stats) ++ [PERCENT; NEWLINE]
    ++ u "- ФОП: " ++ format_2f (avg_fop stats) ++ [PERCENT; NEWLINE] in
  Ok (header ++ body).

(* ===================================================================== *)
(** ** Reference definitions used in the statements *)
(* ===================================================================== *)

(** The text [parse_number] hands to [float] for a str argument [v]. *)
Definition float_argument (v : pystr) : pystr :=
  let s := str_strip (str_replace1 NBSP [] v) in
  let s := if str_endswith [PERCENT] s
           then str_strip (str_rstrip_chars [PERCENT] s) else s in
  str_replace1 COMMA [DOT] s.

(** What [replace(',', '.')] does to one character. *)
Definition comma_to_dot (c : N) : N := if (c =? COMMA)%N then DOT else c.

(** The text [repr] gives for the float a computation returns; floats
    are named by this text in the examples. *)
Definition repr_of (r : exc float64) : exc pystr :=
  x <-- r ;; Ok (float_repr x).

(** Chronological order of dates: year, then month, then day. *)
Definition date_leq (a b : pydate) : Prop :=
  year a < year b
  \/ (year a = year b
      /\ (month a < month b \/ (month a = month b /\ day a <= day b))).

(** A record lies in the period: each bound is inclusive, an absent bound
    does not constrain. *)
Definition within_period {F} (start_date end_date : option pydate)
    (item : Row F) : Prop :=
  match start_date with
  | None => True
  | Some s => date_leq s (date item)
  end
  /\ match end_date with
     | None => True
     | Some e => date_leq (date item) e
     end.

Global Instance date_leq_dec (a b : pydate) : Decision (date_leq a b).
Proof. unfold date_leq. apply _. Defined.

Global Instance within_period_dec {F} (s e : option pydate) (item : Row F) :
  Decision (within_period s e item).
Proof. unfold within_period. destruct s, e; apply _. Defined.

(** The float of a cell: [float] of its normalised text, [0.0] when that
    is no number. *)
Definition cell_number (ud : N -> option N) (c : pystr) : float64 :=
  match float_of_str ud (float_argument c) with
  | Ok x => x
  | Raise _ => b64_zero
  end.

(** A number on two, on three and on four decimal digits. *)
Definition two_digits (n : Z) : pystr :=
  [digit_char (n / 10 mod 10); digit_char (n mod 10)].
Definition three_digits (n : Z) : pystr :=
  [digit_char (n / 100 mod 10); digit_char (n / 10 mod 10);
   digit_char (n mod 10)].
Definition four_digits (n : Z) : pystr :=
  [digit_char (n / 1000 mod 10); digit_char (n / 100 mod 10);
   digit_char (n / 10 mod 10); digit_char (n mod 10)].

(** A year written without leading zeros: four digits from the year 1000
    on, fewer before. *)
Definition year_digits (y : Z) : pystr :=
  if y <? 10 then [digit_char y]
  else if y <? 100 then two_digits y
  else if y <? 1000 then three_digits y
  else four_digits y.

(** A date written day.month.year: day and month on two digits, the year
    without leading zeros. *)
Definition dmy_text (d : pydate) : pystr :=
  two_digits (day d) ++ [DOT] ++ two_digits (month d) ++ [DOT]
  ++ year_digits (year d).

(** What [.2f] writes for a float that is not finite. *)
Definition non_finite_text (x : float64) : pystr :=
  match x with
  | S754_infinity false => u "inf"
  | S754_infinity true => u "-inf"
  | _ => u "nan"
  end.

(** A group of the date pattern matches a text in front of a point,
    whatever follows, when the rest of the pattern matches from that
    point on. *)
Definition group_matches (g : list (list charclass)) (text : pystr) : Prop :=
  forall gs rest caps r,
    match_groups gs (DOT :: rest) = Some (caps, r) ->
    match_groups (g :: gs) (text ++ DOT :: rest) = Some (text :: caps, r).

(** The arithmetic mean of a list of binary64 floats as Python computes
    it: the running sum from [0.0], divided by the converted length; and
    [0.0] for the empty list. *)
Definition mean_or_zero (xs : list float64) : float64 :=
  match xs with
  | [] => b64_zero
  | _ :: _ =>
    b64_div (fold_left b64_add xs b64_zero)
            (binary_normalize prec emax (len xs) 0 false)
  end.

(** A text ends with a point and exactly two decimal digits, after at
    least one digit and an optional minus sign. *)
Definition has_two_decimals (s : pystr) : bool :=
  match rev s with
  | d2 :: d1 :: dot :: ip =>
    is_ascii_digit d2 && is_ascii_digit d1 && (dot =? DOT)%N
    && match rev ip with
       | [] => false
       | c :: r =>
         if (c =? MINUS)%N then truthy r && forallb is_ascii_digit r
         else forallb is_ascii_digit ip
       end
  | _ => false
  end.

(** A date of the calendar, as every [datetime.date] is. *)
Definition valid_date (d : pydate) : bool :=
  (1 <=? year d) && (year d <=? 9999) && (1 <=? month d) && (month d <=? 12)
  && (1 <=? day d) && (day d <=? days_in_month (year d) (month d)).

(** The summation CPython uses for floats from version 3.12 on
    (Neumaier's compensated sum): [c] collects the rounding errors of
    the running total [f] and is added at the end. *)
Fixpoint neumaier_loop (f c : float64) (xs : list float64) : float64 :=
  match xs with
  | [] => if negb (SFeqb c b64_zero) && b64_is_finite c then b64_add f c else f
  | x :: r =>
    let t := b64_add f x in
    let c' := if SFleb (SFabs x) (SFabs f)
              then b64_add c (b64_add (b64_sub f t) x)
              else b64_add c (b64_add (b64_sub x t) f) in
    neumaier_loop t c' r
  end.

Definition sum_compensated (xs : list float64) : pynum float64 :=
  match xs with
  | [] => PInt 0
  | x :: r => PFloat (neumaier_loop (b64_add b64_zero x) b64_zero r)
  end.

(** A record of one of the two channels the report singles out. *)
Definition has_channel_label {F} (item : Row F) : Prop :=
  type_is ONLINE item \/ type_is FOP item.

Global Instance has_channel_label_dec {F} (item : Row F) :
  Decision (has_channel_label item).
Proof. unfold has_channel_label. apply _. Defined.

(** The float total of a list, accumulated from [0.0] from left to right,
    and what [sum] returns for it: the int [0] for the empty list. *)
Definition fsum {F} `{FloatOps F} (xs : list F) : F :=
  fold_left f_add xs f_zero.

Definition total_of {F} `{FloatOps F} (xs : list F) : pynum F :=
  match xs with
  | [] => PInt 0
  | _ :: _ => PFloat (fsum xs)
  end.

(** Laws of exact arithmetic: conversion from int never fails, addition
    is commutative and associative with [0.0] as identity. *)
Class ExactArith (F : Type) `{FloatOps F} : Prop := {
  f_of_int_total : forall z, exists y, f_of_int z = Ok y;
  f_of_int_zero : f_of_int 0 = Ok f_zero;
  f_add_comm : forall x y, f_add x y = f_add y x;
  f_add_assoc : forall x y z, f_add x (f_add y z) = f_add (f_add x y) z;
  f_add_zero_l : forall x, f_add f_zero x = x
}.

(** *** Inputs of the examples *)

(** The Unicode table restricted to ASCII. *)
Definition ascii_only : N -> option N := fun _ => None.

Definition header_row : list pystr :=
  [u "Дата"; u "Батони"; u "Продажі"; u "Тип"; u "Витрати"; u "Маржа"].

(** A sheet with an online record of margin 10% and a partner record of
    margin 20. *)
Definition two_channel_sheet : list (list pystr) :=
  [ header_row;
    [u "05.03.2024"; u "10"; u "500"; u "Онлайн"; u "50"; u "10%"];
    [u "06.03.2024"; u "4"; u "250,5"; u "ФОП"; u "20"; u "20"] ].

(** A sheet whose sales are 0.1 (online), 0.1 (partner), 1.1 (online). *)
Definition rounding_sheet : list (list pystr) :=
  [ header_row;
    [u "01.03.2024"; u "1"; u "0.1"; u "Онлайн"; u "0"; u "10"];
    [u "02.03.2024"; u "1"; u "0.1"; u "ФОП"; u "0"; u "10"];
    [u "03.03.2024"; u "1"; u "1.1"; u "Онлайн"; u "0"; u "10"] ].

(** A sheet whose sales are 1e308 (online), 1e308 (partner), -1e308
    (online). *)
Definition overflow_sheet : list (list pystr) :=
  [ header_row;
    [u "01.03.2024"; u "1"; u "1e308"; u "Онлайн"; u "0"; u "10"];
    [u "02.03.2024"; u "1"; u "1e308"; u "ФОП"; u "0"; u "10"];
    [u "03.03.2024"; u "1"; u "-1e308"; u "Онлайн"; u "0"; u "10"] ].

(** A sheet with a margin cell that reads [nan]. *)
Definition nan_sheet : list (list pystr) :=
  [ header_row;
    [u "05.03.2024"; u "10"; u "500"; u "Онлайн"; u "50"; u "nan"] ].

Definition rows_of (sheet : list (list pystr)) : list (Row float64) :=
  fetch_data ascii_only (Ok (Some sheet)).

Definition march_1 : pydate := {| year := 2024; month := 3; day := 1 |}.
Definition march_31 : pydate := {| year := 2024; month := 3; day := 31 |}.

(** A summary with finite averages. *)
Definition example_stats : Stats float64 :=
  {| total_batons := PFloat (b64_of_decimal false 16 0);
     total_sales := PFloat (b64_of_decimal false 5002 (-1));
     total_online := PFloat (b64_of_decimal false 500 0);
     total_fop := PInt 0;
     stats_expense := PFloat (b64_of_decimal false 501 (-1));
     avg_margin := b64_of_decimal false 12 0;
     avg_online := b64_of_decimal false 125 (-3);
     avg_fop := b64_zero |}.

(** Two records over the exact rationals. *)
Definition exact_rows : list (Row Qc) :=
  [ {| date := march_1; batons := Q2Qc 1; sales := Q2Qc (1 # 10);
       type := ONLINE; expense := Q2Qc 0; margin := Q2Qc 10 |};
    {| date := march_31; batons := Q2Qc 2; sales := Q2Qc (11 # 10);
       type := FOP; expense := Q2Qc 5; margin := Q2Qc 20 |} ].

(* ===================================================================== *)
(** ** Date arithmetic: [date - timedelta(days=k)], [min] *)
(* ===================================================================== *)

Definition DAYS_IN_MONTH : list Z :=
  [-1; 31; 28; 31; 30; 31; 30; 31; 31; 30; 31; 30; 31].
Definition DAYS_BEFORE_MONTH : list Z :=
  [-1; 0; 31; 59; 90; 120; 151; 181; 212; 243; 273; 304; 334].

(** [table[i]] for an index in range. *)
Definition table_get (table : list Z) (i : Z) : Z :=
  nth (Z.to_nat i) table 0.

(** [_days_before_year(year)]: the days before January 1st of [year]. *)
Definition days_before_year (y : Z) : Z :=
  let y := y - 1 in
  y * 365 + y / 4 - y / 100 + y / 400.

(** [_days_before_month(year, month)] *)
Definition days_before_month (y m : Z) : Z :=
  table_get DAYS_BEFORE_MONTH m + Z.b2z ((2 <? m) && is_leap y).

(** [_ymd2ord(year, month, day)]: January 1st of year 1 is day 1. *)
Definition ymd2ord (y m d : Z) : Z :=
  days_before_year y + days_before_month y m + d.

(** [d.toordinal()] *)
Definition toordinal (d : pydate) : Z := ymd2ord (year d) (month d) (day d).

Definition MAXORDINAL : Z := 3652059.      (* date.max.toordinal() *)

(** [_ord2ymd(n)] *)
Definition ord2ymd (n : Z) : Z * Z * Z :=
  let n := n - 1 in
  let n400 := n / 146097 in
  let n := n mod 146097 in
  let year := n400 * 400 + 1 in
  let n100 := n / 36524 in
  let n := n mod 36524 in
  let n4 := n / 1461 in
  let n := n mod 1461 in
  let n1 := n / 365 in
  let n := n mod 365 in
  let year := year + n100 * 100 + n4 * 4 + n1 in
  if (n1 =? 4) || (n100 =? 4) then (year - 1, 12, 31)
  else
    let leapyear := (n1 =? 3) && (negb (n4 =? 24) || (n100 =? 3)) in
    let month := Z.shiftr (n + 50) 5 in
    let preceding :=
      table_get DAYS_BEFORE_MONTH month + Z.b2z ((2 <? month) && leapyear) in
    if n <? preceding then
      let month := month - 1 in
      let preceding :=
        preceding
        - (table_get DAYS_IN_MONTH month + Z.b2z ((month =? 2) && leapyear)) in
      (year, month, n - preceding + 1)
    else (year, month, n - preceding + 1).

(** [date.fromordinal(n)] *)
Definition fromordinal (n : Z) : exc pydate :=
  let '(y, m, d) := ord2ymd n in date_new y m d.

(** [d - timedelta(days=k)]: OverflowError when the result is no date. *)
Definition date_sub_days (d : pydate) (k : Z) : exc pydate :=
  let o := toordinal d + - k in
  if (0 <? o) && (o <=? MAXORDINAL) then fromordinal o
  else Raise OverflowError.

(** [a < b] *)
Definition date_lt (a b : pydate) : bool :=
  match date_compare a b with Lt => true | _ => false end.

(** [min(dates, default=default)]: the first of the least dates. *)
Definition min_date (default : pydate) (dates : list pydate) : pydate :=
  match dates with
  | [] => default
  | d :: rest => fold_left (fun best x => if date_lt x best then x else best) rest d
  end.

(* ===================================================================== *)
(** ** The handlers of the bot *)
(* ===================================================================== *)

(** [telebot.types.Message], as far as the handlers read it. *)
Record Message : Set := {
  message_from_user_id : Z;      (* message.from_user.id *)
  message_chat_id : Z            (* message.chat.id *)
}.

(** [telebot.types.CallbackQuery] of a button under a message of the bot. *)
Record CallbackQuery : Set := {
  call_from_user_id : Z;         (* call.from_user.id *)
  call_data : pystr;             (* call.data *)
  call_message : Message         (* call.message *)
}.

Record InlineKeyboardButton : Set := {
  button_text : pystr;
  button_callback_data : pystr
}.

(** [InlineKeyboardMarkup(row_width=1)]: the rows of the keyboard. *)
Definition InlineKeyboardMarkup := list (list InlineKeyboardButton).

(** [kb.add(button)] with one button: a new row. *)
Definition kb_add (kb : InlineKeyboardMarkup) (b : InlineKeyboardButton)
  : InlineKeyboardMarkup :=
  kb ++ [[b]].

(** A call of [bot.send_message]. *)
Record SentMessage : Set := {
  sent_chat_id : Z;
  sent_text : pystr;
  sent_reply_markup : option InlineKeyboardMarkup;
  sent_parse_mode : option pystr
}.

(** What a handler changes: the number of requests made to the sheet and
    the messages sent so far. *)
Record World : Set := {
  requests : nat;
  outbox : list SentMessage
}.

(** The exceptions of a handler: those of the report core, and the
    AttributeError of an attribute the object has not. *)
Inductive bot_exn : Set :=
  | CoreError (e : exn)
  | AttributeError.

Inductive outcome (A : Type) : Type :=
  | Returned (a : A)
  | Raised (e : bot_exn).
Arguments Returned {A} a.
Arguments Raised {A} e.

(** A handler step: an outcome and the world after it. *)
Definition bot (A : Type) : Type := World -> outcome A * World.

Definition bot_ret {A} (a : A) : bot A := fun w => (Returned a, w).

Definition bot_bind {A B} (m : bot A) (k : A -> bot B) : bot B :=
  fun w =>
    match m w with
    | (Returned a, w') => k a w'
    | (Raised e, w') => (Raised e, w')
    end.

Notation "x <~ m ;; k" := (bot_bind m (fun x => k))
  (at level 100, m at next level, right associativity,
   format "'[v' x  <~  m  ;;  '/' k ']'").

(** An exception of the core raised inside a handler. *)
Definition bot_lift {A} (r : exc A) : bot A :=
  fun w =>
    match r with
    | Ok a => (Returned a, w)
    | Raise e => (Raised (CoreError e), w)
    end.

Definition bot_attr {A} (r : outcome A) : bot A := fun w => (r, w).

(** [bot.send_message(chat_id, text, reply_markup=..., parse_mode=...)] *)
Definition send_message (chat_id : Z) (text : pystr)
    (reply_markup : option InlineKeyboardMarkup) (parse_mode : option pystr)
  : bot unit :=
  fun w =>
    (Returned tt,
     {| requests := requests w;
        outbox := outbox w ++ [ {| sent_chat_id := chat_id;
                                   sent_text := text;
                                   sent_reply_markup := reply_markup;
                                   sent_parse_mode := parse_mode |} ] |}).

(** The attributes [restricted] reads from the object a handler gets. A
    [Message] has [from_user] and [chat]; a [CallbackQuery] has
    [from_user] and [message], and no [chat]. *)
Class TelegramObject (T : Type) := {
  from_user_id : T -> Z;             (* obj.from_user.id *)
  chat_id : T -> outcome Z           (* obj.chat.id *)
}.

Global Instance message_object : TelegramObject Message := {|
  from_user_id := message_from_user_id;
  chat_id := fun m => Returned (message_chat_id m)
|}.

Global Instance callback_object : TelegramObject CallbackQuery := {|
  from_user_id := call_from_user_id;
  chat_id := fun _ => Raised AttributeError
|}.

(** [s.startswith(prefix)] *)
Definition str_startswith (prefix s : pystr) : bool := is_prefix prefix s.

Section Handlers.

(** The Unicode table of the interpreter. *)
Variable ud : N -> option N.
(** [WHITELIST = config["WHITELIST_IDS"]] *)
Variable WHITELIST : list Z.
(** What [datetime.now().date()] gives while the handler runs. *)
Variable now : pydate.
(** What the sheet answers to the request number [i]. *)
Variable sheet : nat -> exc (option (list (list pystr))).

(** [fetch_data()] inside a handler: one more request to the sheet. *)
Definition fetch : bot (list (Row float64)) :=
  fun w =>
    (Returned (fetch_data ud (sheet (requests w))),
     {| requests := S (requests w); outbox := outbox w |}).

(** [restricted(func)] *)
Definition restricted {T} `{TelegramObject T} (func : T -> bot unit)
  : T -> bot unit :=
  fun message =>
    if negb (bool_decide (from_user_id message ∈ WHITELIST)) then
      c <~ bot_attr (chat_id message) ;;
      send_message c (u "⛔️ Доступ заборонено.") None None
    else func message.

Definition start_command (message : Message) : bot unit :=
  let kb :=
    fold_left
      (fun kb '(label, cb) =>
         kb_add kb {| button_text := label; button_callback_data := cb |})
      [ (u "Чіназес", u "chinazes_") ]
      [] in
  send_message (message_chat_id message) (u "Оберіть тип звіту:") (Some kb) None.

Definition period_command (call : CallbackQuery) : bot unit :=
  let kb :=
    fold_left
      (fun kb '(label, cb) =>
         kb_add kb {| button_text := label; button_callback_data := cb |})
      [ (u "🗓 Звіт за тиждень", u "report_week");
        (u "🗓 Звіт за місяць", u "report_month");
        (u "📆 Звіт з початку продажів", u "report_all") ]
      [] in
  send_message (message_chat_id (call_message call))
               (u "Оберіть період звіту:") (Some kb) None.

Definition callback_report (call : CallbackQuery) : bot unit :=
  start <~ (if str_eqb (call_data call) (u "report_week") then
              bot_lift (date_sub_days now 7)
            else if str_eqb (call_data call) (u "report_month") then
              bot_lift (date_sub_days now 30)
            else
              all_data <~ fetch ;;
              bot_ret (min_date now (date <$> all_data))) ;;
  let end_date := now in
  data <~ fetch ;;
  let filtered := filter_data data (Some start) (Some end_date) in
  stats <~ bot_lift (compute_report filtered) ;;
  report_text <~ bot_lift (format_report start end_date stats) ;;
  send_message (message_chat_id (call_message call)) report_text None None.

Definition myid_command (message : Message) : bot unit :=
  id_text <~ bot_lift (py_str_of_int (message_from_user_id message)) ;;
  send_message (message_chat_id message)
    (u "🆔 Ваш Telegram ID: `" ++ id_text ++ u "`")
    None (Some (u "Markdown")).

(** The two callback handlers as registered, each behind its filter
    [func]; the first handler whose filter holds gets the query. *)
Definition process_callback (c : CallbackQuery) : bot unit :=
  if str_startswith (u "chinazes") (call_data c) then
    restricted period_command c
  else if str_startswith (u "report_") (call_data c) then
    restricted callback_report c
  else bot_ret tt.

End Handlers.

(** The callback data of the buttons a run of a handler has sent. *)
Definition buttons_of (m : SentMessage) : list InlineKeyboardButton :=
  match sent_reply_markup m with
  | Some kb => List.concat kb
  | None => []
  end.

Definition sent_callback_data (w : World) : list pystr :=
  List.map button_callback_data (List.flat_map buttons_of (outbox w)).

(** A world in which nothing has happened yet. *)
Definition fresh : World := {| requests := 0; outbox := [] |}.

(** The summary of no record. *)
Definition zero_stats : Stats float64 :=
  {| total_batons := PInt 0; total_sales := PInt 0; total_online := PInt 0;
     total_fop := PInt 0; stats_expense := PInt 0;
     avg_margin := b64_zero; avg_online := b64_zero; avg_fop := b64_zero |}.

(** The month lengths and the day of the year by the leap flag alone. *)
Definition month_length (leap : bool) (m : Z) : Z :=
  table_get DAYS_IN_MONTH m + Z.b2z ((m =? 2) && leap).
Definition month_start (leap : bool) (m : Z) : Z :=
  table_get DAYS_BEFORE_MONTH m + Z.b2z ((2 <? m) && leap).

(** The month and the day [_ord2ymd] finds for the offset [n] from
    January 1st. *)
Definition month_day_of (leap : bool) (n : Z) : Z * Z :=
  let month := Z.shiftr (n + 50) 5 in
  let preceding := month_start leap month in
  if n <? preceding then
    let month := month - 1 in
    (month, n - (preceding - month_length leap month) + 1)
  else (month, n - preceding + 1).

(** *** Reference definitions for the dates and the handlers *)

Definition month_day_ok (leap : bool) (n : Z) : bool :=
  let '(m, d) := month_day_of leap n in
  (1 <=? m) && (m <=? 12) && (1 <=? d) && (d <=? month_length leap m)
  && (month_start leap m + d =? n + 1).

Definition month_table_ok (leap : bool) (m : Z) : bool :=
  (0 <=? month_start leap m)
  && (1 <=? month_length leap m)
  && (month_start leap m + month_length leap m <=? 365 + Z.b2z leap)
  && ((m =? 12)
      || (month_start leap (m + 1) =? month_start leap m + month_length leap m)).

Definition in_last_days (now : pydate) (k : Z) (r : Row float64) : Prop :=
  toordinal now - k <= toordinal (date r) <= toordinal now.

Global Instance in_last_days_dec (now : pydate) (k : Z) (r : Row float64) :
  Decision (in_last_days now k r).
Proof. unfold in_last_days. apply _. Defined.

Definition up_to (now : pydate) (r : Row float64) : Prop :=
  date_leq (date r) now.

Global Instance up_to_dec (now : pydate) (r : Row float64) :
  Decision (up_to now r).
Proof. unfold up_to. apply _. Defined.

Definition plain_message (chat : Z) (text : pystr) : SentMessage :=
  {| sent_chat_id := chat; sent_text := text;
     sent_reply_markup := None; sent_parse_mode := None |}.

Definition sent (w : World) (m : SentMessage) : World :=
  {| requests := requests w; outbox := outbox w ++ [m] |}.

Definition requested (w : World) : World :=
  {| requests := S (requests w); outbox := outbox w |}.

(** *** Inputs of the examples of the handlers *)

Definition example_whitelist : list Z := [1001; 1002].

Definition march_13 : pydate := {| year := 2024; month := 3; day := 13 |}.

(** A sheet that answers every request with the same rows, and one whose
    every request fails. *)
Definition steady_sheet : nat -> exc (option (list (list pystr))) :=
  fun _ => Ok (Some two_channel_sheet).
Definition failing_sheet : nat -> exc (option (list (list pystr))) :=
  fun _ => Raise HttpError.

(** The message of the bot that carries the keyboard, in the chat of the
    user 1001. *)
Definition keyboard_message : Message :=
  {| message_from_user_id := 7000; message_chat_id := 1001 |}.

Definition week_call : CallbackQuery :=
  {| call_from_user_id := 1001; call_data := u "report_week";
     call_message := keyboard_message |}.
Definition all_call : CallbackQuery :=
  {| call_from_user_id := 1001; call_data := u "report_all";
     call_message := keyboard_message |}.
Definition stranger_call : CallbackQuery :=
  {| call_from_user_id := 5; call_data := u "report_all";
     call_message := keyboard_message |}.
Definition stranger_message : Message :=
  {| message_from_user_id := 5; message_chat_id := 5 |}.

(** A record whose margin is not a number, and a record of a third
    label. *)
Definition nan_row : Row float64 :=
  {| date := march_13; batons := b64_zero; sales := b64_zero;
     type := ONLINE; expense := b64_zero; margin := S754_nan |}.
Definition gift_row : Row float64 :=
  {| date := march_13; batons := b64_zero; sales := b64_zero;
     type := u "Подарунок"; expense := b64_zero; margin := b64_zero |}.

(* ===================================================================== *)
(** * Properties *)
(* ===================================================================== *)

(** ** Sums and averages *)

Global Instance exact_arith : ExactArith Qc.
Proof.
  split; simpl.
  - intros z. eexists. reflexivity.
  - reflexivity.
  - intros. apply Qcplus_comm.
  - intros. apply Qcplus_assoc.
  - intros. apply Qcplus_0_l.
Qed.

Section SumLemmas.
Context {F : Type} `{FloatOps F}.
Hypothesis of_int_zero : f_of_int 0 = Ok f_zero.

Lemma sum_from_float (a : F) (xs : list F) :
  sum_from (PFloat a) (PFloat <$> xs) = Ok (PFloat (fold_left f_add xs a)).
Proof.
  revert a. induction xs as [|x r IH]; intros a; simpl; [reflexivity|].
  apply IH.
Qed.

(** [sum] of floats never fails: the int [0] for no item, else the
    float total accumulated from [0.0]. *)
Lemma py_sum_value (xs : list F) :
  py_sum xs = Ok (match xs with
                  | [] => PInt 0
                  | _ :: _ => PFloat (fold_left f_add xs f_zero)
                  end).
Proof.
  destruct xs as [|x r]; [reflexivity|].
  unfold py_sum. simpl. rewrite of_int_zero. simpl.
  apply sum_from_float.
Qed.

Lemma py_sum_snoc (xs : list F) (x : F) :
  exists t, py_sum xs = Ok t /\
    py_sum (xs ++ [x])
    = Ok (PFloat (f_add (match t with PInt _ => f_zero | PFloat s => s end) x)).
Proof.
  rewrite !py_sum_value. eexists. split; [reflexivity|].
  destruct xs as [|y r]; simpl; [reflexivity|].
  rewrite fold_left_app. reflexivity.
Qed.
End SumLemmas.

Lemma b64_of_int_zero : @f_of_int float64 binary64 0 = Ok f_zero.
Proof. reflexivity. Qed.

Lemma float_of_int_small (z : Z) :
  Z.abs z < 2 ^ 63 ->
  float_of_int z = Ok (binary_normalize prec emax z 0 false).
Proof.
  intros Hz. unfold float_of_int.
  assert (Hb : 2 ^ 63 < 2 ^ 1024 - 2 ^ 970) by (vm_compute; reflexivity).
  destruct (Z.leb_spec (2 ^ 1024 - 2 ^ 970) (Z.abs z)) as [Hle|_]; [|reflexivity].
  exfalso. lia.
Qed.

(** The guarded average of the code is the arithmetic mean, and evaluates
    without exception for a list of a length a Python list can have. *)
Lemma average_or_zero_mean (xs : list float64) :
  len xs < 2 ^ 63 ->
  average_or_zero xs = Ok (mean_or_zero xs).
Proof.
  intros Hlen. unfold average_or_zero, mean_or_zero.
  destruct xs as [|x r]; [reflexivity|].
  cbn [truthy]. rewrite (py_sum_value b64_of_int_zero). cbn [exc_bind].
  unfold py_truediv_int.
  assert (Hpos : 0 < len (x :: r)) by (unfold len; simpl; lia).
  destruct (Z.eqb_spec (len (x :: r)) 0) as [E|_]; [lia|].
  cbn [exc_bind]. change (@f_of_int float64 binary64) with float_of_int.
  rewrite float_of_int_small by lia. reflexivity.
Qed.

Lemma len_filter_le {A} (P : A -> Prop) `{forall x, Decision (P x)} (l : list A) :
  len (filter P l) <= len l.
Proof. unfold len. pose proof (length_filter P l). lia. Qed.

Lemma len_fmap {A B} (f : A -> B) (l : list A) : len (f <$> l) = len l.
Proof. unfold len. rewrite length_fmap. reflexivity. Qed.

(** The report on binary64 in closed form. *)
Lemma compute_report_binary64 (rows : list (Row float64)) :
  len rows < 2 ^ 63 ->
  let total (xs : list float64) : pynum float64 :=
    match xs with
    | [] => PInt 0
    | _ :: _ => PFloat (fold_left b64_add xs b64_zero)
    end in
  compute_report rows
  = Ok {| total_batons := total (batons <$> rows);
          total_sales := total (sales <$> rows);
          total_online := total (sales <$> filter (type_is ONLINE) rows);
          total_fop := total (sales <$> filter (type_is FOP) rows);
          stats_expense := total (expense <$> rows);
          avg_margin := mean_or_zero (margin <$> rows);
          avg_online := mean_or_zero (margin <$> filter (type_is ONLINE) rows);
          avg_fop := mean_or_zero (margin <$> filter (type_is FOP) rows) |}.
Proof.
  intros Hlen total. unfold compute_report.
  rewrite !(py_sum_value b64_of_int_zero). cbn [exc_bind].
  pose proof (len_filter_le (type_is ONLINE) rows) as Ho.
  pose proof (len_filter_le (type_is FOP) rows) as Hf.
  rewrite !average_or_zero_mean by (rewrite len_fmap; lia).
  reflexivity.
Qed.

Section ExactSums.
Context {F : Type} `{ExactArith F}.

Lemma fold_left_add_start (xs : list F) (a : F) :
  fold_left f_add xs a = f_add a (fsum xs).
Proof.
  unfold fsum. revert a. induction xs as [|x r IH]; intros a; simpl.
  - rewrite f_add_comm. symmetry. apply f_add_zero_l.
  - rewrite IH. rewrite (IH (f_add f_zero x)).
    rewrite f_add_zero_l. symmetry. apply f_add_assoc.
Qed.

Lemma fsum_cons (x : F) (xs : list F) : fsum (x :: xs) = f_add x (fsum xs).
Proof.
  unfold fsum at 1. simpl. rewrite fold_left_add_start.
  rewrite f_add_zero_l. reflexivity.
Qed.

Lemma fsum_app (xs ys : list F) : fsum (xs ++ ys) = f_add (fsum xs) (fsum ys).
Proof.
  induction xs as [|x r IH]; simpl.
  - change (fsum []) with f_zero. symmetry. apply f_add_zero_l.
  - rewrite !fsum_cons, IH. apply f_add_assoc.
Qed.

Lemma fsum_perm (xs ys : list F) : Permutation xs ys -> fsum xs = fsum ys.
Proof.
  induction 1 as [|x l l' _ IH|x y l|l l' l'' _ IH1 _ IH2].
  - reflexivity.
  - rewrite !fsum_cons, IH. reflexivity.
  - rewrite !fsum_cons, !f_add_assoc, (f_add_comm y x). reflexivity.
  - congruence.
Qed.

Lemma py_sum_exact (xs : list F) : py_sum xs = Ok (total_of xs).
Proof. apply (py_sum_value f_of_int_zero). Qed.

Lemma total_of_perm (xs ys : list F) :
  Permutation xs ys -> total_of xs = total_of ys.
Proof.
  intros Hp. destruct xs as [|x r].
  - apply Permutation_nil in Hp. subst. reflexivity.
  - destruct ys as [|y r'].
    + symmetry in Hp. apply Permutation_nil in Hp. discriminate.
    + unfold total_of. f_equal. apply fsum_perm, Hp.
Qed.

Lemma py_sum_perm (xs ys : list F) :
  Permutation xs ys -> py_sum xs = py_sum ys.
Proof. intros Hp. rewrite !py_sum_exact, (total_of_perm _ _ Hp). reflexivity. Qed.

Lemma average_or_zero_perm (xs ys : list F) :
  Permutation xs ys -> average_or_zero xs = average_or_zero ys.
Proof.
  intros Hp. unfold average_or_zero.
  rewrite (py_sum_perm _ _ Hp).
  assert (Hl : len xs = len ys) by (unfold len; rewrite (Permutation_length Hp); reflexivity).
  rewrite Hl.
  destruct xs as [|x r], ys as [|y r']; try reflexivity.
  - apply Permutation_nil in Hp. discriminate.
  - symmetry in Hp. apply Permutation_nil in Hp. discriminate.
Qed.

(** The sum of two totals. *)
Lemma py_add_totals (xs ys : list F) :
  py_add (total_of xs) (total_of ys)
  = Ok (match xs, ys with
        | [], [] => PInt 0
        | _, _ => PFloat (f_add (fsum xs) (fsum ys))
        end).
Proof.
  destruct xs as [|x r], ys as [|y r']; simpl; try reflexivity.
  - rewrite f_of_int_zero. reflexivity.
  - rewrite f_of_int_zero. reflexivity.
Qed.

(** The report in closed form: it never fails. *)
Lemma average_or_zero_exact (xs : list F) :
  exists a, average_or_zero xs = Ok a.
Proof.
  unfold average_or_zero. destruct xs as [|x r]; [eexists; reflexivity|].
  cbn [truthy]. rewrite py_sum_exact. cbn [exc_bind total_of].
  unfold py_truediv_int.
  destruct (Z.eqb_spec (len (x :: r)) 0) as [E|_];
    [unfold len in E; simpl in E; lia|].
  destruct (f_of_int_total (len (x :: r))) as [y Hy].
  cbn [exc_bind]. rewrite Hy. eexists. reflexivity.
Qed.

Lemma compute_report_exact (rows : list (Row F)) :
  exists a b c,
    compute_report rows
    = Ok {| total_batons := total_of (batons <$> rows);
            total_sales := total_of (sales <$> rows);
            total_online := total_of (sales <$> filter (type_is ONLINE) rows);
            total_fop := total_of (sales <$> filter (type_is FOP) rows);
            stats_expense := total_of (expense <$> rows);
            avg_margin := a; avg_online := b; avg_fop := c |}.
Proof.
  unfold compute_report. rewrite !py_sum_exact. cbn [exc_bind].
  destruct (average_or_zero_exact (margin <$> rows)) as [a ->].
  destruct (average_or_zero_exact (margin <$> filter (type_is ONLINE) rows)) as [b ->].
  destruct (average_or_zero_exact (margin <$> filter (type_is FOP) rows)) as [c ->].
  exists a, b, c. reflexivity.
Qed.

(** Every record carries one of the two channel labels: the sales split
    into the two channel sums. *)
Lemma fsum_channels (rows : list (Row F)) :
  Forall has_channel_label rows ->
  fsum (sales <$> rows)
  = f_add (fsum (sales <$> filter (type_is ONLINE) rows))
          (fsum (sales <$> filter (type_is FOP) rows)).
Proof.
  assert (Hne : ONLINE <> FOP) by discriminate.
  induction 1 as [|item rest Hl _ IH].
  - simpl. change (fsum []) with f_zero. symmetry. apply f_add_zero_l.
  - rewrite fmap_cons, fsum_cons, IH.
    destruct Hl as [Hl|Hl].
    + rewrite (filter_cons_True (type_is ONLINE)) by exact Hl.
      rewrite (filter_cons_False (type_is FOP))
        by (unfold type_is in *; congruence).
      rewrite fmap_cons, fsum_cons. apply f_add_assoc.
    + rewrite (filter_cons_False (type_is ONLINE))
        by (unfold type_is in *; congruence).
      rewrite (filter_cons_True (type_is FOP)) by exact Hl.
      rewrite fmap_cons, fsum_cons.
      rewrite !f_add_assoc, (f_add_comm (sales item)). reflexivity.
Qed.
End ExactSums.

(** ** Claims on [compute_report] *)

(** C1, as amended. For every list of records (of a length a Python list
    can have) [compute_report] returns without exception; each of
    [avg_margin], [avg_online], [avg_fop] is the arithmetic mean of
    [margin] over its subset (all records, the online records, the
    partner records) and is the float [0.0] when that subset is empty,
    also when other records exist; on the empty list every average is the
    float [0.0] and every total is the int [0] that [sum] starts from:
    equal to [0.0] under [==], and not the float [0.0]. *)
Theorem compute_report_averages (rows : list (Row float64)) :
  len rows < 2 ^ 63 ->
  exists st,
    compute_report rows = Ok st
    /\ avg_margin st = mean_or_zero (margin <$> rows)
    /\ avg_online st = mean_or_zero (margin <$> filter (type_is ONLINE) rows)
    /\ avg_fop st = mean_or_zero (margin <$> filter (type_is FOP) rows)
    /\ (filter (type_is ONLINE) rows = [] -> avg_online st = b64_zero)
    /\ (filter (type_is FOP) rows = [] -> avg_fop st = b64_zero)
    /\ (rows = [] ->
        total_batons st = PInt 0
        /\ total_sales st = PInt 0
        /\ total_online st = PInt 0
        /\ total_fop st = PInt 0
        /\ stats_expense st = PInt 0
        /\ py_eq (PInt 0) (PFloat b64_zero) = true
        /\ avg_margin st = b64_zero
        /\ avg_online st = b64_zero
        /\ avg_fop st = b64_zero).
Proof.
  intros Hlen. eexists. split; [apply compute_report_binary64, Hlen|].
  cbn [avg_margin avg_online avg_fop total_batons total_sales total_online
       total_fop stats_expense].
  repeat split;
    first [intros ->; reflexivity | subst rows; reflexivity].
Qed.

(** C7. In exact arithmetic (addition commutative and associative, no
    rounding) [compute_report] gives the same result, value or
    exception, on a list of records and on every permutation of it. *)
Theorem compute_report_permutation {F : Type} `{ExactArith F}
    (rows rows' : list (Row F)) :
  Permutation rows rows' ->
  compute_report rows = compute_report rows'.
Proof.
  intros Hp. unfold compute_report.
  assert (Ho : Permutation (filter (type_is ONLINE) rows)
                           (filter (type_is ONLINE) rows'))
    by (apply filter_Permutation, Hp).
  assert (Hf : Permutation (filter (type_is FOP) rows)
                           (filter (type_is FOP) rows'))
    by (apply filter_Permutation, Hp).
  rewrite (py_sum_perm (batons <$> rows) (batons <$> rows'))
    by (apply fmap_Permutation, Hp).
  rewrite (py_sum_perm (sales <$> rows) (sales <$> rows'))
    by (apply fmap_Permutation, Hp).
  rewrite (py_sum_perm (sales <$> filter (type_is ONLINE) rows)
                       (sales <$> filter (type_is ONLINE) rows'))
    by (apply fmap_Permutation, Ho).
  rewrite (py_sum_perm (sales <$> filter (type_is FOP) rows)
                       (sales <$> filter (type_is FOP) rows'))
    by (apply fmap_Permutation, Hf).
  rewrite (py_sum_perm (expense <$> rows) (expense <$> rows'))
    by (apply fmap_Permutation, Hp).
  rewrite (average_or_zero_perm (margin <$> rows) (margin <$> rows'))
    by (apply fmap_Permutation, Hp).
  rewrite (average_or_zero_perm (margin <$> filter (type_is ONLINE) rows)
                                (margin <$> filter (type_is ONLINE) rows'))
    by (apply fmap_Permutation, Ho).
  rewrite (average_or_zero_perm (margin <$> filter (type_is FOP) rows)
                                (margin <$> filter (type_is FOP) rows'))
    by (apply fmap_Permutation, Hf).
  reflexivity.
Qed.

(** C10, as amended. In exact arithmetic: when every record carries the
    online or the partner label, the report satisfies
    [total_online + total_fop = total_sales]; and a record with any
    other label adds its sales to [total_sales] and leaves both channel
    totals as they are without it. *)
Theorem channel_totals_exact {F : Type} `{ExactArith F} (rows : list (Row F)) :
  (Forall has_channel_label rows ->
   exists st, compute_report rows = Ok st
     /\ py_add (total_online st) (total_fop st) = Ok (total_sales st))
  /\ (forall l1 item l2,
        rows = l1 ++ item :: l2 ->
        ~ type_is ONLINE item -> ~ type_is FOP item ->
        exists st st',
          compute_report (l1 ++ l2) = Ok st
          /\ compute_report rows = Ok st'
          /\ total_online st' = total_online st
          /\ total_fop st' = total_fop st
          /\ py_add (total_sales st) (PFloat (sales item)) = Ok (total_sales st')).
Proof.
  split.
  - intros Hl.
    destruct (compute_report_exact rows) as (a & b & c & ->).
    eexists. split; [reflexivity|].
    cbn [total_online total_fop total_sales].
    rewrite py_add_totals. f_equal.
    assert (Hs := fsum_channels _ Hl).
    destruct rows as [|item rest]; [reflexivity|].
    remember (sales <$> filter (type_is ONLINE) (item :: rest)) as A eqn:Eo.
    remember (sales <$> filter (type_is FOP) (item :: rest)) as B eqn:Ef.
    rewrite fmap_cons in Hs |- *. cbn [total_of]. rewrite Hs.
    destruct A as [|x r], B as [|y r']; try reflexivity.
    exfalso.
    symmetry in Eo, Ef. apply fmap_nil_inv in Eo. apply fmap_nil_inv in Ef.
    apply Forall_cons in Hl as [Hi _].
    destruct Hi as [Hi|Hi].
    + rewrite (filter_cons_True (type_is ONLINE)) in Eo by exact Hi. discriminate.
    + rewrite (filter_cons_True (type_is FOP)) in Ef by exact Hi. discriminate.
  - intros l1 item l2 -> Hno Hnf.
    destruct (compute_report_exact (l1 ++ l2)) as (a & b & c & ->).
    destruct (compute_report_exact (l1 ++ item :: l2)) as (a' & b' & c' & ->).
    eexists. eexists. split; [reflexivity|]. split; [reflexivity|].
    cbn [total_online total_fop total_sales].
    rewrite !filter_app.
    rewrite (filter_cons_False (type_is ONLINE)) by exact Hno.
    rewrite (filter_cons_False (type_is FOP)) by exact Hnf.
    split; [reflexivity|]. split; [reflexivity|].
    assert (Hsum : fsum (sales <$> l1 ++ item :: l2)
                   = f_add (fsum (sales <$> l1 ++ l2)) (sales item)).
    { rewrite (fsum_perm (sales <$> l1 ++ item :: l2)
                         (sales item :: (sales <$> l1 ++ l2))).
      - rewrite fsum_cons. apply f_add_comm.
      - rewrite !fmap_app, fmap_cons. symmetry. apply Permutation_middle. }
    assert (Hne : sales <$> l1 ++ item :: l2 <> [])
      by (rewrite fmap_app, fmap_cons; destruct (sales <$> l1); discriminate).
    destruct (sales <$> l1 ++ item :: l2) as [|x r] eqn:E; [congruence|].
    cbn [total_of]. rewrite Hsum.
    destruct (sales <$> l1 ++ l2) as [|y r'] eqn:E'.
    + cbn [total_of py_add]. rewrite f_of_int_zero. reflexivity.
    + reflexivity.
Qed.

(** ** Text normalisation in [parse_number] *)

Lemma str_remove_filter (c : N) (s : pystr) :
  str_replace1 c [] s = List.filter (fun x => negb (x =? c)%N) s.
Proof.
  induction s as [|x r IH]; simpl; [reflexivity|].
  destruct (x =? c)%N; simpl; rewrite IH; reflexivity.
Qed.

Lemma str_replace_map (c d : N) (s : pystr) :
  str_replace1 c [d] s = List.map (fun x => if (x =? c)%N then d else x) s.
Proof.
  induction s as [|x r IH]; simpl; [reflexivity|].
  rewrite IH. destruct (x =? c)%N; reflexivity.
Qed.

Lemma str_replace1_app (c : N) (new s t : pystr) :
  str_replace1 c new (s ++ t) = str_replace1 c new s ++ str_replace1 c new t.
Proof. unfold str_replace1. apply flat_map_app. Qed.

Section DropWhile.
Context {A : Type} (p : A -> bool).

Lemma drop_while_all (w : list A) :
  forallb p w = true -> drop_while p w = [].
Proof.
  induction w as [|x r IH]; simpl; [reflexivity|].
  intros Hw. apply andb_prop in Hw as [-> Hr]. apply IH, Hr.
Qed.

Lemma drop_while_app_all (w s : list A) :
  forallb p w = true -> drop_while p (w ++ s) = drop_while p s.
Proof.
  induction w as [|x r IH]; simpl; [reflexivity|].
  intros Hw. apply andb_prop in Hw as [-> Hr]. apply IH, Hr.
Qed.

Lemma drop_while_app_stop (a : list A) (c : A) (r : list A) :
  p c = false -> drop_while p (a ++ c :: r) = drop_while p a ++ c :: r.
Proof.
  intros Hc. induction a as [|x a' IH]; simpl.
  - rewrite Hc. reflexivity.
  - destruct (p x); [apply IH|reflexivity].
Qed.

Lemma drop_while_head (l : list A) :
  match drop_while p l with
  | [] => True
  | x :: _ => p x = false
  end.
Proof.
  induction l as [|x r IH]; simpl; [exact I|].
  destruct (p x) eqn:E; [exact IH|exact E].
Qed.

Lemma drop_while_idem (l : list A) :
  drop_while p (drop_while p l) = drop_while p l.
Proof.
  pose proof (drop_while_head l) as Hh.
  destruct (drop_while p l) as [|x r]; [reflexivity|].
  simpl. rewrite Hh. reflexivity.
Qed.

Lemma drop_while_map (f : A -> A) (l : list A) :
  (forall x, p (f x) = p x) ->
  drop_while p (List.map f l) = List.map f (drop_while p l).
Proof.
  intros Hf. induction l as [|x r IH]; simpl; [reflexivity|].
  rewrite Hf. destruct (p x); [exact IH|reflexivity].
Qed.

Lemma forallb_rev (l : list A) : forallb p (rev l) = forallb p l.
Proof.
  induction l as [|x r IH]; simpl; [reflexivity|].
  rewrite forallb_app, IH. simpl. rewrite andb_true_r. apply andb_comm.
Qed.
End DropWhile.

Lemma percent_not_space : py_isspace PERCENT = false.
Proof. reflexivity. Qed.

Lemma in_percent (c : N) : bool_decide (c ∈ [PERCENT]) = (c =? PERCENT)%N.
Proof.
  destruct (N.eqb_spec c PERCENT) as [->|Hne].
  - apply bool_decide_eq_true. apply list_elem_of_singleton. reflexivity.
  - apply bool_decide_eq_false. rewrite list_elem_of_singleton. exact Hne.
Qed.

Lemma str_rstrip_chars_percent (s : pystr) :
  str_rstrip_chars [PERCENT] s
  = rev (drop_while (fun c => (c =? PERCENT)%N) (rev s)).
Proof.
  unfold str_rstrip_chars. f_equal.
  induction (rev s) as [|x r IH]; simpl; [reflexivity|].
  rewrite in_percent, IH. reflexivity.
Qed.

Lemma str_endswith_percent (s : pystr) :
  str_endswith [PERCENT] s
  = match rev s with
    | c :: _ => (PERCENT =? c)%N
    | [] => false
    end.
Proof.
  unfold str_endswith. simpl. destruct (rev s); [reflexivity|].
  apply andb_true_r.
Qed.

(** White space after the text does not change what [rstrip] gives. *)
Lemma str_rstrip_app_spaces (y w : pystr) :
  forallb py_isspace w = true -> str_rstrip (y ++ w) = str_rstrip y.
Proof.
  intros Hw. unfold str_rstrip. rewrite rev_app_distr.
  rewrite drop_while_app_all by (rewrite forallb_rev; exact Hw).
  reflexivity.
Qed.

(** [strip] ignores white space on both sides. *)
Lemma str_strip_padding (w1 x w2 : pystr) :
  forallb py_isspace w1 = true -> forallb py_isspace w2 = true ->
  str_strip (w1 ++ x ++ w2) = str_strip x.
Proof.
  intros H1 H2. unfold str_strip, str_lstrip.
  rewrite drop_while_app_all by exact H1.
  induction x as [|c r IH]; simpl.
  - rewrite drop_while_all by exact H2. reflexivity.
  - destruct (py_isspace c); [exact IH|].
    change (c :: r ++ w2) with ((c :: r) ++ w2).
    apply str_rstrip_app_spaces, H2.
Qed.

(** [strip] of a text followed by a percent sign. *)
Lemma str_strip_snoc_percent (a : pystr) :
  str_strip (a ++ [PERCENT]) = str_lstrip a ++ [PERCENT].
Proof.
  unfold str_strip, str_lstrip, str_rstrip.
  rewrite drop_while_app_stop by exact percent_not_space.
  rewrite rev_app_distr. simpl. rewrite rev_involutive. reflexivity.
Qed.

Lemma str_strip_lstrip (a : pystr) : str_strip (str_lstrip a) = str_strip a.
Proof. unfold str_strip, str_lstrip. rewrite drop_while_idem. reflexivity. Qed.

(** The three steps commute with a change of characters that keeps white
    space, the percent sign and the no-break space as they are. *)
Section CharMap.
Variable f : N -> N.
Hypothesis f_space : forall c, py_isspace (f c) = py_isspace c.
Hypothesis f_percent : forall c, (f c =? PERCENT)%N = (c =? PERCENT)%N.
Hypothesis f_nbsp : forall c, (f c =? NBSP)%N = (c =? NBSP)%N.

Lemma str_strip_map (s : pystr) :
  str_strip (List.map f s) = List.map f (str_strip s).
Proof.
  unfold str_strip, str_lstrip, str_rstrip.
  rewrite (drop_while_map _ f) by exact f_space.
  rewrite <- List.map_rev, (drop_while_map _ f) by exact f_space.
  rewrite List.map_rev. reflexivity.
Qed.

Lemma str_rstrip_percent_map (s : pystr) :
  str_rstrip_chars [PERCENT] (List.map f s)
  = List.map f (str_rstrip_chars [PERCENT] s).
Proof.
  rewrite !str_rstrip_chars_percent.
  rewrite <- List.map_rev, (drop_while_map _ f) by exact f_percent.
  rewrite List.map_rev. reflexivity.
Qed.

Lemma str_endswith_percent_map (s : pystr) :
  str_endswith [PERCENT] (List.map f s) = str_endswith [PERCENT] s.
Proof.
  rewrite !str_endswith_percent, <- List.map_rev.
  destruct (rev s) as [|c r]; [reflexivity|]. cbn [List.map].
  rewrite !(N.eqb_sym PERCENT). apply f_percent.
Qed.

Lemma str_remove_nbsp_map (s : pystr) :
  str_replace1 NBSP [] (List.map f s) = List.map f (str_replace1 NBSP [] s).
Proof.
  rewrite !str_remove_filter.
  induction s as [|c r IH]; simpl; [reflexivity|].
  rewrite f_nbsp. destruct (c =? NBSP)%N; simpl; rewrite IH; reflexivity.
Qed.
End CharMap.

Lemma comma_to_dot_space c : py_isspace (comma_to_dot c) = py_isspace c.
Proof. unfold comma_to_dot. destruct (N.eqb_spec c COMMA) as [->|]; reflexivity. Qed.

Lemma comma_to_dot_percent c :
  (comma_to_dot c =? PERCENT)%N = (c =? PERCENT)%N.
Proof. unfold comma_to_dot. destruct (N.eqb_spec c COMMA) as [->|]; reflexivity. Qed.

Lemma comma_to_dot_nbsp c : (comma_to_dot c =? NBSP)%N = (c =? NBSP)%N.
Proof. unfold comma_to_dot. destruct (N.eqb_spec c COMMA) as [->|]; reflexivity. Qed.

Lemma comma_to_dot_idem c : comma_to_dot (comma_to_dot c) = comma_to_dot c.
Proof. unfold comma_to_dot. destruct (N.eqb_spec c COMMA) as [->|Hc]; [reflexivity|].
  destruct (N.eqb_spec c COMMA); [contradiction|reflexivity]. Qed.

(** The text handed to [float], with the replacement as a map. *)
Lemma float_argument_map (v : pystr) :
  float_argument v
  = List.map comma_to_dot
      (let s := str_strip (str_replace1 NBSP [] v) in
       if str_endswith [PERCENT] s
       then str_strip (str_rstrip_chars [PERCENT] s) else s).
Proof. unfold float_argument. cbv zeta. apply str_replace_map. Qed.

Lemma float_argument_comma (t : pystr) :
  float_argument (str_replace1 COMMA [DOT] t) = float_argument t.
Proof.
  rewrite str_replace_map. fold comma_to_dot.
  change (fun x : N => comma_to_dot x) with comma_to_dot.
  rewrite !float_argument_map. cbv zeta.
  rewrite (str_remove_nbsp_map _ comma_to_dot_nbsp).
  rewrite (str_strip_map _ comma_to_dot_space).
  rewrite (str_endswith_percent_map _ comma_to_dot_percent).
  destruct (str_endswith [PERCENT] (str_strip (str_replace1 NBSP [] t))).
  - rewrite (str_rstrip_percent_map _ comma_to_dot_percent).
    rewrite (str_strip_map _ comma_to_dot_space).
    rewrite List.map_map. apply List.map_ext. intros c. apply comma_to_dot_idem.
  - rewrite List.map_map. apply List.map_ext. intros c. apply comma_to_dot_idem.
Qed.

Lemma forallb_remove_nbsp (w : pystr) :
  forallb py_isspace w = true ->
  forallb py_isspace (str_replace1 NBSP [] w) = true.
Proof.
  intros Hw. rewrite str_remove_filter.
  induction w as [|c r IH]; simpl in *; [reflexivity|].
  apply andb_prop in Hw as [Hc Hr].
  destruct (c =? NBSP)%N; simpl; [apply IH, Hr|].
  rewrite Hc. apply IH, Hr.
Qed.

Lemma float_argument_padding (p1 t p2 : pystr) :
  forallb py_isspace p1 = true -> forallb py_isspace p2 = true ->
  float_argument (p1 ++ t ++ p2) = float_argument t.
Proof.
  intros H1 H2. unfold float_argument. cbv zeta.
  rewrite !str_replace1_app.
  rewrite str_strip_padding by (apply forallb_remove_nbsp; assumption).
  reflexivity.
Qed.

Lemma float_argument_percent (t : pystr) :
  str_endswith [PERCENT] (str_strip (str_replace1 NBSP [] t)) = false ->
  float_argument (t ++ [PERCENT]) = float_argument t.
Proof.
  intros Hend. unfold float_argument. cbv zeta.
  rewrite Hend, str_replace1_app.
  change (str_replace1 NBSP [] [PERCENT]) with [PERCENT].
  set (a := str_replace1 NBSP [] t) in *.
  rewrite str_strip_snoc_percent.
  assert (Hp : str_endswith [PERCENT] (str_lstrip a ++ [PERCENT]) = true).
  { rewrite str_endswith_percent, rev_app_distr. reflexivity. }
  rewrite Hp. f_equal.
  rewrite str_rstrip_chars_percent, rev_app_distr. simpl.
  rewrite <- (str_strip_lstrip a). f_equal.
  rewrite str_endswith_percent in Hend.
  unfold str_strip, str_rstrip in Hend. rewrite rev_involutive in Hend.
  destruct (rev (str_lstrip a)) as [|c r] eqn:E.
  - apply (f_equal (@rev N)) in E. rewrite rev_involutive in E.
    rewrite E. reflexivity.
  - simpl. destruct (N.eqb_spec c PERCENT) as [->|Hc].
    + simpl in Hend. discriminate.
    + apply (f_equal (@rev N)) in E. rewrite rev_involutive in E. symmetry. exact E.
Qed.

Lemma str_strip_idem (s : pystr) : str_strip (str_strip s) = str_strip s.
Proof.
  unfold str_strip at 2 3. unfold str_lstrip.
  pose proof (drop_while_head py_isspace s) as Hh.
  destruct (drop_while py_isspace s) as [|c r]; [reflexivity|].
  assert (E : str_rstrip (c :: r) = c :: str_rstrip r).
  { unfold str_rstrip. simpl.
    rewrite drop_while_app_stop by exact Hh.
    rewrite rev_app_distr. reflexivity. }
  rewrite E. unfold str_strip, str_lstrip. simpl. rewrite Hh.
  rewrite <- E. unfold str_rstrip. rewrite rev_involutive, drop_while_idem.
  reflexivity.
Qed.

Lemma not_in_remove (c : N) (s : pystr) : c ∉ str_replace1 c [] s.
Proof.
  rewrite str_remove_filter. intros Hin.
  apply list_elem_of_In, List.filter_In in Hin as [_ Hc].
  rewrite N.eqb_refl in Hc. discriminate.
Qed.

Lemma elem_of_drop_while {A} (p : A -> bool) (x : A) (l : list A) :
  x ∈ drop_while p l -> x ∈ l.
Proof.
  induction l as [|y r IH]; simpl; [trivial|].
  destruct (p y); [|trivial]. intros Hx. right. apply IH, Hx.
Qed.

Lemma elem_of_rev {A} (x : A) (l : list A) : x ∈ rev l <-> x ∈ l.
Proof. rewrite !list_elem_of_In. symmetry. apply in_rev. Qed.

Lemma elem_of_str_strip (x : N) (s : pystr) : x ∈ str_strip s -> x ∈ s.
Proof.
  unfold str_strip, str_lstrip, str_rstrip. intros Hx.
  apply elem_of_drop_while with (p := py_isspace).
  apply elem_of_rev. apply elem_of_drop_while with (p := py_isspace).
  apply elem_of_rev. exact Hx.
Qed.

Lemma elem_of_rstrip_chars (x : N) (chars s : pystr) :
  x ∈ str_rstrip_chars chars s -> x ∈ s.
Proof.
  unfold str_rstrip_chars. intros Hx.
  apply elem_of_rev. eapply elem_of_drop_while.
  apply elem_of_rev. exact Hx.
Qed.

Lemma clean_after_map (s : pystr) :
  str_strip s = s -> NBSP ∉ s ->
  (NBSP ∉ List.map comma_to_dot s)
  /\ (COMMA ∉ List.map comma_to_dot s)
  /\ str_strip (List.map comma_to_dot s) = List.map comma_to_dot s.
Proof.
  intros Hs Hn. split; [|split].
  - intros Hin. apply list_elem_of_In, List.in_map_iff in Hin as (c & Hc & Hin).
    apply Hn. apply list_elem_of_In.
    unfold comma_to_dot in Hc. destruct (c =? COMMA)%N; [discriminate|].
    subst c. exact Hin.
  - intros Hin. apply list_elem_of_In, List.in_map_iff in Hin as (c & Hc & _).
    unfold comma_to_dot in Hc.
    destruct (N.eqb_spec c COMMA); [discriminate|congruence].
  - rewrite (str_strip_map _ comma_to_dot_space), Hs. reflexivity.
Qed.

(** The text handed to [float] holds no no-break space and no comma, and
    neither begins nor ends with white space. *)
Lemma float_argument_clean (v : pystr) :
  (NBSP ∉ float_argument v)
  /\ (COMMA ∉ float_argument v)
  /\ str_strip (float_argument v) = float_argument v.
Proof.
  rewrite float_argument_map. cbv zeta.
  pose proof (not_in_remove NBSP v) as Hv.
  destruct (str_endswith [PERCENT] (str_strip (str_replace1 NBSP [] v)));
    apply clean_after_map; try apply str_strip_idem.
  - intros Hin. apply Hv.
    apply elem_of_str_strip, elem_of_rstrip_chars, elem_of_str_strip in Hin.
    exact Hin.
  - intros Hin. apply Hv. apply elem_of_str_strip in Hin. exact Hin.
Qed.

(** ** [parse_number] *)

Section ParseNumber.
Variable ud : N -> option N.

Lemma float_of_str_exn (s : pystr) (e : exn) :
  float_of_str ud s = Raise e -> e = ValueError.
Proof.
  unfold float_of_str.
  destruct (strip_underscores 0 (transform_decimal_and_space ud s));
    [destruct (float_from_string_inner _)|]; congruence.
Qed.

(** On a str [parse_number] is [float] of the normalised text, with
    [0.0] in place of a ValueError. *)
Lemma parse_number_str (v : pystr) :
  parse_number ud (PyStr v)
  = Ok (match float_of_str ud (float_argument v) with
        | Ok x => x
        | Raise _ => b64_zero
        end).
Proof.
  unfold parse_number. cbn [isinstance_int_or_float].
  fold (float_argument v). cbn [py_float].
  destruct (float_of_str ud (float_argument v)) as [x|e] eqn:E.
  - reflexivity.
  - apply float_of_str_exn in E. subst e. reflexivity.
Qed.

(** [parse_number] returns a float for every argument but an int that
    [float] cannot convert. *)
Lemma parse_number_total (v : pyval) :
  (forall z, v = PyInt z -> Z.abs z < 2 ^ 1024 - 2 ^ 970) ->
  exists x, parse_number ud v = Ok x.
Proof.
  intros Hint. destruct v as [z|b|x|s| |].
  - specialize (Hint z eq_refl). unfold parse_number. cbn.
    unfold float_of_int.
    destruct (Z.leb_spec (2 ^ 1024 - 2 ^ 970) (Z.abs z)); [lia|].
    eexists. reflexivity.
  - destruct b; eexists; reflexivity.
  - eexists. reflexivity.
  - rewrite parse_number_str. eexists. reflexivity.
  - eexists. reflexivity.
  - eexists. reflexivity.
Qed.

Lemma parse_number_float (x : float64) : parse_number ud (PyFloat x) = Ok x.
Proof. reflexivity. Qed.

Lemma parse_number_not_text (v : pyval) :
  isinstance_int_or_float v = false -> isinstance_str v = false ->
  parse_number ud v = Ok b64_zero.
Proof. destruct v; simpl; intros; try discriminate; reflexivity. Qed.

Lemma parse_number_unparsable (s : pystr) :
  float_of_str ud (float_argument s) = Raise ValueError ->
  parse_number ud (PyStr s) = Ok b64_zero.
Proof. intros E. rewrite parse_number_str, E. reflexivity. Qed.
End ParseNumber.

(** ** Claims on [parse_number] *)

Lemma elem_of_remove (x c : N) (s : pystr) : x ∈ str_replace1 c [] s -> x ∈ s.
Proof.
  rewrite str_remove_filter, !list_elem_of_In. intros Hx.
  apply List.filter_In in Hx. tauto.
Qed.

Lemma percent_free_not_endswith (t : pystr) :
  PERCENT ∉ t ->
  str_endswith [PERCENT] (str_strip (str_replace1 NBSP [] t)) = false.
Proof.
  intros Hp. rewrite str_endswith_percent.
  destruct (rev (str_strip (str_replace1 NBSP [] t))) as [|c r] eqn:E;
    [reflexivity|].
  destruct (N.eqb_spec PERCENT c) as [<-|]; [|reflexivity].
  exfalso. apply Hp.
  apply (elem_of_remove _ NBSP).
  apply (elem_of_str_strip PERCENT (str_replace1 NBSP [] t)).
  apply (proj1 (elem_of_rev PERCENT (str_strip (str_replace1 NBSP [] t)))).
  rewrite E. left.
Qed.

(** C3. For a numeric text [t] (no percent sign in it, and [float]
    reads its normalised form as [x]), [parse_number] of [t] followed by
    a percent sign is [x]: the numeric part as it is, in percentage
    points, not divided by 100; it is what [parse_number] gives for [t]
    alone. *)
Theorem percent_suffix_unscaled (ud : N -> option N) (t : pystr) (x : float64) :
  PERCENT ∉ t ->
  float_of_str ud (float_argument t) = Ok x ->
  parse_number ud (PyStr (t ++ [PERCENT])) = Ok x
  /\ parse_number ud (PyStr (t ++ [PERCENT])) = parse_number ud (PyStr t).
Proof.
  intros Hp Hx. apply percent_free_not_endswith in Hp.
  rewrite !parse_number_str, (float_argument_percent t Hp), Hx.
  split; reflexivity.
Qed.

(** C4, at the input where it fails: an int too large for a float makes
    [parse_number] raise OverflowError instead of returning a float. *)
Theorem parse_number_huge_int_raises (ud : N -> option N) :
  parse_number ud (PyInt (10 ^ 400)) = Raise OverflowError.
Proof. vm_compute. reflexivity. Qed.

(** C6. White space and no-break spaces around a text do not change
    what [parse_number] returns, and a text with commas gives the same
    float as the text with each comma written as a point; the text
    handed to [float] holds no no-break space and is stripped. *)
Theorem nbsp_padding_comma_decimal (ud : N -> option N) (p1 t p2 : pystr) :
  forallb py_isspace p1 = true ->
  forallb py_isspace p2 = true ->
  parse_number ud (PyStr (p1 ++ t ++ p2))
  = parse_number ud (PyStr (str_replace1 COMMA [DOT] t))
  /\ parse_number ud (PyStr (p1 ++ t ++ p2))
     = Ok (match float_of_str ud (float_argument t) with
           | Ok x => x
           | Raise _ => b64_zero
           end)
  /\ (NBSP ∉ float_argument (p1 ++ t ++ p2))
  /\ str_strip (float_argument (p1 ++ t ++ p2)) = float_argument (p1 ++ t ++ p2).
Proof.
  intros H1 H2.
  rewrite !parse_number_str, float_argument_comma.
  rewrite (float_argument_padding p1 t p2 H1 H2).
  destruct (float_argument_clean t) as (Hn & _ & Hs).
  repeat split; assumption.
Qed.

(** C9. [parse_number] replaces every comma by a point before [float]
    reads the text: no comma is left, so a comma that separates
    thousands is read as a decimal point (["1,000"] gives [1.0]) and a
    text with two commas has two points, is no number, and gives [0.0]. *)
Theorem every_comma_becomes_a_point (ud : N -> option N) :
  (forall v : pystr,
     (COMMA ∉ float_argument v)
     /\ float_argument v
        = List.map comma_to_dot
            (let s := str_strip (str_replace1 NBSP [] v) in
             if str_endswith [PERCENT] s
             then str_strip (str_rstrip_chars [PERCENT] s) else s)
     /\ parse_number ud (PyStr v)
        = Ok (match float_of_str ud (float_argument v) with
              | Ok x => x
              | Raise _ => b64_zero
              end))
  /\ float_argument (u "1,000") = u "1.000"
  /\ repr_of (parse_number ud (PyStr (u "1,000"))) = Ok (u "1.0")
  /\ float_argument (u "1,234,5") = u "1.234.5"
  /\ float_of_str ud (u "1.234.5") = Raise ValueError
  /\ repr_of (parse_number ud (PyStr (u "1,234,5"))) = Ok (u "0.0").
Proof.
  split.
  - intros v. destruct (float_argument_clean v) as (_ & Hc & _).
    split; [exact Hc|]. split; [apply float_argument_map|apply parse_number_str].
  - repeat split; vm_compute; reflexivity.
Qed.

(** ** [filter_data] *)

Lemma date_le_spec (a b : pydate) : date_le a b = true <-> date_leq a b.
Proof.
  unfold date_le, date_compare, date_leq.
  destruct (Z.compare_spec (year a) (year b));
    destruct (Z.compare_spec (month a) (month b));
    destruct (Z.compare_spec (day a) (day b));
    split; intros; try discriminate; try reflexivity; lia.
Qed.

Lemma in_period_spec {F} (s e : option pydate) (item : Row F) :
  in_period s e item = true <-> within_period s e item.
Proof.
  unfold in_period, within_period, date_ge.
  rewrite andb_true_iff.
  destruct s, e; rewrite ?date_le_spec; intuition.
Qed.

(** C5. [filter_data] keeps exactly the records whose date is not
    before [start_date] when one is given and not after [end_date] when
    one is given, both bounds included; the kept records are in the
    order of the input. *)
Theorem filter_data_spec {F : Type} (data : list (Row F))
    (start_date end_date : option pydate) :
  filter_data data start_date end_date
  = filter (within_period start_date end_date) data
  /\ filter_data data start_date end_date `sublist_of` data
  /\ (forall item,
        item ∈ filter_data data start_date end_date
        <-> item ∈ data /\ within_period start_date end_date item).
Proof.
  assert (E : filter_data data start_date end_date
              = filter (within_period start_date end_date) data).
  { induction data as [|item rest IH]; [reflexivity|].
    cbn [filter_data]. rewrite IH.
    destruct (in_period start_date end_date item) eqn:Hp.
    - apply in_period_spec in Hp.
      rewrite filter_cons_True by exact Hp. reflexivity.
    - rewrite filter_cons_False; [reflexivity|].
      intros Hw. apply in_period_spec in Hw. congruence. }
  split; [exact E|]. rewrite E. split.
  - apply sublist_filter.
  - intros item. rewrite list_elem_of_filter. intuition.
Qed.

(** ** [parse_row] *)

Lemma parse_row_short (ud : N -> option N) (row : list pystr) :
  (length row < 6)%nat -> parse_row ud row = Ok None.
Proof.
  intros Hlen. unfold parse_row.
  destruct (Nat.ltb_spec (length row) 6) as [_|]; [reflexivity|lia].
Qed.

Lemma parse_row_long (ud : N -> option N) (c0 c1 c2 c3 c4 c5 : pystr)
    (rest : list pystr) :
  parse_row ud (c0 :: c1 :: c2 :: c3 :: c4 :: c5 :: rest)
  = match strptime_dmy ud c0 with
    | Raise _ => Ok None
    | Ok d => Ok (Some {| date := d;
                          batons := cell_number ud c1;
                          sales := cell_number ud c2;
                          type := c3;
                          expense := cell_number ud c4;
                          margin := cell_number ud c5 |})
    end.
Proof.
  unfold parse_row.
  cbn [length Nat.ltb Nat.leb getitem lookup list_lookup exc_bind].
  destruct (strptime_dmy ud c0); [|reflexivity].
  rewrite !parse_number_str. reflexivity.
Qed.

Lemma parse_row_total (ud : N -> option N) (row : list pystr) :
  exists o, parse_row ud row = Ok o.
Proof.
  destruct row as [|c0 [|c1 [|c2 [|c3 [|c4 [|c5 rest]]]]]];
    try (eexists; reflexivity).
  rewrite parse_row_long. destruct (strptime_dmy ud c0); eexists; reflexivity.
Qed.

(** C2. [parse_row] never raises. It gives a record exactly when the
    row has at least 6 cells and cell 0 is a date in the format
    [%d.%m.%Y]; otherwise the row is skipped and nothing is kept of it.
    The record has the date of cell 0, the numbers [parse_number] gives
    for cells 1, 2, 4 and 5 ([0.0] for a cell that is no number) as
    [batons], [sales], [expense] and [margin], and cell 3 as it stands
    as [type]. *)
Theorem parse_row_spec (ud : N -> option N) (row : list pystr) :
  (exists o, parse_row ud row = Ok o)
  /\ ((exists r, parse_row ud row = Ok (Some r))
      <-> (6 <= length row)%nat
          /\ exists c0 d, row !! 0%nat = Some c0 /\ strptime_dmy ud c0 = Ok d)
  /\ ((forall r, parse_row ud row <> Ok (Some r)) -> parse_row ud row = Ok None)
  /\ (forall r, parse_row ud row = Ok (Some r) ->
        exists c0 c1 c2 c3 c4 c5 rest,
          row = c0 :: c1 :: c2 :: c3 :: c4 :: c5 :: rest
          /\ strptime_dmy ud c0 = Ok (date r)
          /\ parse_number ud (PyStr c1) = Ok (batons r)
          /\ parse_number ud (PyStr c2) = Ok (sales r)
          /\ type r = c3
          /\ parse_number ud (PyStr c4) = Ok (expense r)
          /\ parse_number ud (PyStr c5) = Ok (margin r)
          /\ batons r = cell_number ud c1
          /\ sales r = cell_number ud c2
          /\ expense r = cell_number ud c4
          /\ margin r = cell_number ud c5).
Proof.
  destruct row as [|c0 [|c1 [|c2 [|c3 [|c4 [|c5 rest]]]]]];
    try (split; [eexists; reflexivity|];
         split; [split; [intros [r Hr]; discriminate
                        |intros [Hlen _]; simpl in Hlen; lia]|];
         split; [intros _; reflexivity|intros r Hr; discriminate]).
  rewrite parse_row_long.
  destruct (strptime_dmy ud c0) as [d|e] eqn:Hd.
  - split; [eexists; reflexivity|].
    split.
    { split.
      - intros _. split; [simpl; lia|]. exists c0, d. split; [reflexivity|exact Hd].
      - intros _. eexists. reflexivity. }
    split.
    { intros Hno. exfalso. eapply Hno. reflexivity. }
    intros r Hr. injection Hr as <-.
    exists c0, c1, c2, c3, c4, c5, rest. cbn [date batons sales type expense margin].
    rewrite !parse_number_str. unfold cell_number.
    repeat split; try reflexivity. exact Hd.
  - split; [eexists; reflexivity|].
    split.
    { split.
      - intros [r Hr]. discriminate.
      - intros (_ & c & d & Hc & Hd'). simpl in Hc. injection Hc as <-. congruence. }
    split; [intros _; reflexivity|].
    intros r Hr. discriminate.
Qed.

(** ** [format_report] *)

Lemma digit_char_digit (z : Z) :
  0 <= z < 10 -> is_ascii_digit (digit_char z) = true.
Proof.
  intros Hz. unfold is_ascii_digit, digit_char, DIGIT0.
  apply andb_true_intro. split; apply N.leb_le; lia.
Qed.

Lemma decimal_digits_fuel_digits (fuel : nat) (n : Z) (acc : pystr) :
  forallb is_ascii_digit acc = true ->
  forallb is_ascii_digit (decimal_digits_fuel fuel n acc) = true.
Proof.
  revert n acc. induction fuel as [|fuel IH]; intros n acc Hacc; simpl.
  - exact Hacc.
  - assert (Hd : forallb is_ascii_digit
                   ((DIGIT0 + Z.to_N (n mod 10))%N :: acc) = true).
    { cbn [forallb]. rewrite Hacc, andb_true_r.
      apply (digit_char_digit (n mod 10)). apply Z.mod_pos_bound. lia. }
    destruct (n <? 10); [exact Hd|apply IH, Hd].
Qed.

Lemma decimal_digits_fuel_truthy (fuel : nat) (n : Z) (acc : pystr) :
  truthy acc = true -> truthy (decimal_digits_fuel fuel n acc) = true.
Proof.
  revert n acc. induction fuel as [|fuel IH]; intros n acc Hacc; simpl.
  - exact Hacc.
  - destruct (n <? 10); [reflexivity|apply IH; reflexivity].
Qed.

Lemma decimal_digits_digits (n : Z) :
  forallb is_ascii_digit (decimal_digits n) = true.
Proof. apply decimal_digits_fuel_digits. reflexivity. Qed.

Lemma decimal_digits_truthy (n : Z) : truthy (decimal_digits n) = true.
Proof.
  unfold decimal_digits. simpl.
  destruct (n <? 10); [reflexivity|apply decimal_digits_fuel_truthy; reflexivity].
Qed.

(** The text of [.2f] for a finite float: an optional minus sign, at
    least one digit, a point, two digits. *)
Lemma format_2f_two_decimals (x : float64) :
  b64_is_finite x = true -> has_two_decimals (format_2f x) = true.
Proof.
  destruct x as [s|s| |s m e]; try discriminate; intros _.
  - destruct s; reflexivity.
  - unfold format_2f.
    set (r := round_hundredths (Z.pos m) e).
    pose proof (decimal_digits_digits (r / 100)) as Hd.
    pose proof (decimal_digits_truthy (r / 100)) as Ht.
    set (ip := decimal_digits (r / 100)) in *. clearbody ip.
    unfold has_two_decimals.
    rewrite !rev_app_distr. cbn [rev app].
    rewrite !digit_char_digit by (apply Z.mod_pos_bound; lia).
    rewrite N.eqb_refl. cbn [andb].
    rewrite rev_app_distr, !rev_involutive.
    destruct s; cbn [sign_text app].
    + rewrite N.eqb_refl, Ht, Hd. reflexivity.
    + destruct ip as [|c ip']; [discriminate|]. cbn [app].
      assert (Hc : (c =? MINUS)%N = false).
      { cbn [forallb] in Hd. apply andb_prop in Hd as [Hc _].
        unfold is_ascii_digit in Hc. apply andb_prop in Hc as [Hc _].
        apply N.leb_le in Hc. apply N.eqb_neq. unfold MINUS. lia. }
      rewrite Hc. rewrite forallb_app, forallb_rev. cbn [app forallb].
      rewrite forallb_rev.
      cbn [forallb] in Hd. apply andb_prop in Hd as [Hc' Hd'].
      rewrite Hd', Hc'. reflexivity.
Qed.

(** A property checked on every integer of a range holds on the range. *)
Lemma forall_range (P : Z -> bool) (lo n : Z) :
  forallb P (List.map (fun i => lo + Z.of_nat i) (seq 0 (Z.to_nat n))) = true ->
  forall z, lo <= z < lo + n -> P z = true.
Proof.
  intros Hall z Hz. rewrite forallb_forall in Hall. apply Hall.
  apply List.in_map_iff. exists (Z.to_nat (z - lo)). split; [lia|].
  apply in_seq. lia.
Qed.

Lemma zero_pad_two (n : Z) :
  0 <= n < 100 -> zero_pad 2 (decimal_digits n) = two_digits n.
Proof.
  intros Hn.
  apply (bool_decide_eq_true_1 (zero_pad 2 (decimal_digits n) = two_digits n)).
  apply (forall_range
           (fun z => str_eqb (zero_pad 2 (decimal_digits z)) (two_digits z))
           0 100); [vm_compute; reflexivity|lia].
Qed.

Lemma decimal_digits_fuel_lt10 (fuel : nat) (n : Z) (acc : pystr) :
  0 <= n < 10 -> decimal_digits_fuel (S fuel) n acc = digit_char n :: acc.
Proof.
  intros Hn. cbn [decimal_digits_fuel].
  destruct (Z.ltb_spec n 10) as [_|]; [|lia].
  rewrite Z.mod_small by lia. reflexivity.
Qed.

Lemma decimal_digits_fuel_ge10 (fuel : nat) (n : Z) (acc : pystr) :
  10 <= n ->
  decimal_digits_fuel (S fuel) n acc
  = decimal_digits_fuel fuel (n / 10) (digit_char (n mod 10) :: acc).
Proof.
  intros Hn. cbn [decimal_digits_fuel].
  destruct (Z.ltb_spec n 10) as [|_]; [lia|]. reflexivity.
Qed.

(** The fuel of [decimal_digits] covers a number of up to four digits. *)
Lemma decimal_digits_fuel_enough (n c : Z) (k : nat) :
  0 < c <= n -> Z.of_nat k <= Z.log2 c ->
  exists fuel, S (Z.to_nat (Z.log2 n)) = (S k + fuel)%nat.
Proof.
  intros Hc Hk. pose proof (Z.log2_le_mono c n ltac:(lia)) as Hl.
  exists (Z.to_nat (Z.log2 n) - k)%nat. lia.
Qed.

Lemma zero_pad_four (n : Z) :
  0 <= n < 10000 -> zero_pad 4 (decimal_digits n) = four_digits n.
Proof.
  intros Hn. unfold decimal_digits, four_digits.
  destruct (Z.lt_ge_cases n 10) as [H1|H1];
    [|destruct (Z.lt_ge_cases n 100) as [H2|H2];
      [|destruct (Z.lt_ge_cases n 1000) as [H3|H3]]].
  - rewrite decimal_digits_fuel_lt10 by lia.
    rewrite (Z.div_small n 1000), (Z.div_small n 100), (Z.div_small n 10) by lia.
    rewrite (Z.mod_small n 10) by lia.
    reflexivity.
  - destruct (decimal_digits_fuel_enough n 10 1) as [f ->];
      [lia|vm_compute; discriminate|].
    cbn [Nat.add]. rewrite decimal_digits_fuel_ge10 by lia.
    rewrite decimal_digits_fuel_lt10
      by (split; [apply Z.div_pos; lia|apply Z.div_lt_upper_bound; lia]).
    rewrite (Z.div_small n 1000), (Z.div_small n 100) by lia.
    rewrite (Z.mod_small (n / 10) 10)
      by (split; [apply Z.div_pos; lia|apply Z.div_lt_upper_bound; lia]).
    reflexivity.
  - destruct (decimal_digits_fuel_enough n 100 2) as [f ->];
      [lia|vm_compute; discriminate|].
    cbn [Nat.add]. rewrite decimal_digits_fuel_ge10 by lia.
    rewrite decimal_digits_fuel_ge10
      by (apply Z.div_le_lower_bound; lia).
    rewrite Z.div_div by lia. change (10 * 10) with 100.
    rewrite decimal_digits_fuel_lt10
      by (split; [apply Z.div_pos; lia|apply Z.div_lt_upper_bound; lia]).
    rewrite (Z.div_small n 1000) by lia.
    rewrite (Z.mod_small (n / 100) 10)
      by (split; [apply Z.div_pos; lia|apply Z.div_lt_upper_bound; lia]).
    reflexivity.
  - destruct (decimal_digits_fuel_enough n 1000 3) as [f ->];
      [lia|vm_compute; discriminate|].
    cbn [Nat.add]. rewrite decimal_digits_fuel_ge10 by lia.
    rewrite decimal_digits_fuel_ge10
      by (apply Z.div_le_lower_bound; lia).
    rewrite Z.div_div by lia. change (10 * 10) with 100.
    rewrite decimal_digits_fuel_ge10
      by (apply Z.div_le_lower_bound; lia).
    rewrite Z.div_div by lia. change (100 * 10) with 1000.
    rewrite decimal_digits_fuel_lt10
      by (split; [apply Z.div_pos; lia|apply Z.div_lt_upper_bound; lia]).
    rewrite (Z.mod_small (n / 1000) 10)
      by (split; [apply Z.div_pos; lia|apply Z.div_lt_upper_bound; lia]).
    reflexivity.
Qed.

Lemma days_in_month_le (y m : Z) : days_in_month y m <= 31.
Proof.
  unfold days_in_month.
  destruct (m =? 2); [destruct (is_leap y); lia|].
  destruct ((m =? 4) || (m =? 6) || (m =? 9) || (m =? 11)); lia.
Qed.

(** The decimal digits of a number below 10000 are its digits without
    leading zeros. *)
Lemma decimal_digits_year (n : Z) :
  0 <= n < 10000 -> decimal_digits n = year_digits n.
Proof.
  intros Hn.
  unfold decimal_digits, year_digits, two_digits, three_digits, four_digits.
  destruct (Z.ltb_spec n 10) as [H1|H1];
    [|destruct (Z.ltb_spec n 100) as [H2|H2];
      [|destruct (Z.ltb_spec n 1000) as [H3|H3]]].
  - rewrite decimal_digits_fuel_lt10 by lia. reflexivity.
  - destruct (decimal_digits_fuel_enough n 10 1) as [f ->];
      [lia|vm_compute; discriminate|].
    cbn [Nat.add]. rewrite decimal_digits_fuel_ge10 by lia.
    rewrite decimal_digits_fuel_lt10
      by (split; [apply Z.div_pos; lia|apply Z.div_lt_upper_bound; lia]).
    rewrite (Z.mod_small (n / 10) 10)
      by (split; [apply Z.div_pos; lia|apply Z.div_lt_upper_bound; lia]).
    reflexivity.
  - destruct (decimal_digits_fuel_enough n 100 2) as [f ->];
      [lia|vm_compute; discriminate|].
    cbn [Nat.add]. rewrite decimal_digits_fuel_ge10 by lia.
    rewrite decimal_digits_fuel_ge10
      by (apply Z.div_le_lower_bound; lia).
    rewrite Z.div_div by lia. change (10 * 10) with 100.
    rewrite decimal_digits_fuel_lt10
      by (split; [apply Z.div_pos; lia|apply Z.div_lt_upper_bound; lia]).
    rewrite (Z.mod_small (n / 100) 10)
      by (split; [apply Z.div_pos; lia|apply Z.div_lt_upper_bound; lia]).
    reflexivity.
  - destruct (decimal_digits_fuel_enough n 1000 3) as [f ->];
      [lia|vm_compute; discriminate|].
    cbn [Nat.add]. rewrite decimal_digits_fuel_ge10 by lia.
    rewrite decimal_digits_fuel_ge10
      by (apply Z.div_le_lower_bound; lia).
    rewrite Z.div_div by lia. change (10 * 10) with 100.
    rewrite decimal_digits_fuel_ge10
      by (apply Z.div_le_lower_bound; lia).
    rewrite Z.div_div by lia. change (100 * 10) with 1000.
    rewrite decimal_digits_fuel_lt10
      by (split; [apply Z.div_pos; lia|apply Z.div_lt_upper_bound; lia]).
    rewrite (Z.mod_small (n / 1000) 10)
      by (split; [apply Z.div_pos; lia|apply Z.div_lt_upper_bound; lia]).
    reflexivity.
Qed.

Lemma year_digits_four (y : Z) : 1000 <= y -> year_digits y = four_digits y.
Proof.
  intros Hy. unfold year_digits.
  destruct (Z.ltb_spec y 10); [lia|].
  destruct (Z.ltb_spec y 100); [lia|].
  destruct (Z.ltb_spec y 1000); [lia|]. reflexivity.
Qed.

Lemma year_digits_short (y : Z) :
  y < 1000 -> (length (year_digits y) < 4)%nat.
Proof.
  intros Hy. unfold year_digits.
  destruct (Z.ltb_spec y 10); [cbn; lia|].
  destruct (Z.ltb_spec y 100); [cbn; lia|].
  destruct (Z.ltb_spec y 1000); [cbn; lia|lia].
Qed.

(** [strftime('%d.%m.%Y')] of a date of the calendar: two digits, a
    point, two digits, a point, the year without leading zeros. *)
Lemma strftime_dmy_text (d : pydate) :
  valid_date d = true -> strftime_dmy d = dmy_text d.
Proof.
  unfold valid_date. intros Hv.
  repeat (apply andb_prop in Hv as [Hv ?]).
  pose proof (days_in_month_le (year d) (month d)).
  unfold strftime_dmy, dmy_text.
  rewrite !zero_pad_two, decimal_digits_year by lia. reflexivity.
Qed.

(** *** The dates of the header read back *)

Section RoundTrip.
Variable ud : N -> option N.

Lemma to_decimal_digit_char (k : Z) :
  0 <= k < 10 -> to_decimal ud (digit_char k) = Some (Z.to_N k).
Proof.
  intros Hk. unfold to_decimal, digit_char, is_ascii_digit, DIGIT0.
  destruct (N.ltb_spec (48 + Z.to_N k) 128) as [_|]; [|lia].
  destruct (N.leb_spec 48 (48 + Z.to_N k)) as [_|]; [|lia].
  destruct (N.leb_spec (48 + Z.to_N k) 57) as [_|]; [|lia].
  cbn [andb]. f_equal. lia.
Qed.

Lemma cc_digit_digit_char (k : Z) :
  0 <= k < 10 -> cc_digit ud (digit_char k) = true.
Proof. intros Hk. unfold cc_digit. rewrite to_decimal_digit_char by exact Hk. reflexivity. Qed.

Lemma forall_range_Prop (P : Z -> Prop) (lo n : Z) :
  Forall P (List.map (fun i => lo + Z.of_nat i) (seq 0 (Z.to_nat n))) ->
  forall z, lo <= z < lo + n -> P z.
Proof.
  intros Hall z Hz. rewrite List.Forall_forall in Hall. apply Hall.
  apply List.in_map_iff. exists (Z.to_nat (z - lo)). split; [lia|].
  apply in_seq. lia.
Qed.

Lemma match_dot (gs : list (list (list charclass))) (rest : pystr) :
  match_groups (re_dot :: gs) (DOT :: rest)
  = match match_groups gs rest with
    | Some (caps, r) => Some ([DOT] :: caps, r)
    | None => None
    end.
Proof. cbn. destruct (match_groups gs rest) as [[caps r]|]; reflexivity. Qed.

Lemma match_day (d : Z) :
  1 <= d < 1 + 31 -> group_matches (re_d ud) (two_digits d).
Proof.
  apply (forall_range_Prop (fun d => group_matches (re_d ud) (two_digits d)) 1 31).
  match goal with
  | |- Forall ?P ?l => let l' := eval vm_compute in l in change (Forall P l')
  end.
  repeat (constructor;
          [intros gs rest caps r Hk; cbv in Hk |- *; rewrite Hk; reflexivity|]).
  constructor.
Qed.

Lemma match_month (m : Z) :
  1 <= m < 1 + 12 -> group_matches re_m (two_digits m).
Proof.
  apply (forall_range_Prop (fun m => group_matches re_m (two_digits m)) 1 12).
  match goal with
  | |- Forall ?P ?l => let l' := eval vm_compute in l in change (Forall P l')
  end.
  repeat (constructor;
          [intros gs rest caps r Hk; cbv in Hk |- *; rewrite Hk; reflexivity|]).
  constructor.
Qed.

Lemma match_year (y : Z) :
  match_groups [re_Y ud] (four_digits y)
  = Some ([four_digits y], []).
Proof.
  unfold four_digits. cbn [match_groups re_Y match_classes].
  rewrite !cc_digit_digit_char by (apply Z.mod_pos_bound; lia).
  reflexivity.
Qed.

Lemma int_of_two_digits (n : Z) :
  0 <= n < 100 -> int_of_group ud (two_digits n) = n.
Proof.
  intros Hn. unfold int_of_group, two_digits. cbn [fold_left].
  rewrite !to_decimal_digit_char by (apply Z.mod_pos_bound; lia).
  rewrite !Z2N.id by (apply Z.mod_pos_bound; lia).
  rewrite (Z.mod_small (n / 10) 10)
    by (split; [apply Z.div_pos; lia|apply Z.div_lt_upper_bound; lia]).
  pose proof (Z.div_mod n 10 ltac:(lia)). lia.
Qed.

Lemma int_of_four_digits (n : Z) :
  0 <= n < 10000 -> int_of_group ud (four_digits n) = n.
Proof.
  intros Hn. unfold int_of_group, four_digits. cbn [fold_left].
  rewrite !to_decimal_digit_char by (apply Z.mod_pos_bound; lia).
  rewrite !Z2N.id by (apply Z.mod_pos_bound; lia).
  pose proof (Z.div_mod n 10 ltac:(lia)).
  pose proof (Z.div_mod (n / 10) 10 ltac:(lia)).
  pose proof (Z.div_mod (n / 10 / 10) 10 ltac:(lia)).
  rewrite Z.div_div in * by lia. change (10 * 10) with 100 in *.
  pose proof (Z.div_mod (n / 100 / 10) 10 ltac:(lia)).
  rewrite Z.div_div in * by lia. change (100 * 10) with 1000 in *.
  rewrite (Z.mod_small (n / 1000) 10)
    by (split; [apply Z.div_pos; lia|apply Z.div_lt_upper_bound; lia]).
  rewrite (Z.mod_small (n / 1000) 10) in *
    by (split; [apply Z.div_pos; lia|apply Z.div_lt_upper_bound; lia]).
  lia.
Qed.

(** The text [strftime] writes for a date of the calendar from the year
    1000 on is read back by [strptime] as that date. *)
Lemma strptime_strftime (d : pydate) :
  valid_date d = true -> 1000 <= year d ->
  strptime_dmy ud (strftime_dmy d) = Ok d.
Proof.
  intros Hv Hy. rewrite (strftime_dmy_text d Hv).
  pose proof Hv as Hv'. unfold valid_date in Hv'.
  repeat (apply andb_prop in Hv' as [Hv' ?]).
  pose proof (days_in_month_le (year d) (month d)) as Hdm.
  unfold strptime_dmy, dmy_text, re_dmY.
  rewrite (year_digits_four (year d) Hy).
  change ([DOT] ++ two_digits (month d) ++ [DOT] ++ four_digits (year d))
    with (DOT :: two_digits (month d) ++ DOT :: four_digits (year d)).
  rewrite (match_day (day d) ltac:(lia) _ _
             [[DOT]; two_digits (month d); [DOT]; four_digits (year d)] []).
  - rewrite int_of_two_digits, int_of_two_digits, int_of_four_digits by lia.
    unfold date_new. fold (valid_date d). rewrite Hv. destruct d; reflexivity.
  - rewrite match_dot.
    rewrite (match_month (month d) ltac:(lia) _ _ [[DOT]; four_digits (year d)] []);
      [reflexivity|].
    rewrite match_dot, match_year. reflexivity.
Qed.
End RoundTrip.

(** The text of [.2f] for a float that is not finite: [nan], [inf] or
    [-inf], without a digit. *)
Lemma format_2f_non_finite (x : float64) :
  b64_is_finite x = false ->
  format_2f x = non_finite_text x /\ has_two_decimals (format_2f x) = false.
Proof.
  destruct x as [s|s| |s m e]; try discriminate; intros _.
  - destruct s; split; reflexivity.
  - split; reflexivity.
Qed.

(** The default text of an int of up to 4300 digits and of a float. *)
Lemma py_str_of_int_small (z : Z) :
  Z.abs z < 10000 -> py_str_of_int z = Ok (str_of_int z).
Proof.
  intros Hz. unfold py_str_of_int.
  rewrite (decimal_digits_year (Z.abs z)) by lia.
  assert (length (year_digits (Z.abs z)) <= 4)%nat as Hl.
  { unfold year_digits. repeat destruct (_ <? _); cbn; lia. }
  destruct (Z.ltb_spec MAX_STR_DIGITS (Z.of_nat (length (year_digits (Z.abs z)))))
    as [Hbig|_]; [unfold MAX_STR_DIGITS in Hbig; lia|reflexivity].
Qed.

(** C8, as amended. For dates of the calendar and a summary whose totals
    have a default text, the report is the header with the period
    written day.month.year (two digits, two digits, the year without
    leading zeros, so four digits from the year 1000 on), then one
    labelled line per field: each total as its default text, [repr] for
    a float and [0] for the int 0; each average as its [.2f] text
    followed by a percent sign. The [.2f] text of a finite float is an
    optional minus sign, digits, a point and exactly two digits; that of
    a float that is not finite is [nan], [inf] or [-inf]. A date of the
    header from the year 1000 on is read back by [strptime] under
    [%d.%m.%Y]; an int of more than 4300 digits has no default text. *)
Theorem format_report_layout (start_date end_date : pydate)
    (stats : Stats float64)
    (batons_text sales_text online_text fop_text expense_text : pystr) :
  valid_date start_date = true ->
  valid_date end_date = true ->
  format_default (total_batons stats) = Ok batons_text ->
  format_default (total_sales stats) = Ok sales_text ->
  format_default (total_online stats) = Ok online_text ->
  format_default (total_fop stats) = Ok fop_text ->
  format_default (stats_expense stats) = Ok expense_text ->
  format_report start_date end_date stats
  = Ok (u "📊 Звіт Чіназес за " ++ dmy_text start_date ++ u "–"
          ++ dmy_text end_date ++ [NEWLINE; NEWLINE]
        ++ u "🔹 Батонів продано: " ++ batons_text ++ [NEWLINE]
        ++ u "🔹 Сума продажів: " ++ sales_text ++ [NEWLINE; NEWLINE]
        ++ u "💳 ФОП-онлайн: " ++ online_text ++ [NEWLINE]
        ++ u "🤝 ФОП-ФОП: " ++ fop_text ++ [NEWLINE; NEWLINE]
        ++ u "💸 Витрати: " ++ expense_text ++ [NEWLINE; NEWLINE]
        ++ u "📈 Середня маржа: " ++ format_2f (avg_margin stats)
          ++ [PERCENT; NEWLINE]
        ++ u "- Онлайн: " ++ format_2f (avg_online stats)
          ++ [PERCENT; NEWLINE]
        ++ u "- ФОП: " ++ format_2f (avg_fop stats) ++ [PERCENT; NEWLINE])
  /\ (forall x : float64,
        x ∈ [avg_margin stats; avg_online stats; avg_fop stats] ->
        if b64_is_finite x
        then has_two_decimals (format_2f x) = true
        else format_2f x = non_finite_text x
             /\ has_two_decimals (format_2f x) = false)
  /\ (forall x : float64, format_default (PFloat x) = Ok (float_repr x))
  /\ format_default (PInt 0) = Ok (u "0")
  /\ (forall z : Z,
        MAX_STR_DIGITS < Z.of_nat (length (decimal_digits (Z.abs z))) ->
        format_default (PInt z) = Raise ValueError)
  /\ (forall d : pydate,
        d ∈ [start_date; end_date] ->
        (1000 <= year d ->
         dmy_text d
         = two_digits (day d) ++ [DOT] ++ two_digits (month d) ++ [DOT]
           ++ four_digits (year d)
         /\ forall ud, strptime_dmy ud (dmy_text d) = Ok d)
        /\ (year d < 1000 -> (length (year_digits (year d)) < 4)%nat)).
Proof.
  intros Hs He Hb Hsa Ho Hf Hex.
  split; [|split; [|split; [|split; [|split]]]].
  - unfold format_report.
    rewrite Hb, Hsa, Ho, Hf, Hex. cbn [exc_bind].
    rewrite (strftime_dmy_text start_date Hs), (strftime_dmy_text end_date He).
    rewrite <- !app_assoc. reflexivity.
  - intros x _. destruct (b64_is_finite x) eqn:E.
    + apply format_2f_two_decimals, E.
    + apply format_2f_non_finite, E.
  - reflexivity.
  - reflexivity.
  - intros z Hz. cbn [format_default]. unfold py_str_of_int.
    destruct (Z.ltb_spec MAX_STR_DIGITS
                (Z.of_nat (length (decimal_digits (Z.abs z)))));
      [reflexivity|lia].
  - intros d Hd.
    assert (valid_date d = true) as Hv.
    { apply elem_of_cons in Hd as [->|Hd]; [exact Hs|].
      apply elem_of_cons in Hd as [->|Hd]; [exact He|inversion Hd]. }
    split.
    + intros Hy. split.
      * unfold dmy_text. rewrite year_digits_four by exact Hy. reflexivity.
      * intros ud. rewrite <- strftime_dmy_text by exact Hv.
        apply strptime_strftime; assumption.
    + apply year_digits_short.
Qed.

(** ** The claims at concrete inputs *)

(** On the sheet with the margin cell [nan] the average margin is
    rendered as [nan%]: no point and no decimal digit. And on no record
    at all the totals are the int [0], rendered as [0], where the float
    [0.0] has the text [0.0]. *)
Lemma nan_margin_has_no_decimals :
  match compute_report (rows_of nan_sheet) with
  | Ok st =>
    b64_is_finite (avg_margin st) = false
    /\ format_2f (avg_margin st) ++ [PERCENT] = u "nan%"
    /\ has_two_decimals (format_2f (avg_margin st)) = false
  | Raise _ => False
  end
  /\ match compute_report (@nil (Row float64)) with
     | Ok st =>
       total_sales st = PInt 0
       /\ format_default (total_sales st) = Ok (u "0")
       /\ float_repr b64_zero = u "0.0"
     | Raise _ => False
     end.
Proof. vm_compute. repeat split; reflexivity. Qed.

(** On the sheet with the sales 0.1 (online), 0.1 (partner), 1.1
    (online) every record carries a channel label, the total of the
    sales is 1.3 and the two channel totals add up to
    1.3000000000000003. *)
Lemma channel_totals_differ_in_binary64 :
  Forall has_channel_label (rows_of rounding_sheet)
  /\ match compute_report (rows_of rounding_sheet) with
     | Ok st =>
       format_default (total_sales st) = Ok (u "1.3")
       /\ py_add (total_online st) (total_fop st) <> Ok (total_sales st)
       /\ match py_add (total_online st) (total_fop st) with
          | Ok t => format_default t = Ok (u "1.3000000000000003")
                    /\ py_eq t (total_sales st) = false
          | Raise _ => False
          end
     | Raise _ => False
     end.
Proof.
  split.
  - apply (bool_decide_eq_true_1 (Forall has_channel_label (rows_of rounding_sheet))).
    vm_compute. reflexivity.
  - vm_compute. repeat split; try reflexivity. discriminate.
Qed.

(** With overflow the two sides differ by more than rounding: on the
    sheet with the sales 1e308 (online), 1e308 (partner), -1e308 (online)
    the total of the sales is infinite and the two channel totals add up
    to 1e+308. *)
Lemma channel_totals_overflow_in_binary64 :
  Forall has_channel_label (rows_of overflow_sheet)
  /\ match compute_report (rows_of overflow_sheet) with
     | Ok st =>
       format_default (total_sales st) = Ok (u "inf")
       /\ match py_add (total_online st) (total_fop st) with
          | Ok t => format_default t = Ok (u "1e+308")
                    /\ py_eq t (total_sales st) = false
          | Raise _ => False
          end
     | Raise _ => False
     end.
Proof.
  split.
  - apply (bool_decide_eq_true_1 (Forall has_channel_label (rows_of overflow_sheet))).
    vm_compute. reflexivity.
  - vm_compute. repeat split; reflexivity.
Qed.

(** On no record every total is the int [0], not the float [0.0] a
    summary of floats would carry: it has the text [0], where [0.0] has
    the text [0.0]. *)
Lemma empty_totals_are_not_floats :
  match compute_report (@nil (Row float64)) with
  | Ok st =>
    total_batons st = PInt 0
    /\ total_sales st = PInt 0
    /\ total_online st = PInt 0
    /\ total_fop st = PInt 0
    /\ stats_expense st = PInt 0
    /\ total_sales st <> PFloat b64_zero
    /\ format_default (total_sales st) = Ok (u "0")
    /\ format_default (PFloat b64_zero) = Ok (u "0.0")
  | Raise _ => False
  end.
Proof. vm_compute. repeat split; try reflexivity. discriminate. Qed.

(** The three sums of that sheet are the same under the compensated
    summation of later interpreters. *)
Lemma rounding_sheet_compensated :
  match compute_report (rows_of rounding_sheet) with
  | Ok st =>
    sum_compensated (sales <$> rows_of rounding_sheet) = total_sales st
    /\ sum_compensated (sales <$> filter (type_is ONLINE) (rows_of rounding_sheet))
       = total_online st
    /\ sum_compensated (sales <$> filter (type_is FOP) (rows_of rounding_sheet))
       = total_fop st
  | Raise _ => False
  end.
Proof. vm_compute. repeat split; reflexivity. Qed.

(** In binary64 the order of the records shows in the left-to-right sum:
    the rounding the statement on permutations leaves aside. *)
Lemma summation_order_in_binary64 :
  match compute_report (rows_of rounding_sheet),
        compute_report (rev (rows_of rounding_sheet)) with
  | Ok st, Ok st' =>
    format_default (total_sales st) = Ok (u "1.3")
    /\ format_default (total_sales st') = Ok (u "1.3000000000000003")
  | _, _ => False
  end.
Proof. vm_compute. split; reflexivity. Qed.

Lemma compute_report_averages_witness :
  len (rows_of two_channel_sheet) < 2 ^ 63
  /\ exists st,
       compute_report (rows_of two_channel_sheet) = Ok st
       /\ avg_margin st = mean_or_zero (margin <$> rows_of two_channel_sheet)
       /\ float_repr (avg_margin st) = u "15.0"
       /\ float_repr (avg_online st) = u "10.0"
       /\ float_repr (avg_fop st) = u "20.0".
Proof.
  assert (Hlen : len (rows_of two_channel_sheet) < 2 ^ 63)
    by (vm_compute; reflexivity).
  split; [exact Hlen|].
  destruct (compute_report_averages (rows_of two_channel_sheet) Hlen)
    as (st & Hst & Ha & Ho & Hf & _).
  exists st. split; [exact Hst|]. split; [exact Ha|].
  rewrite Ha, Ho, Hf. repeat split; vm_compute; reflexivity.
Defined.

Lemma compute_report_permutation_witness :
  Permutation exact_rows (rev exact_rows)
  /\ compute_report exact_rows = compute_report (rev exact_rows).
Proof.
  assert (Hp : Permutation exact_rows (rev exact_rows)) by apply perm_swap.
  split; [exact Hp|].
  apply (compute_report_permutation exact_rows (rev exact_rows) Hp).
Defined.

Lemma channel_totals_exact_witness :
  Forall has_channel_label exact_rows
  /\ exists st, compute_report exact_rows = Ok st
       /\ py_add (total_online st) (total_fop st) = Ok (total_sales st).
Proof.
  assert (Hl : Forall has_channel_label exact_rows).
  { constructor; [left; reflexivity|].
    constructor; [right; reflexivity|]. constructor. }
  split; [exact Hl|].
  apply (proj1 (channel_totals_exact exact_rows)), Hl.
Defined.

Lemma percent_suffix_unscaled_witness :
  (PERCENT ∉ u "12,5")
  /\ float_of_str ascii_only (float_argument (u "12,5"))
     = Ok (b64_of_decimal false 125 (-1))
  /\ parse_number ascii_only (PyStr (u "12,5%")) = Ok (b64_of_decimal false 125 (-1))
  /\ repr_of (parse_number ascii_only (PyStr (u "12,5%"))) = Ok (u "12.5")
  /\ repr_of (parse_number ascii_only (PyStr (u "10%"))) = Ok (u "10.0").
Proof.
  assert (Hp : PERCENT ∉ u "12,5").
  { apply (bool_decide_eq_true_1 (PERCENT ∉ u "12,5")). reflexivity. }
  assert (Hx : float_of_str ascii_only (float_argument (u "12,5"))
               = Ok (b64_of_decimal false 125 (-1))) by reflexivity.
  split; [exact Hp|]. split; [exact Hx|].
  split; [|split].
  - apply (percent_suffix_unscaled ascii_only (u "12,5") _ Hp Hx).
  - vm_compute. reflexivity.
  - vm_compute. reflexivity.
Defined.

Lemma nbsp_padding_comma_decimal_witness :
  forallb py_isspace [NBSP] = true
  /\ forallb py_isspace [NBSP; SPACE] = true
  /\ parse_number ascii_only (PyStr ([NBSP] ++ u "12,5" ++ [NBSP; SPACE]))
     = parse_number ascii_only (PyStr (str_replace1 COMMA [DOT] (u "12,5"))).
Proof.
  split; [reflexivity|]. split; [reflexivity|].
  apply (nbsp_padding_comma_decimal ascii_only [NBSP] (u "12,5") [NBSP; SPACE]);
    reflexivity.
Defined.

Lemma format_report_layout_witness :
  valid_date march_1 = true /\ valid_date march_31 = true
  /\ format_default (total_batons example_stats) = Ok (u "16.0")
  /\ format_default (total_sales example_stats) = Ok (u "500.2")
  /\ format_default (total_online example_stats) = Ok (u "500.0")
  /\ format_default (total_fop example_stats) = Ok (u "0")
  /\ format_default (stats_expense example_stats) = Ok (u "50.1")
  /\ has_two_decimals (format_2f (avg_margin example_stats)) = true
  /\ format_2f (avg_margin example_stats) ++ [PERCENT] = u "12.00%"
  /\ format_2f (avg_online example_stats) ++ [PERCENT] = u "0.12%"
  /\ dmy_text march_1 = u "01.03.2024".
Proof.
  destruct (format_report_layout march_1 march_31 example_stats
              (u "16.0") (u "500.2") (u "500.0") (u "0") (u "50.1")
              eq_refl eq_refl eq_refl eq_refl eq_refl eq_refl eq_refl)
    as (_ & H2 & _).
  do 7 (split; [reflexivity|]).
  split; [exact (H2 (avg_margin example_stats) ltac:(left))|].
  repeat split; reflexivity.
Defined.

(** ** Further facts and examples *)

(** X16: in any arithmetic, binary64 too, a record with another label
    leaves the channel totals and the channel averages as they are
    without it. *)
Lemma other_label_leaves_channels {F : Type} `{FloatOps F}
    (l1 l2 : list (Row F)) (item : Row F) (st st' : Stats F) :
  ~ type_is ONLINE item -> ~ type_is FOP item ->
  compute_report (l1 ++ l2) = Ok st ->
  compute_report (l1 ++ item :: l2) = Ok st' ->
  total_online st' = total_online st /\ total_fop st' = total_fop st
  /\ avg_online st' = avg_online st /\ avg_fop st' = avg_fop st.
Proof.
  intros Hno Hnf Hst Hst'. unfold compute_report in Hst, Hst'.
  rewrite !filter_app in Hst, Hst'.
  rewrite (filter_cons_False (type_is ONLINE)) in Hst' by exact Hno.
  rewrite (filter_cons_False (type_is FOP)) in Hst' by exact Hnf.
  repeat match type of Hst with
         | context [exc_bind ?m _] =>
           destruct m eqn:?; cbn [exc_bind] in Hst, Hst'; [|discriminate]
         end.
  repeat match type of Hst' with
         | context [exc_bind ?m _] =>
           destruct m eqn:?; cbn [exc_bind] in Hst'; [|discriminate]
         end.
  injection Hst as <-. injection Hst' as <-.
  repeat split; reflexivity.
Qed.

(** The rows of the two-channel sheet, by the text of their floats. *)
Example fetch_two_channel_sheet :
  List.map (fun r => (strftime_dmy (date r), float_repr (batons r),
                      float_repr (sales r), type r,
                      float_repr (expense r), float_repr (margin r)))
           (rows_of two_channel_sheet)
  = [ (u "05.03.2024", u "10.0", u "500.0", u "Онлайн", u "50.0", u "10.0");
      (u "06.03.2024", u "4.0", u "250.5", u "ФОП", u "20.0", u "20.0") ].
Proof. vm_compute. reflexivity. Qed.

(** A row with fewer than 6 cells, and a row whose first cell is no
    date, are skipped. *)
Example parse_row_skips :
  parse_row ascii_only [u "05.03.2024"; u "10"; u "500"; u "Онлайн"; u "50"]
  = Ok None
  /\ parse_row ascii_only
       [u "2024-03-05"; u "10"; u "500"; u "Онлайн"; u "50"; u "12%"]
     = Ok None
  /\ parse_row ascii_only
       [u "31.02.2024"; u "10"; u "500"; u "Онлайн"; u "50"; u "12%"]
     = Ok None.
Proof. vm_compute. repeat split; reflexivity. Qed.

(** The format [%d.%m.%Y] as [strptime] reads it: day and month may lack
    the leading zero, the year has four digits, nothing may follow. *)
Example strptime_dmy_examples :
  strptime_dmy ascii_only (u "05.03.2024")
  = Ok {| year := 2024; month := 3; day := 5 |}
  /\ strptime_dmy ascii_only (u "5.3.2024")
     = Ok {| year := 2024; month := 3; day := 5 |}
  /\ strptime_dmy ascii_only (u "05.03.24") = Raise ValueError
  /\ strptime_dmy ascii_only (u "05.03.2024 ") = Raise ValueError
  /\ strptime_dmy ascii_only (u "29.02.2023") = Raise ValueError.
Proof. vm_compute. repeat split; reflexivity. Qed.

(** The period from the first to the last day of March keeps both of
    its bounds and a day inside, and drops the first of April. *)
Example filter_data_march :
  let on (d : pydate) : Row float64 :=
    {| date := d; batons := b64_zero; sales := b64_zero; type := ONLINE;
       expense := b64_zero; margin := b64_zero |} in
  let march_5 := {| year := 2024; month := 3; day := 5 |} in
  let april_1 := {| year := 2024; month := 4; day := 1 |} in
  filter_data [on march_1; on april_1; on march_5; on march_31]
              (Some march_1) (Some march_31)
  = [on march_1; on march_5; on march_31]
  /\ filter_data [on march_1; on april_1] None None = [on march_1; on april_1].
Proof. vm_compute. split; reflexivity. Qed.

(** The report of the two-channel sheet for March. *)
Example report_two_channel_sheet :
  match compute_report
          (filter_data (rows_of two_channel_sheet) (Some march_1) (Some march_31))
  with
  | Ok st =>
    format_default (total_batons st) = Ok (u "14.0")
    /\ format_default (total_sales st) = Ok (u "750.5")
    /\ format_default (total_online st) = Ok (u "500.0")
    /\ format_default (total_fop st) = Ok (u "250.5")
    /\ format_default (stats_expense st) = Ok (u "70.0")
    /\ format_2f (avg_margin st) = u "15.00"
    /\ format_2f (avg_online st) = u "10.00"
    /\ format_2f (avg_fop st) = u "20.00"
  | Raise _ => False
  end.
Proof. vm_compute. repeat split; reflexivity. Qed.

(** [repr] has no fixed number of decimals. *)
Example float_repr_examples :
  float_repr (b64_of_decimal false 12 0) = u "12.0"
  /\ float_repr (b64_of_decimal false 12345678 (-4)) = u "1234.5678"
  /\ float_repr (b64_of_decimal false 1 16) = u "1e+16"
  /\ float_repr (b64_of_decimal false 1 (-5)) = u "1e-05"
  /\ float_repr (b64_add (b64_of_decimal false 1 (-1)) (b64_of_decimal false 2 (-1)))
     = u "0.30000000000000004".
Proof. vm_compute. repeat split; reflexivity. Qed.

(** What [float] reads and what it rejects. *)
Example float_of_str_examples :
  repr_of (float_of_str ascii_only (u " 1_000.5 ")) = Ok (u "1000.5")
  /\ repr_of (float_of_str ascii_only (u "1e3")) = Ok (u "1000.0")
  /\ repr_of (float_of_str ascii_only (u "-Infinity")) = Ok (u "-inf")
  /\ float_of_str ascii_only (u "nan") = Ok S754_nan
  /\ float_of_str ascii_only (u "") = Raise ValueError
  /\ float_of_str ascii_only (u "1 000") = Raise ValueError
  /\ float_of_str ascii_only (u "12abc") = Raise ValueError.
Proof. vm_compute. repeat split; reflexivity. Qed.

(** The largest int [float] converts, and the first it does not. *)
Example float_of_int_limit :
  float_of_int (2 ^ 1024 - 2 ^ 970 - 1)
  = Ok (S754_finite false (2 ^ 53 - 1) 971)
  /\ float_of_int (2 ^ 1024 - 2 ^ 970) = Raise OverflowError
  /\ binary_normalize prec emax (2 ^ 1024 - 2 ^ 970) 0 false
     = S754_infinity false.
Proof. vm_compute. repeat split; reflexivity. Qed.

(** [fetch_data] keeps, in the order of the sheet, the record of each
    row after the header that has one; a failed request gives no row. *)
Lemma parse_rows_keeps (ud : N -> option N) (rows : list (list pystr)) :
  exists picks,
    Forall2 (fun row o => parse_row ud row = Ok o) rows picks
    /\ parse_rows ud rows = Ok (omap id picks).
Proof.
  induction rows as [|row rest (picks & Hall & Hrest)].
  - exists []. split; [constructor|reflexivity].
  - destruct (parse_row_total ud row) as (o & Ho).
    exists (o :: picks). split; [constructor; assumption|].
    cbn [parse_rows]. rewrite Ho, Hrest. cbn [exc_bind].
    destruct o; reflexivity.
Qed.

Lemma fetch_data_keeps (ud : N -> option N) (values : list (list pystr)) :
  exists picks,
    Forall2 (fun row o => parse_row ud row = Ok o) (tail values) picks
    /\ fetch_data ud (Ok (Some values)) = omap id picks.
Proof.
  destruct (parse_rows_keeps ud (tail values)) as (picks & Hall & Hrows).
  exists picks. split; [exact Hall|].
  unfold fetch_data. simpl. rewrite Hrows. reflexivity.
Qed.

Lemma fetch_data_on_failure (ud : N -> option N) (e : exn) :
  fetch_data ud (Raise e) = [] /\ fetch_data ud (Ok None) = [].
Proof. split; reflexivity. Qed.

(* ===================================================================== *)
(** * Dates as day numbers *)
(* ===================================================================== *)

Lemma days_before_year_succ (y : Z) :
  days_before_year (y + 1) = days_before_year y + 365 + Z.b2z (is_leap y).
Proof.
  unfold days_before_year, is_leap.
  replace (y + 1 - 1) with y by lia.
  destruct (Z.eqb_spec (y mod 4) 0), (Z.eqb_spec (y mod 100) 0),
    (Z.eqb_spec (y mod 400) 0); cbn [negb orb andb Z.b2z];
    Z.div_mod_to_equations; lia.
Qed.

Lemma days_before_year_mono (y y' : Z) :
  y <= y' -> days_before_year y <= days_before_year y'.
Proof.
  intros H. replace y' with (y + Z.of_nat (Z.to_nat (y' - y))) by lia.
  induction (Z.to_nat (y' - y)) as [|n IH].
  - replace (y + Z.of_nat 0) with y by lia. lia.
  - replace (y + Z.of_nat (S n)) with (y + Z.of_nat n + 1) by lia.
    rewrite days_before_year_succ.
    destruct (is_leap _); cbn [Z.b2z]; lia.
Qed.

Lemma days_before_year_decomp (a b c e : Z) :
  0 <= b <= 3 -> 0 <= c <= 24 -> 0 <= e <= 3 ->
  days_before_year (400 * a + 100 * b + 4 * c + e + 1)
  = 146097 * a + 36524 * b + 1461 * c + 365 * e.
Proof.
  intros Hb Hc He. unfold days_before_year.
  Z.div_mod_to_equations. lia.
Qed.

Lemma is_leap_decomp (a b c e : Z) :
  0 <= b <= 3 -> 0 <= c <= 24 -> 0 <= e <= 3 ->
  is_leap (400 * a + 100 * b + 4 * c + e + 1)
  = (e =? 3) && (negb (c =? 24) || (b =? 3)).
Proof.
  intros Hb Hc He. unfold is_leap.
  destruct (Z.eqb_spec e 3), (Z.eqb_spec c 24), (Z.eqb_spec b 3);
    cbn [negb orb andb];
    repeat match goal with
    | |- context [?x =? 0] => destruct (Z.eqb_spec x 0)
    end; cbn [negb orb andb]; try reflexivity;
    Z.div_mod_to_equations; lia.
Qed.

Lemma month_day_of_spec (leap : bool) (n : Z) :
  0 <= n < 365 ->
  month_day_ok leap n = true.
Proof.
  intros Hn. apply (forall_range (month_day_ok leap) 0 365); [|lia].
  destruct leap; vm_compute; reflexivity.
Qed.

Lemma days_in_month_length (y m : Z) :
  1 <= m <= 12 -> days_in_month y m = month_length (is_leap y) m.
Proof.
  intros Hm. unfold days_in_month, month_length.
  assert (m = 1 \/ m = 2 \/ m = 3 \/ m = 4 \/ m = 5 \/ m = 6 \/ m = 7
          \/ m = 8 \/ m = 9 \/ m = 10 \/ m = 11 \/ m = 12) as Hc by lia.
  destruct (is_leap y);
    repeat (destruct Hc as [-> | Hc]; [reflexivity|]); subst m; reflexivity.
Qed.

Lemma days_before_month_start (y m : Z) :
  days_before_month y m = month_start (is_leap y) m.
Proof. reflexivity. Qed.

Lemma ord2ymd_unfold (n : Z) :
  ord2ymd n =
    let n0 := n - 1 in
    let a := n0 / 146097 in let r1 := n0 mod 146097 in
    let b := r1 / 36524 in let r2 := r1 mod 36524 in
    let c := r2 / 1461 in let r3 := r2 mod 1461 in
    let e := r3 / 365 in let r4 := r3 mod 365 in
    let y := 400 * a + 100 * b + 4 * c + e + 1 in
    if (e =? 4) || (b =? 4) then (y - 1, 12, 31)
    else
      let '(m, d) :=
        month_day_of ((e =? 3) && (negb (c =? 24) || (b =? 3))) r4 in
      (y, m, d).
Proof.
  unfold ord2ymd, month_day_of, month_start, month_length. cbv zeta.
  destruct (_ || _).
  - f_equal. f_equal. lia.
  - destruct (_ <? _); f_equal; f_equal; lia.
Qed.

Lemma ord2ymd_spec (n : Z) :
  1 <= n ->
  exists y m d,
    ord2ymd n = (y, m, d)
    /\ 1 <= y /\ 1 <= m <= 12 /\ 1 <= d <= days_in_month y m
    /\ ymd2ord y m d = n.
Proof.
  intros Hn. rewrite ord2ymd_unfold. cbv zeta.
  pose proof (Z.div_mod (n - 1) 146097 ltac:(lia)) as E1.
  pose proof (Z.mod_pos_bound (n - 1) 146097 ltac:(lia)) as B1.
  pose proof (Z.div_pos (n - 1) 146097 ltac:(lia) ltac:(lia)) as A1.
  set (a := (n - 1) / 146097) in *. set (r1 := (n - 1) mod 146097) in *.
  pose proof (Z.div_mod r1 36524 ltac:(lia)) as E2.
  pose proof (Z.mod_pos_bound r1 36524 ltac:(lia)) as B2.
  set (b := r1 / 36524) in *. set (r2 := r1 mod 36524) in *.
  pose proof (Z.div_mod r2 1461 ltac:(lia)) as E3.
  pose proof (Z.mod_pos_bound r2 1461 ltac:(lia)) as B3.
  set (c := r2 / 1461) in *. set (r3 := r2 mod 1461) in *.
  pose proof (Z.div_mod r3 365 ltac:(lia)) as E4.
  pose proof (Z.mod_pos_bound r3 365 ltac:(lia)) as B4.
  set (e := r3 / 365) in *. set (r4 := r3 mod 365) in *.
  clearbody a r1 b r2 c r3 e r4.
  assert (0 <= b <= 4) as Hb by lia.
  assert (0 <= c <= 24) as Hc by lia.
  assert (0 <= e <= 4) as He by lia.
  destruct (Z.eqb_spec b 4) as [Hb4|Hb4].
  - (* the last day of a cycle of 400 years *)
    rewrite orb_true_r.
    assert (r2 = 0 /\ c = 0 /\ r3 = 0 /\ e = 0 /\ r4 = 0) as (-> & -> & -> & -> & ->)
      by lia.
    subst b.
    exists (400 * a + 400), 12, 31.
    split; [f_equal; f_equal; lia|].
    assert (400 * a + 400 = 400 * a + 100 * 3 + 4 * 24 + 3 + 1) as Hy by lia.
    assert (is_leap (400 * a + 400) = true) as Hl
      by (rewrite Hy, is_leap_decomp by lia; reflexivity).
    split; [lia|]. split; [lia|]. split.
    { unfold days_in_month. cbn. lia. }
    unfold ymd2ord, days_before_month. rewrite Hl.
    rewrite Hy at 1. rewrite days_before_year_decomp by lia.
    change (table_get DAYS_BEFORE_MONTH 12 + Z.b2z ((2 <? 12) && true))
      with 335. lia.
  - destruct (Z.eqb_spec e 4) as [He4|He4].
    + (* the last day of a leap year *)
      cbn [orb].
      assert (r4 = 0) as -> by lia. subst e.
      assert (c <> 24) as Hc24 by lia.
      exists (400 * a + 100 * b + 4 * c + 4), 12, 31.
      split; [f_equal; f_equal; lia|].
      assert (400 * a + 100 * b + 4 * c + 4
              = 400 * a + 100 * b + 4 * c + 3 + 1) as Hy by lia.
      assert (is_leap (400 * a + 100 * b + 4 * c + 4) = true) as Hl.
      { rewrite Hy, is_leap_decomp by lia.
        destruct (Z.eqb_spec c 24); [lia|]. reflexivity. }
      split; [lia|]. split; [lia|]. split.
      { unfold days_in_month. cbn. lia. }
      unfold ymd2ord, days_before_month. rewrite Hl.
      rewrite Hy at 1. rewrite days_before_year_decomp by lia.
      change (table_get DAYS_BEFORE_MONTH 12 + Z.b2z ((2 <? 12) && true))
        with 335. lia.
    + cbn [orb].
      pose proof (month_day_of_spec
                    ((e =? 3) && (negb (c =? 24) || (b =? 3))) r4 B4) as Hmd.
      unfold month_day_ok in Hmd.
      rewrite <- (is_leap_decomp a b c e) in * by lia.
      set (y := 400 * a + 100 * b + 4 * c + e + 1) in *.
      destruct (month_day_of (is_leap y) r4) as [m d].
      exists y, m, d. split; [reflexivity|].
      assert (1 <= m /\ m <= 12 /\ 1 <= d /\ d <= month_length (is_leap y) m
              /\ month_start (is_leap y) m + d = r4 + 1) as (H1 & H2 & H3 & H4 & H5).
      { revert Hmd. rewrite !andb_true_iff. lia. }
      split; [subst y; lia|]. split; [lia|].
      rewrite days_in_month_length by lia. split; [lia|].
      unfold ymd2ord. rewrite days_before_month_start.
      subst y. rewrite days_before_year_decomp by lia. lia.
Qed.

Lemma month_table_spec (leap : bool) (m : Z) :
  1 <= m <= 12 -> month_table_ok leap m = true.
Proof.
  intros Hm. apply (forall_range (month_table_ok leap) 1 12); [|lia].
  destruct leap; vm_compute; reflexivity.
Qed.

Lemma month_start_next (leap : bool) (m : Z) :
  1 <= m < 12 ->
  month_start leap (m + 1) = month_start leap m + month_length leap m.
Proof.
  intros Hm. pose proof (month_table_spec leap m ltac:(lia)) as H.
  unfold month_table_ok in H. rewrite !andb_true_iff, orb_true_iff in H.
  lia.
Qed.

Lemma month_start_bounds (leap : bool) (m : Z) :
  1 <= m <= 12 ->
  0 <= month_start leap m
  /\ 1 <= month_length leap m
  /\ month_start leap m + month_length leap m <= 365 + Z.b2z leap.
Proof.
  intros Hm. pose proof (month_table_spec leap m Hm) as H.
  unfold month_table_ok in H. rewrite !andb_true_iff in H. lia.
Qed.

Lemma month_start_mono (leap : bool) (m m' : Z) :
  1 <= m -> m < m' -> m' <= 12 ->
  month_start leap m + month_length leap m <= month_start leap m'.
Proof.
  intros H1 H2 H3.
  replace m' with (m + 1 + Z.of_nat (Z.to_nat (m' - m - 1))) in * by lia.
  induction (Z.to_nat (m' - m - 1)) as [|k IH].
  - rewrite Z.add_0_r. rewrite month_start_next by lia. lia.
  - assert (m + 1 + Z.of_nat (S k) = m + 1 + Z.of_nat k + 1) as -> by lia.
    assert (m + 1 + Z.of_nat (S k) = m + 1 + Z.of_nat k + 1) as E by lia.
    rewrite E in H3.
    rewrite month_start_next by lia.
    pose proof (month_start_bounds leap (m + 1 + Z.of_nat k) ltac:(lia)).
    specialize (IH ltac:(lia) ltac:(lia)). lia.
Qed.

Lemma valid_date_spec (d : pydate) :
  valid_date d = true
  <-> 1 <= year d <= 9999 /\ 1 <= month d <= 12
      /\ 1 <= day d <= days_in_month (year d) (month d).
Proof. unfold valid_date. rewrite !andb_true_iff. lia. Qed.

Lemma days_before_year_1 : days_before_year 1 = 0.
Proof. reflexivity. Qed.

Lemma days_before_year_10000 : days_before_year 10000 = MAXORDINAL.
Proof. reflexivity. Qed.

Lemma toordinal_bounds (d : pydate) :
  valid_date d = true ->
  days_before_year (year d) < toordinal d <= days_before_year (year d + 1).
Proof.
  rewrite valid_date_spec. intros (Hy & Hm & Hd).
  unfold toordinal, ymd2ord. rewrite days_before_month_start.
  rewrite days_in_month_length in Hd by lia.
  rewrite days_before_year_succ.
  pose proof (month_start_bounds (is_leap (year d)) (month d) Hm). lia.
Qed.

Lemma toordinal_range (d : pydate) :
  valid_date d = true -> 1 <= toordinal d <= MAXORDINAL.
Proof.
  intros Hv. pose proof (toordinal_bounds d Hv) as Hb.
  apply valid_date_spec in Hv as (Hy & _).
  pose proof (days_before_year_mono 1 (year d) ltac:(lia)).
  pose proof (days_before_year_mono (year d + 1) 10000 ltac:(lia)).
  rewrite days_before_year_1 in *. rewrite days_before_year_10000 in *. lia.
Qed.

Lemma toordinal_lt (a b : pydate) :
  valid_date a = true -> valid_date b = true ->
  date_compare a b = Lt -> toordinal a < toordinal b.
Proof.
  intros Ha Hb Hc.
  pose proof (toordinal_bounds a Ha) as Ba.
  pose proof (toordinal_bounds b Hb) as Bb.
  apply valid_date_spec in Ha as (Hya & Hma & Hda).
  apply valid_date_spec in Hb as (Hyb & Hmb & Hdb).
  unfold date_compare in Hc.
  destruct (Z.compare_spec (year a) (year b)) as [Ey|Ly|Gy]; try discriminate.
  - unfold toordinal, ymd2ord. rewrite !days_before_month_start.
    rewrite days_in_month_length in Hda, Hdb by lia.
    rewrite Ey in *.
    destruct (Z.compare_spec (month a) (month b)) as [Em|Lm|Gm];
      try discriminate.
    + rewrite Em.
      destruct (Z.compare_spec (day a) (day b)); try discriminate. lia.
    + pose proof (month_start_mono (is_leap (year b)) (month a) (month b)
                    ltac:(lia) Lm ltac:(lia)). lia.
  - pose proof (days_before_year_mono (year a + 1) (year b) ltac:(lia)). lia.
Qed.

Lemma date_compare_eq (a b : pydate) : date_compare a b = Eq -> a = b.
Proof.
  unfold date_compare. destruct a as [ya ma da], b as [yb mb db]. cbn.
  destruct (Z.compare_spec ya yb); try discriminate.
  destruct (Z.compare_spec ma mb); try discriminate.
  intros ->%Z.compare_eq. congruence.
Qed.

Lemma date_compare_antisym (a b : pydate) :
  date_compare b a = CompOpp (date_compare a b).
Proof.
  unfold date_compare.
  rewrite (Z.compare_antisym (year a)), (Z.compare_antisym (month a)),
    (Z.compare_antisym (day a)).
  destruct (year a ?= year b); cbn; try reflexivity.
  destruct (month a ?= month b); cbn; reflexivity.
Qed.

Lemma date_le_toordinal (a b : pydate) :
  valid_date a = true -> valid_date b = true ->
  date_le a b = true <-> toordinal a <= toordinal b.
Proof.
  intros Ha Hb. unfold date_le.
  destruct (date_compare a b) eqn:E.
  - apply date_compare_eq in E as ->. split; [lia|reflexivity].
  - pose proof (toordinal_lt a b Ha Hb E). split; [lia|reflexivity].
  - assert (date_compare b a = Lt) as E'
      by (rewrite date_compare_antisym, E; reflexivity).
    pose proof (toordinal_lt b a Hb Ha E'). split; [discriminate|lia].
Qed.

Lemma toordinal_inj (a b : pydate) :
  valid_date a = true -> valid_date b = true ->
  toordinal a = toordinal b -> a = b.
Proof.
  intros Ha Hb E.
  destruct (date_compare a b) eqn:C.
  - apply date_compare_eq; assumption.
  - pose proof (toordinal_lt a b Ha Hb C). lia.
  - assert (date_compare b a = Lt) as C'
      by (rewrite date_compare_antisym, C; reflexivity).
    pose proof (toordinal_lt b a Hb Ha C'). lia.
Qed.

Lemma fromordinal_spec (n : Z) :
  1 <= n <= MAXORDINAL ->
  exists d, fromordinal n = Ok d /\ valid_date d = true /\ toordinal d = n.
Proof.
  intros Hn. destruct (ord2ymd_spec n ltac:(lia)) as (y & m & d & E & Hy & Hm & Hd & Ho).
  assert (y <= 9999) as Hy'.
  { destruct (Z.le_gt_cases y 9999) as [|Hbig]; [assumption|exfalso].
    pose proof (days_before_year_mono 10000 y ltac:(lia)) as Hmono.
    rewrite days_before_year_10000 in Hmono.
    unfold ymd2ord in Ho. rewrite days_before_month_start in Ho.
    pose proof (month_start_bounds (is_leap y) m Hm). lia. }
  exists {| year := y; month := m; day := d |}.
  assert (valid_date {| year := y; month := m; day := d |} = true) as Hv
    by (apply valid_date_spec; cbn; lia).
  split; [|split; [assumption|exact Ho]].
  unfold fromordinal. rewrite E. unfold date_new.
  unfold valid_date in Hv. cbn in Hv. rewrite Hv. reflexivity.
Qed.

Lemma fromordinal_toordinal (d : pydate) :
  valid_date d = true -> fromordinal (toordinal d) = Ok d.
Proof.
  intros Hv.
  destruct (fromordinal_spec (toordinal d) (toordinal_range d Hv))
    as (d' & E & Hv' & Ho).
  rewrite E. f_equal. apply toordinal_inj; assumption.
Qed.

Lemma date_sub_days_spec (d : pydate) (k : Z) :
  valid_date d = true -> 0 <= k < toordinal d ->
  exists s, date_sub_days d k = Ok s
            /\ valid_date s = true /\ toordinal s = toordinal d - k.
Proof.
  intros Hv Hk. pose proof (toordinal_range d Hv) as Hr.
  unfold date_sub_days. cbv zeta.
  destruct (Z.ltb_spec 0 (toordinal d + - k)); [|lia].
  destruct (Z.leb_spec (toordinal d + - k) MAXORDINAL); [|lia].
  cbn [andb].
  destruct (fromordinal_spec (toordinal d + - k) ltac:(lia)) as (s & E & Hs & Ho).
  exists s. split; [assumption|]. split; [assumption|lia].
Qed.

Lemma date_sub_days_overflow (d : pydate) (k : Z) :
  toordinal d <= k -> date_sub_days d k = Raise OverflowError.
Proof.
  intros Hk. unfold date_sub_days. cbv zeta.
  destruct (Z.ltb_spec 0 (toordinal d + - k)); [lia|]. reflexivity.
Qed.

(** ** Order of dates, [min] *)

Lemma date_lt_negb_le (a b : pydate) : date_lt a b = negb (date_le b a).
Proof.
  unfold date_lt, date_le. rewrite (date_compare_antisym a b).
  destruct (date_compare a b); reflexivity.
Qed.

Lemma date_le_refl (a : pydate) : date_le a a = true.
Proof. apply date_le_spec. unfold date_leq. lia. Qed.

Lemma date_le_trans (a b c : pydate) :
  date_le a b = true -> date_le b c = true -> date_le a c = true.
Proof. rewrite !date_le_spec. unfold date_leq. lia. Qed.

Lemma date_le_total (a b : pydate) : date_le a b = true \/ date_le b a = true.
Proof. rewrite !date_le_spec. unfold date_leq. lia. Qed.

Lemma fold_min_spec (rest : list pydate) (d : pydate) :
  let r := fold_left (fun best x => if date_lt x best then x else best) rest d in
  r ∈ d :: rest /\ date_le r d = true /\ forall x, x ∈ rest -> date_le r x = true.
Proof.
  revert d. induction rest as [|x rest IH]; intros d; cbn [fold_left].
  - split; [left|]. split; [apply date_le_refl|]. intros x Hx. inversion Hx.
  - cbv zeta. rewrite date_lt_negb_le.
    destruct (date_le d x) eqn:E; cbn [negb].
    + destruct (IH d) as (H1 & H2 & H3). split; [|split; [exact H2|]].
      * apply elem_of_cons in H1 as [->|H1]; [left|right; right; exact H1].
      * intros y [->|Hy]%elem_of_cons; [|apply H3, Hy].
        eapply date_le_trans; eassumption.
    + assert (date_le x d = true) as E'
        by (destruct (date_le_total x d); congruence).
      destruct (IH x) as (H1 & H2 & H3). split; [|split].
      * right. exact H1.
      * eapply date_le_trans; eassumption.
      * intros y [->|Hy]%elem_of_cons; [exact H2|apply H3, Hy].
Qed.

Lemma min_date_le (default : pydate) (dates : list pydate) (d : pydate) :
  d ∈ dates -> date_le (min_date default dates) d = true.
Proof.
  destruct dates as [|d0 rest]; [intros H; inversion H|].
  cbn [min_date]. destruct (fold_min_spec rest d0) as (_ & H2 & H3).
  intros [->|Hd]%elem_of_cons; [exact H2|apply H3, Hd].
Qed.

Lemma min_date_elem (default : pydate) (dates : list pydate) :
  min_date default dates ∈ default :: dates.
Proof.
  destruct dates as [|d0 rest]; [left|].
  cbn [min_date]. right. apply fold_min_spec.
Qed.

(** ** [filter_data] as a filter *)

Lemma filter_data_filter {F : Type} (data : list (Row F))
    (start_date end_date : option pydate) :
  filter_data data start_date end_date
  = filter (within_period start_date end_date) data.
Proof.
  induction data as [|item rest IH]; [reflexivity|].
  cbn [filter_data]. rewrite IH.
  destruct (in_period start_date end_date item) eqn:Hp.
  - apply in_period_spec in Hp.
    rewrite filter_cons_True by exact Hp. reflexivity.
  - rewrite filter_cons_False; [reflexivity|].
    intros Hw. apply in_period_spec in Hw. congruence.
Qed.

Lemma filter_ext_in {A} (P Q : A -> Prop) `{forall x, Decision (P x)}
    `{forall x, Decision (Q x)} (l : list A) :
  (forall x, x ∈ l -> P x <-> Q x) -> filter P l = filter Q l.
Proof.
  induction l as [|x l IH]; intros Hext; [reflexivity|].
  assert (filter P l = filter Q l) as IH'
    by (apply IH; intros y Hy; apply Hext; right; exact Hy).
  destruct (decide (P x)) as [Hp|Hp].
  - rewrite (filter_cons_True P) by exact Hp.
    rewrite (filter_cons_True Q) by (apply Hext; [left|exact Hp]).
    rewrite IH'. reflexivity.
  - rewrite (filter_cons_False P) by exact Hp.
    rewrite (filter_cons_False Q); [exact IH'|].
    intros Hq. apply Hp, Hext; [left|exact Hq].
Qed.

(** ** The records of [fetch_data] *)

Lemma date_new_valid (y m d : Z) (x : pydate) :
  date_new y m d = Ok x -> valid_date x = true.
Proof.
  unfold date_new. destruct (_ && _) eqn:E; [|discriminate].
  intros [= <-]. exact E.
Qed.

Lemma strptime_dmy_valid (ud : N -> option N) (s : pystr) (d : pydate) :
  strptime_dmy ud s = Ok d -> valid_date d = true.
Proof.
  unfold strptime_dmy.
  destruct (match_groups (re_dmY ud) s) as [[gs rest]|]; [|discriminate].
  destruct gs as [|g1 [|g2 [|g3 [|g4 [|g5 [|]]]]]]; try discriminate.
  destruct rest; [|discriminate]. apply date_new_valid.
Qed.

Lemma parse_row_valid (ud : N -> option N) (row : list pystr) (r : Row float64) :
  parse_row ud row = Ok (Some r) -> valid_date (date r) = true.
Proof.
  destruct row as [|c0 [|c1 [|c2 [|c3 [|c4 [|c5 rest]]]]]];
    try (rewrite parse_row_short by (cbn; lia); discriminate).
  rewrite parse_row_long.
  destruct (strptime_dmy ud c0) as [d|] eqn:E; [|discriminate].
  intros [= <-]. cbn. eapply strptime_dmy_valid, E.
Qed.

Lemma parse_rows_app (ud : N -> option N) (a b : list (list pystr)) :
  parse_rows ud (a ++ b)
  = (x <-- parse_rows ud a ;; y <-- parse_rows ud b ;; Ok (x ++ y)).
Proof.
  induction a as [|row a IH]; cbn [parse_rows app].
  - cbn. destruct (parse_rows ud b); reflexivity.
  - rewrite IH. destruct (parse_row_total ud row) as [o ->]. cbn.
    destruct (parse_rows ud a) as [xa|]; cbn; [|reflexivity].
    destruct (parse_rows ud b) as [xb|]; cbn; [|reflexivity].
    destruct o; reflexivity.
Qed.

Lemma parse_rows_total (ud : N -> option N) (rows : list (list pystr)) :
  exists data, parse_rows ud rows = Ok data
               /\ (length data <= length rows)%nat
               /\ forall r, r ∈ data -> valid_date (date r) = true.
Proof.
  induction rows as [|row rows (data & E & Hl & Hv)]; cbn [parse_rows].
  - exists []. split; [reflexivity|]. split; [cbn; lia|].
    intros r Hr. inversion Hr.
  - destruct (parse_row_total ud row) as [o Ho]. rewrite Ho, E. cbn.
    destruct o as [item|]; eexists; (split; [reflexivity|]);
      (split; [cbn; lia|]); [|exact Hv].
    intros r [->|Hr]%elem_of_cons; [|apply Hv, Hr].
    eapply parse_row_valid, Ho.
Qed.

Lemma fetch_data_values (ud : N -> option N) (values : list (list pystr)) :
  parse_rows ud (tail values) = Ok (fetch_data ud (Ok (Some values))).
Proof.
  unfold fetch_data. cbn.
  destruct (parse_rows_total ud (tail values)) as (data & E & _).
  rewrite E. reflexivity.
Qed.

Lemma fetch_data_valid (ud : N -> option N)
    (result : exc (option (list (list pystr)))) (r : Row float64) :
  r ∈ fetch_data ud result -> valid_date (date r) = true.
Proof.
  destruct result as [[values|]|e].
  - pose proof (fetch_data_values ud values) as E.
    destruct (parse_rows_total ud (tail values)) as (data & E' & _ & Hv).
    rewrite E' in E. injection E as <-. apply Hv.
  - cbn. intros H; inversion H.
  - cbn. intros H; inversion H.
Qed.

(* ===================================================================== *)
(** * The handlers *)
(* ===================================================================== *)

Lemma filter_window (now start : pydate) (k : Z) (rows : list (Row float64)) :
  valid_date now = true -> valid_date start = true ->
  toordinal start = toordinal now - k ->
  (forall r, r ∈ rows -> valid_date (date r) = true) ->
  filter_data rows (Some start) (Some now) = filter (in_last_days now k) rows.
Proof.
  intros Hn Hs Ho Hv. rewrite filter_data_filter.
  apply filter_ext_in. intros r Hr. specialize (Hv r Hr).
  unfold within_period, in_last_days. rewrite <- !date_le_spec.
  rewrite !date_le_toordinal by assumption. lia.
Qed.

Lemma compute_report_returns (rows : list (Row float64)) :
  len rows < 2 ^ 63 -> exists st, compute_report rows = Ok st.
Proof. intros Hlen. eexists. apply compute_report_binary64, Hlen. Qed.

Lemma compute_report_nil : compute_report [] = Ok zero_stats.
Proof. reflexivity. Qed.

Lemma restricted_allowed {T} `{TelegramObject T} (WHITELIST : list Z)
    (func : T -> bot unit) (obj : T) :
  from_user_id obj ∈ WHITELIST -> restricted WHITELIST func obj = func obj.
Proof.
  intros Hin. unfold restricted.
  rewrite bool_decide_eq_true_2 by exact Hin. reflexivity.
Qed.

Lemma restricted_refused {T} `{TelegramObject T} (WHITELIST : list Z)
    (func : T -> bot unit) (obj : T) :
  from_user_id obj ∉ WHITELIST ->
  restricted WHITELIST func obj
  = (c <~ bot_attr (chat_id obj) ;;
     send_message c (u "⛔️ Доступ заборонено.") None None).
Proof.
  intros Hin. unfold restricted.
  rewrite bool_decide_eq_false_2 by exact Hin. reflexivity.
Qed.

(** The totals of [compute_report] have a default text: each is the int
    0 or a float. *)
Lemma format_report_returns (rows : list (Row float64))
    (start_date end_date : pydate) (st : Stats float64) :
  len rows < 2 ^ 63 ->
  compute_report rows = Ok st ->
  exists text, format_report start_date end_date st = Ok text.
Proof.
  intros Hlen Hst.
  pose proof (compute_report_binary64 rows Hlen) as E. cbv zeta in E.
  rewrite E in Hst. injection Hst as <-.
  unfold format_report.
  cbn [total_batons total_sales total_online total_fop stats_expense].
  destruct (batons <$> rows), (sales <$> rows),
    (sales <$> filter (type_is ONLINE) rows),
    (sales <$> filter (type_is FOP) rows), (expense <$> rows);
    eexists; reflexivity.
Qed.

Lemma callback_report_period (ud : N -> option N) (now : pydate)
    (sheet : nat -> exc (option (list (list pystr))))
    (call : CallbackQuery) (k : Z) (w : World) :
  (call_data call, k) ∈ [(u "report_week", 7); (u "report_month", 30)] ->
  callback_report ud now sheet call w
  = match date_sub_days now k with
    | Raise e => (Raised (CoreError e), w)
    | Ok start =>
      match (stats <-- compute_report
                         (filter_data (fetch_data ud (sheet (requests w)))
                                      (Some start) (Some now)) ;;
             format_report start now stats) with
      | Raise e => (Raised (CoreError e), requested w)
      | Ok text =>
        (Returned tt,
         sent (requested w)
              (plain_message (message_chat_id (call_message call)) text))
      end
    end.
Proof.
  intros Hk. unfold callback_report.
  apply elem_of_cons in Hk as [[= -> ->]|Hk];
    [|apply elem_of_cons in Hk as [[= -> ->]|Hk]; [|inversion Hk]].
  - change (str_eqb (u "report_week") (u "report_week")) with true. cbv iota.
    unfold bot_bind, bot_lift. destruct (date_sub_days now 7); [|reflexivity].
    unfold fetch. cbn [requests outbox].
    destruct (compute_report _) as [stats|]; cbn [exc_bind]; [|reflexivity].
    destruct (format_report _ _ stats); reflexivity.
  - change (str_eqb (u "report_month") (u "report_week")) with false.
    change (str_eqb (u "report_month") (u "report_month")) with true. cbv iota.
    unfold bot_bind, bot_lift. destruct (date_sub_days now 30); [|reflexivity].
    unfold fetch. cbn [requests outbox].
    destruct (compute_report _) as [stats|]; cbn [exc_bind]; [|reflexivity].
    destruct (format_report _ _ stats); reflexivity.
Qed.

Lemma process_callback_period (ud : N -> option N) (WHITELIST : list Z)
    (now : pydate) (sheet : nat -> exc (option (list (list pystr))))
    (call : CallbackQuery) (k : Z) :
  (call_data call, k) ∈ [(u "report_week", 7); (u "report_month", 30)] ->
  process_callback ud WHITELIST now sheet call
  = restricted WHITELIST (callback_report ud now sheet) call.
Proof.
  intros Hk. unfold process_callback.
  apply elem_of_cons in Hk as [[= -> ->]|Hk];
    [|apply elem_of_cons in Hk as [[= -> ->]|Hk]; [|inversion Hk]];
    reflexivity.
Qed.

(** X1: a press on [report_week] (k = 7) or [report_month] (k = 30) by a
    user of the whitelist, on a day [now] that has a day k days before
    it: the handler makes one request to the sheet and sends one message,
    to the chat of the message that carried the button. Its text is the
    report from [start] to [now], where [start] is the date k days before
    [now], over exactly the fetched records dated from [start] to [now],
    both days included (8 or 31 days). *)
Theorem report_of_last_days (ud : N -> option N) (WHITELIST : list Z)
    (now : pydate) (sheet : nat -> exc (option (list (list pystr))))
    (call : CallbackQuery) (k : Z) (w : World) :
  call_from_user_id call ∈ WHITELIST ->
  (call_data call, k) ∈ [(u "report_week", 7); (u "report_month", 30)] ->
  valid_date now = true ->
  k < toordinal now ->
  len (fetch_data ud (sheet (requests w))) < 2 ^ 63 ->
  exists start stats text,
    valid_date start = true
    /\ toordinal start = toordinal now - k
    /\ compute_report
         (filter (in_last_days now k) (fetch_data ud (sheet (requests w))))
       = Ok stats
    /\ format_report start now stats = Ok text
    /\ process_callback ud WHITELIST now sheet call w
       = (Returned tt,
          {| requests := S (requests w);
             outbox := outbox w
                       ++ [ {| sent_chat_id := message_chat_id (call_message call);
                               sent_text := text;
                               sent_reply_markup := None;
                               sent_parse_mode := None |} ] |}).
Proof.
  intros Hw Hk Hnow Hord Hlen.
  assert (0 <= k) as Hk0.
  { apply elem_of_cons in Hk as [[= _ ->]|Hk]; [lia|].
    apply elem_of_cons in Hk as [[= _ ->]|Hk]; [lia|inversion Hk]. }
  destruct (date_sub_days_spec now k Hnow ltac:(lia)) as (start & Es & Hs & Ho).
  set (rows := fetch_data ud (sheet (requests w))) in *.
  destruct (compute_report_returns (filter (in_last_days now k) rows))
    as [stats Est].
  { pose proof (len_filter_le (in_last_days now k) rows). lia. }
  destruct (format_report_returns (filter (in_last_days now k) rows)
              start now stats) as [text Etext]; [|exact Est|].
  { pose proof (len_filter_le (in_last_days now k) rows). lia. }
  exists start, stats, text. split; [exact Hs|]. split; [exact Ho|].
  split; [exact Est|]. split; [exact Etext|].
  rewrite (process_callback_period ud WHITELIST now sheet call k Hk).
  rewrite restricted_allowed by exact Hw.
  rewrite (callback_report_period ud now sheet call k w Hk), Es.
  fold rows.
  rewrite (filter_window now start k rows Hnow Hs Ho)
    by (intros r Hr; eapply fetch_data_valid, Hr).
  rewrite Est. cbn [exc_bind]. rewrite Etext. reflexivity.
Qed.

Lemma startswith_exclusive (d : pystr) :
  str_startswith (u "report_") d = true ->
  str_startswith (u "chinazes") d = false.
Proof.
  unfold str_startswith.
  let v := eval vm_compute in (u "report_") in change (u "report_") with v.
  let v := eval vm_compute in (u "chinazes") in change (u "chinazes") with v.
  destruct d as [|c d]; [discriminate|]. cbn [is_prefix].
  intros [H _]%andb_true_iff. apply N.eqb_eq in H. subst c. reflexivity.
Qed.

Lemma callback_report_all (ud : N -> option N) (now : pydate)
    (sheet : nat -> exc (option (list (list pystr))))
    (call : CallbackQuery) (w : World) :
  call_data call <> u "report_week" ->
  call_data call <> u "report_month" ->
  callback_report ud now sheet call w
  = let start :=
      min_date now (date <$> fetch_data ud (sheet (requests w))) in
    match (stats <-- compute_report
                       (filter_data (fetch_data ud (sheet (S (requests w))))
                                    (Some start) (Some now)) ;;
           format_report start now stats) with
    | Raise e => (Raised (CoreError e), requested (requested w))
    | Ok text =>
      (Returned tt,
       sent (requested (requested w))
            (plain_message (message_chat_id (call_message call)) text))
    end.
Proof.
  intros Hw Hm. unfold callback_report, str_eqb.
  rewrite !bool_decide_eq_false_2 by assumption.
  unfold bot_bind, bot_lift, bot_ret, fetch. cbn [requests outbox].
  cbv zeta. destruct (compute_report _) as [stats|]; cbn [exc_bind];
    [|reflexivity].
  destruct (format_report _ _ stats); reflexivity.
Qed.

Lemma filter_since_min (now : pydate) (rows : list (Row float64)) :
  filter_data rows (Some (min_date now (date <$> rows))) (Some now)
  = filter (up_to now) rows.
Proof.
  rewrite filter_data_filter. apply filter_ext_in. intros r Hr.
  unfold within_period, up_to. split; [intros [_ H]; exact H|].
  intros H. split; [|exact H].
  apply date_le_spec, min_date_le, list_elem_of_fmap. exists r. auto.
Qed.

(** X2: a press on [report_all], or on any other data that starts with
    [report_], by a user of the whitelist: the handler makes two requests
    to the sheet. The report starts at the least date of the first
    response, or at [now] when that has no record; when the second
    response gives the same records, the report covers every record
    dated up to [now], and leaves out the records dated after [now]. *)
Theorem report_since_first_sale (ud : N -> option N) (WHITELIST : list Z)
    (now : pydate) (sheet : nat -> exc (option (list (list pystr))))
    (call : CallbackQuery) (w : World) (rows : list (Row float64)) :
  call_from_user_id call ∈ WHITELIST ->
  str_startswith (u "report_") (call_data call) = true ->
  call_data call <> u "report_week" ->
  call_data call <> u "report_month" ->
  fetch_data ud (sheet (requests w)) = rows ->
  fetch_data ud (sheet (S (requests w))) = rows ->
  len rows < 2 ^ 63 ->
  exists start stats text,
    start = min_date now (date <$> rows)
    /\ start ∈ now :: (date <$> rows)
    /\ (rows = [] -> start = now)
    /\ (forall r, r ∈ rows -> date_leq start (date r))
    /\ compute_report (filter (up_to now) rows) = Ok stats
    /\ format_report start now stats = Ok text
    /\ process_callback ud WHITELIST now sheet call w
       = (Returned tt,
          {| requests := S (S (requests w));
             outbox := outbox w
                       ++ [ {| sent_chat_id := message_chat_id (call_message call);
                               sent_text := text;
                               sent_reply_markup := None;
                               sent_parse_mode := None |} ] |}).
Proof.
  intros Hw Hp Hweek Hmonth Hfirst Hsecond Hlen.
  destruct (compute_report_returns (filter (up_to now) rows)) as [stats Est].
  { pose proof (len_filter_le (up_to now) rows). lia. }
  destruct (format_report_returns (filter (up_to now) rows)
              (min_date now (date <$> rows)) now stats) as [text Etext];
    [|exact Est|].
  { pose proof (len_filter_le (up_to now) rows). lia. }
  exists (min_date now (date <$> rows)), stats, text.
  split; [reflexivity|].
  split; [apply min_date_elem|].
  split; [intros ->; reflexivity|].
  split.
  { intros r Hr. apply date_le_spec, min_date_le, list_elem_of_fmap.
    exists r. auto. }
  split; [exact Est|]. split; [exact Etext|].
  unfold process_callback.
  rewrite (startswith_exclusive _ Hp), Hp.
  rewrite restricted_allowed by exact Hw.
  rewrite callback_report_all by assumption. cbv zeta.
  rewrite Hfirst, Hsecond, filter_since_min, Est. cbn [exc_bind].
  rewrite Etext. reflexivity.
Qed.

(** X3: when the request to the sheet fails with any exception, a press
    on [report_week] or [report_month] still ends in a message: the
    report of the period with every total and every average zero. The
    failure itself is not told to the user. *)
Theorem report_after_failed_request (ud : N -> option N) (WHITELIST : list Z)
    (now : pydate) (sheet : nat -> exc (option (list (list pystr))))
    (call : CallbackQuery) (k : Z) (w : World) (e : exn) :
  call_from_user_id call ∈ WHITELIST ->
  (call_data call, k) ∈ [(u "report_week", 7); (u "report_month", 30)] ->
  valid_date now = true ->
  k < toordinal now ->
  sheet (requests w) = Raise e ->
  exists start text,
    date_sub_days now k = Ok start
    /\ format_report start now zero_stats = Ok text
    /\ process_callback ud WHITELIST now sheet call w
       = (Returned tt,
          {| requests := S (requests w);
             outbox := outbox w
                       ++ [ {| sent_chat_id := message_chat_id (call_message call);
                               sent_text := text;
                               sent_reply_markup := None;
                               sent_parse_mode := None |} ] |}).
Proof.
  intros Hw Hk Hnow Hord Hfail.
  assert (0 <= k) as Hk0.
  { apply elem_of_cons in Hk as [[= _ ->]|Hk]; [lia|].
    apply elem_of_cons in Hk as [[= _ ->]|Hk]; [lia|inversion Hk]. }
  destruct (date_sub_days_spec now k Hnow ltac:(lia)) as (start & Es & _).
  destruct (format_report_returns [] start now zero_stats) as [text Etext];
    [vm_compute; reflexivity|reflexivity|].
  exists start, text. split; [exact Es|]. split; [exact Etext|].
  rewrite (process_callback_period ud WHITELIST now sheet call k Hk).
  rewrite restricted_allowed by exact Hw.
  rewrite (callback_report_period ud now sheet call k w Hk), Es, Hfail.
  change (fetch_data ud (Raise e)) with (@nil (Row float64)).
  cbn [filter_data]. rewrite compute_report_nil. cbn [exc_bind].
  rewrite Etext. reflexivity.
Qed.

(** X4: a press on a button by a user who is not on the whitelist: the
    handler is not run, no request is made to the sheet and no message is
    sent, not even the refusal; the wrapper of [restricted] reads
    [message.chat] from the callback query, which has no such attribute,
    and ends in AttributeError. *)
Theorem callback_of_stranger_raises (ud : N -> option N) (WHITELIST : list Z)
    (now : pydate) (sheet : nat -> exc (option (list (list pystr))))
    (call : CallbackQuery) (w : World) :
  call_from_user_id call ∉ WHITELIST ->
  str_startswith (u "chinazes") (call_data call) = true
  \/ str_startswith (u "report_") (call_data call) = true ->
  process_callback ud WHITELIST now sheet call w = (Raised AttributeError, w).
Proof.
  intros Hw Hp. unfold process_callback.
  destruct (str_startswith (u "chinazes") (call_data call)) eqn:E1.
  - rewrite restricted_refused by exact Hw. reflexivity.
  - destruct Hp as [Hp|Hp]; [discriminate|]. rewrite Hp.
    rewrite restricted_refused by exact Hw. reflexivity.
Qed.

(** X5: a command behind [restricted] (as [/start] is) from a user who is
    not on the whitelist: the wrapped handler is not run, whatever it is;
    the one effect is the refusal sent to the chat of the message,
    without a keyboard. *)
Theorem message_of_stranger_refused (WHITELIST : list Z)
    (func : Message -> bot unit) (message : Message) (w : World) :
  message_from_user_id message ∉ WHITELIST ->
  restricted WHITELIST func message w
  = (Returned tt,
     {| requests := requests w;
        outbox := outbox w
                  ++ [ {| sent_chat_id := message_chat_id message;
                          sent_text := u "⛔️ Доступ заборонено.";
                          sent_reply_markup := None;
                          sent_parse_mode := None |} ] |}).
Proof.
  intros Hw. rewrite restricted_refused by exact Hw. reflexivity.
Qed.

(** X6: the keyboards lead somewhere. A press, by a user of the
    whitelist, on a button of the keyboard [start_command] sends is
    handled by [period_command]; a press on a button of the keyboard
    [period_command] sends is handled by [callback_report]. *)
Theorem buttons_reach_handlers (ud : N -> option N) (WHITELIST : list Z)
    (now : pydate) (sheet : nat -> exc (option (list (list pystr))))
    (call : CallbackQuery) (w : World) :
  call_from_user_id call ∈ WHITELIST ->
  (forall message,
     call_data call ∈ sent_callback_data (snd (start_command message fresh)) ->
     process_callback ud WHITELIST now sheet call w = period_command call w)
  /\ (forall previous,
        call_data call ∈ sent_callback_data (snd (period_command previous fresh)) ->
        process_callback ud WHITELIST now sheet call w
        = callback_report ud now sheet call w).
Proof.
  intros Hw. split.
  - intros message Hin.
    change (sent_callback_data (snd (start_command message fresh)))
      with [u "chinazes_"] in Hin.
    apply elem_of_cons in Hin as [E|Hin]; [|inversion Hin].
    unfold process_callback. rewrite E.
    change (str_startswith (u "chinazes") _) with true. cbv iota.
    rewrite restricted_allowed by exact Hw. reflexivity.
  - intros previous Hin.
    change (sent_callback_data (snd (period_command previous fresh)))
      with [u "report_week"; u "report_month"; u "report_all"] in Hin.
    unfold process_callback.
    repeat (apply elem_of_cons in Hin as [E|Hin];
            [rewrite E;
             change (str_startswith (u "chinazes") _) with false;
             change (str_startswith (u "report_") _) with true;
             cbv iota; rewrite restricted_allowed by exact Hw; reflexivity|]).
    inversion Hin.
Qed.

(** X7: every record [fetch_data] returns carries a date of the calendar
    (year 1 to 9999, a month, a day of that month), whatever the sheet
    answered; its day number lies between 1 and that of 31.12.9999 and
    gives the date back. *)
Theorem fetch_data_dates (ud : N -> option N)
    (result : exc (option (list (list pystr)))) :
  Forall (fun r => valid_date (date r) = true
                   /\ 1 <= toordinal (date r) <= MAXORDINAL
                   /\ fromordinal (toordinal (date r)) = Ok (date r))
         (fetch_data ud result).
Proof.
  apply Forall_forall. intros r Hr.
  pose proof (fetch_data_valid ud result r Hr) as Hv.
  split; [exact Hv|]. split; [apply toordinal_range, Hv|].
  apply fromordinal_toordinal, Hv.
Qed.

(** X8: [fetch_data] reads the rows one by one: the records of a sheet
    are those of its first rows followed by those of its last rows, so a
    row that is skipped costs no other row; the first row (the header)
    is never read, and there are at most as many records as rows after
    it. *)
Theorem fetch_data_row_by_row (ud : N -> option N) (h h' : list pystr)
    (a b : list (list pystr)) :
  fetch_data ud (Ok (Some (h :: a ++ b)))
  = fetch_data ud (Ok (Some (h :: a))) ++ fetch_data ud (Ok (Some (h' :: b)))
  /\ (length (fetch_data ud (Ok (Some (h :: a)))) <= length a)%nat.
Proof.
  pose proof (fetch_data_values ud (h :: a ++ b)) as Eab.
  pose proof (fetch_data_values ud (h :: a)) as Ea.
  pose proof (fetch_data_values ud (h' :: b)) as Eb.
  cbn [tail] in Eab, Ea, Eb.
  rewrite parse_rows_app, Ea, Eb in Eab. cbn in Eab.
  injection Eab as <-. split; [reflexivity|].
  destruct (parse_rows_total ud a) as (data & E & Hl & _).
  rewrite E in Ea. injection Ea as <-. exact Hl.
Qed.

(** X9: the date text of the report is the date text of the sheet, from
    the year 1000 on: a row of six cells or more whose first cell is a
    date of the calendar of the year 1000 or later written as
    [format_report] writes it ([%d.%m.%Y]) is loaded as one record with
    that date and the numbers of its cells. (An earlier year is written
    on fewer than four digits, which [strptime] does not read.) *)
Theorem printed_date_is_read_back (ud : N -> option N) (d : pydate)
    (c1 c2 c3 c4 c5 : pystr) (rest : list pystr) (h : list pystr) :
  valid_date d = true ->
  1000 <= year d ->
  fetch_data ud
    (Ok (Some [h; strftime_dmy d :: c1 :: c2 :: c3 :: c4 :: c5 :: rest]))
  = [ {| date := d;
         batons := cell_number ud c1;
         sales := cell_number ud c2;
         type := c3;
         expense := cell_number ud c4;
         margin := cell_number ud c5 |} ].
Proof.
  intros Hv Hy.
  pose proof (fetch_data_values ud
    [h; strftime_dmy d :: c1 :: c2 :: c3 :: c4 :: c5 :: rest]) as E.
  cbn [tail parse_rows] in E.
  rewrite parse_row_long, (strptime_strftime ud d Hv Hy) in E.
  injection E as <-. reflexivity.
Qed.

(** The date 05.03.0999 of a sheet is written [05.03.999] by the report,
    and a row with that text is skipped. *)
Example printed_date_of_year_999 :
  strptime_dmy ascii_only (u "05.03.0999")
  = Ok {| year := 999; month := 3; day := 5 |}
  /\ strftime_dmy {| year := 999; month := 3; day := 5 |} = u "05.03.999"
  /\ strptime_dmy ascii_only (u "05.03.999") = Raise ValueError
  /\ fetch_data ascii_only
       (Ok (Some [header_row;
                  [u "05.03.999"; u "3"; u "150"; ONLINE; u "0"; u "12%"]]))
     = [].
Proof. vm_compute. repeat split; reflexivity. Qed.

(** X10: [parse_number] raises in one case only: an int whose magnitude
    is [2^1024 - 2^970] or more, with OverflowError. For every other
    value (a smaller int, a bool, a float, any str, None, any other
    object) it returns a float. *)
Theorem parse_number_raises_iff (ud : N -> option N) (v : pyval) (e : exn) :
  parse_number ud v = Raise e
  <-> e = OverflowError
      /\ exists z, v = PyInt z /\ 2 ^ 1024 - 2 ^ 970 <= Z.abs z.
Proof.
  split.
  - intros Hr.
    destruct v as [z|b|x|s| |];
      try (match type of Hr with
           | parse_number _ ?v = _ =>
             destruct (parse_number_total ud v) as [x' Hx];
             [solve [intros ? [=]]|rewrite Hx in Hr; discriminate]
           end).
    revert Hr. unfold parse_number. cbn. unfold float_of_int.
    destruct (Z.leb_spec (2 ^ 1024 - 2 ^ 970) (Z.abs z)); [|discriminate].
    intros [= <-]. split; [reflexivity|]. exists z. split; [reflexivity|lia].
  - intros (-> & z & -> & Hz). unfold parse_number. cbn. unfold float_of_int.
    destruct (Z.leb_spec (2 ^ 1024 - 2 ^ 970) (Z.abs z)); [reflexivity|lia].
Qed.

(** X11: a period that ends before it starts holds no record. *)
Theorem filter_data_inverted_period {F : Type} (data : list (Row F))
    (start_date end_date : pydate) :
  date_lt end_date start_date = true ->
  filter_data data (Some start_date) (Some end_date) = [].
Proof.
  intros Hlt. rewrite date_lt_negb_le in Hlt.
  induction data as [|item rest IH]; [reflexivity|].
  cbn [filter_data]. rewrite IH.
  destruct (in_period _ _ item) eqn:E; [|reflexivity].
  unfold in_period, date_ge in E. apply andb_true_iff in E as [E1 E2].
  rewrite (date_le_trans _ _ _ E1 E2) in Hlt. discriminate.
Qed.

(** X12: filtering by a period and then by a period inside it gives what
    filtering by the inner period gives: the records of the week are
    found among those of the month. *)
Theorem filter_data_inner_period {F : Type} (data : list (Row F))
    (s e s' e' : pydate) :
  date_le s s' = true -> date_le e' e = true ->
  filter_data (filter_data data (Some s) (Some e)) (Some s') (Some e')
  = filter_data data (Some s') (Some e').
Proof.
  intros Hs He. induction data as [|item rest IH]; [reflexivity|].
  cbn [filter_data].
  destruct (in_period (Some s') (Some e') item) eqn:E'.
  - assert (in_period (Some s) (Some e) item = true) as ->.
    { unfold in_period, date_ge in *. apply andb_true_iff in E' as [E1 E2].
      rewrite (date_le_trans _ _ _ Hs E1), (date_le_trans _ _ _ E2 He).
      reflexivity. }
    cbn [filter_data]. rewrite E', IH. reflexivity.
  - destruct (in_period (Some s) (Some e) item); [|exact IH].
    cbn [filter_data]. rewrite E'. exact IH.
Qed.

Lemma b64_add_nan_l (x : float64) : b64_add S754_nan x = S754_nan.
Proof. reflexivity. Qed.

Lemma b64_add_nan_r (x : float64) : b64_add x S754_nan = S754_nan.
Proof. destruct x; reflexivity. Qed.

Lemma fold_add_nan (xs : list float64) :
  fold_left b64_add xs S754_nan = S754_nan.
Proof. induction xs as [|x xs IH]; [reflexivity|]. cbn. exact IH. Qed.

Lemma fold_add_with_nan (xs ys : list float64) (acc : float64) :
  fold_left b64_add (xs ++ S754_nan :: ys) acc = S754_nan.
Proof.
  rewrite fold_left_app. cbn [fold_left]. rewrite b64_add_nan_r.
  apply fold_add_nan.
Qed.

Lemma b64_div_nan (y : float64) : b64_div S754_nan y = S754_nan.
Proof. reflexivity. Qed.

Lemma mean_or_zero_nan (xs ys : list float64) :
  mean_or_zero (xs ++ S754_nan :: ys) = S754_nan.
Proof.
  destruct xs as [|x xs]; cbn [app]; unfold mean_or_zero.
  - change (S754_nan :: ys) with ([] ++ S754_nan :: ys) at 1.
    rewrite fold_add_with_nan. reflexivity.
  - change (x :: xs ++ S754_nan :: ys) with ((x :: xs) ++ S754_nan :: ys) at 1.
    rewrite fold_add_with_nan. reflexivity.
Qed.

(** X13: one record whose margin is not a number (a cell that reads
    [nan]) makes the average margin of the report not a number, whatever
    the other records are; the report then prints [nan] for it. *)
Theorem nan_margin_spoils_the_average (l1 l2 : list (Row float64))
    (r : Row float64) :
  margin r = S754_nan ->
  len (l1 ++ r :: l2) < 2 ^ 63 ->
  exists st,
    compute_report (l1 ++ r :: l2) = Ok st
    /\ avg_margin st = S754_nan
    /\ format_2f (avg_margin st) = u "nan".
Proof.
  intros Hm Hlen. eexists. split; [apply compute_report_binary64, Hlen|].
  cbn [avg_margin].
  rewrite fmap_app, fmap_cons, Hm, mean_or_zero_nan.
  split; reflexivity.
Qed.

(** X14: a no-break space is dropped wherever it stands in the text, also
    between digits (a thousands separator), not only around it. *)
Theorem nbsp_is_dropped_anywhere (ud : N -> option N) (a b : pystr) :
  parse_number ud (PyStr (a ++ NBSP :: b)) = parse_number ud (PyStr (a ++ b)).
Proof.
  rewrite !parse_number_str. unfold float_argument.
  change (NBSP :: b) with ([NBSP] ++ b). rewrite !str_replace1_app.
  reflexivity.
Qed.

Lemma total_is_int_zero (xs : list float64) :
  match xs with
  | [] => PInt 0
  | _ :: _ => PFloat (fold_left b64_add xs b64_zero)
  end = PInt 0 <-> xs = [].
Proof. destruct xs; split; intros H; try reflexivity; discriminate. Qed.

Lemma fmap_nil_iff {A B} (f : A -> B) (l : list A) : f <$> l = [] <-> l = [].
Proof. destruct l; split; intros H; try reflexivity; discriminate. Qed.

(** X15: a total of the report is the int 0, printed [0], exactly when no
    record enters it: the sales total when there is no record at all, a
    channel total when no record has the label of the channel. With a
    record it is a float, printed with a decimal point. *)
Theorem empty_total_is_int_zero (rows : list (Row float64)) :
  len rows < 2 ^ 63 ->
  exists st,
    compute_report rows = Ok st
    /\ (total_sales st = PInt 0 <-> rows = [])
    /\ (total_online st = PInt 0 <-> filter (type_is ONLINE) rows = [])
    /\ (total_fop st = PInt 0 <-> filter (type_is FOP) rows = [])
    /\ format_default (PInt 0) = Ok (u "0")
    /\ (rows <> [] -> exists x, total_sales st = PFloat x)
    /\ (filter (type_is ONLINE) rows <> [] ->
        exists x, total_online st = PFloat x)
    /\ (filter (type_is FOP) rows <> [] ->
        exists x, total_fop st = PFloat x).
Proof.
  intros Hlen. eexists. split; [apply compute_report_binary64, Hlen|].
  cbn [total_sales total_online total_fop].
  rewrite !total_is_int_zero, !fmap_nil_iff.
  repeat split; trivial.
  - intros Hne. destruct rows; [congruence|]. eexists. reflexivity.
  - intros Hne. destruct (filter (type_is ONLINE) rows); [congruence|].
    eexists. reflexivity.
  - intros Hne. destruct (filter (type_is FOP) rows); [congruence|].
    eexists. reflexivity.
Qed.

(* ===================================================================== *)
(** * Instances of the properties of the handlers and the pipeline *)
(* ===================================================================== *)

Lemma example_user_allowed : call_from_user_id week_call ∈ example_whitelist.
Proof. left. Qed.

Lemma example_stranger_refused : (5 : Z) ∉ example_whitelist.
Proof. apply (bool_decide_eq_true_1 (5 ∉ example_whitelist)). reflexivity. Qed.

Lemma report_of_last_days_witness :
  exists start stats text,
    valid_date start = true
    /\ toordinal start = toordinal march_13 - 7
    /\ compute_report
         (filter (in_last_days march_13 7)
                 (fetch_data ascii_only (steady_sheet (requests fresh))))
       = Ok stats
    /\ format_report start march_13 stats = Ok text
    /\ process_callback ascii_only example_whitelist march_13 steady_sheet
                        week_call fresh
       = (Returned tt,
          {| requests := S (requests fresh);
             outbox := outbox fresh
                       ++ [ {| sent_chat_id :=
                                 message_chat_id (call_message week_call);
                               sent_text := text;
                               sent_reply_markup := None;
                               sent_parse_mode := None |} ] |}).
Proof.
  apply (report_of_last_days ascii_only example_whitelist march_13
           steady_sheet week_call 7 fresh).
  - exact example_user_allowed.
  - left.
  - reflexivity.
  - vm_compute. reflexivity.
  - vm_compute. reflexivity.
Defined.

Lemma report_since_first_sale_witness :
  exists start stats text,
    start = min_date march_13 (date <$> rows_of two_channel_sheet)
    /\ start ∈ march_13 :: (date <$> rows_of two_channel_sheet)
    /\ (rows_of two_channel_sheet = [] -> start = march_13)
    /\ (forall r, r ∈ rows_of two_channel_sheet -> date_leq start (date r))
    /\ compute_report (filter (up_to march_13) (rows_of two_channel_sheet))
       = Ok stats
    /\ format_report start march_13 stats = Ok text
    /\ process_callback ascii_only example_whitelist march_13 steady_sheet
                        all_call fresh
       = (Returned tt,
          {| requests := S (S (requests fresh));
             outbox := outbox fresh
                       ++ [ {| sent_chat_id :=
                                 message_chat_id (call_message all_call);
                               sent_text := text;
                               sent_reply_markup := None;
                               sent_parse_mode := None |} ] |}).
Proof.
  apply (report_since_first_sale ascii_only example_whitelist march_13
           steady_sheet all_call fresh (rows_of two_channel_sheet)).
  - exact example_user_allowed.
  - reflexivity.
  - intros H. vm_compute in H. discriminate H.
  - intros H. vm_compute in H. discriminate H.
  - reflexivity.
  - reflexivity.
  - vm_compute. reflexivity.
Defined.

Lemma report_after_failed_request_witness :
  exists start text,
    date_sub_days march_13 7 = Ok start
    /\ format_report start march_13 zero_stats = Ok text
    /\ process_callback ascii_only example_whitelist march_13 failing_sheet
                        week_call fresh
       = (Returned tt,
          {| requests := S (requests fresh);
             outbox := outbox fresh
                       ++ [ {| sent_chat_id :=
                                 message_chat_id (call_message week_call);
                               sent_text := text;
                               sent_reply_markup := None;
                               sent_parse_mode := None |} ] |}).
Proof.
  apply (report_after_failed_request ascii_only example_whitelist march_13
           failing_sheet week_call 7 fresh HttpError).
  - exact example_user_allowed.
  - left.
  - reflexivity.
  - vm_compute. reflexivity.
  - reflexivity.
Defined.

Lemma callback_of_stranger_raises_witness :
  process_callback ascii_only example_whitelist march_13 steady_sheet
                   stranger_call fresh
  = (Raised AttributeError, fresh).
Proof.
  apply (callback_of_stranger_raises ascii_only example_whitelist march_13
           steady_sheet stranger_call fresh).
  - exact example_stranger_refused.
  - right. reflexivity.
Defined.

Lemma message_of_stranger_refused_witness :
  restricted example_whitelist start_command stranger_message fresh
  = (Returned tt,
     {| requests := requests fresh;
        outbox := outbox fresh
                  ++ [ {| sent_chat_id := message_chat_id stranger_message;
                          sent_text := u "⛔️ Доступ заборонено.";
                          sent_reply_markup := None;
                          sent_parse_mode := None |} ] |}).
Proof.
  apply (message_of_stranger_refused example_whitelist start_command
           stranger_message fresh).
  exact example_stranger_refused.
Defined.

Lemma buttons_reach_handlers_witness :
  process_callback ascii_only example_whitelist march_13 steady_sheet
                   week_call fresh
  = callback_report ascii_only march_13 steady_sheet week_call fresh.
Proof.
  apply (proj2 (buttons_reach_handlers ascii_only example_whitelist march_13
                  steady_sheet week_call fresh example_user_allowed)
               all_call).
  left.
Defined.

Lemma printed_date_is_read_back_witness :
  fetch_data ascii_only
    (Ok (Some [header_row;
               [strftime_dmy march_13; u "3"; u "150"; ONLINE; u "0"; u "12%"]]))
  = [ {| date := march_13;
         batons := cell_number ascii_only (u "3");
         sales := cell_number ascii_only (u "150");
         type := ONLINE;
         expense := cell_number ascii_only (u "0");
         margin := cell_number ascii_only (u "12%") |} ].
Proof.
  apply (printed_date_is_read_back ascii_only march_13
           (u "3") (u "150") ONLINE (u "0") (u "12%") [] header_row).
  - reflexivity.
  - vm_compute. discriminate.
Defined.

Lemma filter_data_inverted_period_witness :
  filter_data (rows_of two_channel_sheet) (Some march_31) (Some march_1) = [].
Proof.
  apply (filter_data_inverted_period (rows_of two_channel_sheet)
           march_31 march_1).
  reflexivity.
Defined.

Lemma filter_data_inner_period_witness :
  filter_data
    (filter_data (rows_of two_channel_sheet) (Some march_1) (Some march_31))
    (Some march_1) (Some march_13)
  = filter_data (rows_of two_channel_sheet) (Some march_1) (Some march_13).
Proof.
  apply (filter_data_inner_period (rows_of two_channel_sheet)
           march_1 march_31 march_1 march_13); reflexivity.
Defined.

Lemma nan_margin_spoils_the_average_witness :
  exists st,
    compute_report (rows_of two_channel_sheet ++ nan_row :: []) = Ok st
    /\ avg_margin st = S754_nan
    /\ format_2f (avg_margin st) = u "nan".
Proof.
  apply (nan_margin_spoils_the_average (rows_of two_channel_sheet) [] nan_row).
  - reflexivity.
  - vm_compute. reflexivity.
Defined.

Lemma empty_total_is_int_zero_witness :
  exists st,
    compute_report (rows_of two_channel_sheet) = Ok st
    /\ (total_sales st = PInt 0 <-> rows_of two_channel_sheet = [])
    /\ (total_online st = PInt 0
        <-> filter (type_is ONLINE) (rows_of two_channel_sheet) = [])
    /\ (total_fop st = PInt 0
        <-> filter (type_is FOP) (rows_of two_channel_sheet) = [])
    /\ format_default (PInt 0) = Ok (u "0")
    /\ (rows_of two_channel_sheet <> [] ->
        exists x, total_sales st = PFloat x)
    /\ (filter (type_is ONLINE) (rows_of two_channel_sheet) <> [] ->
        exists x, total_online st = PFloat x)
    /\ (filter (type_is FOP) (rows_of two_channel_sheet) <> [] ->
        exists x, total_fop st = PFloat x).
Proof.
  apply (empty_total_is_int_zero (rows_of two_channel_sheet)).
  vm_compute. reflexivity.
Defined.

Lemma other_label_leaves_channels_witness :
  exists st st',
    compute_report (rows_of two_channel_sheet ++ []) = Ok st
    /\ compute_report (rows_of two_channel_sheet ++ gift_row :: []) = Ok st'
    /\ total_online st' = total_online st /\ total_fop st' = total_fop st
    /\ avg_online st' = avg_online st /\ avg_fop st' = avg_fop st.
Proof.
  destruct (compute_report_returns (rows_of two_channel_sheet ++ []))
    as [st Hst]; [vm_compute; reflexivity|].
  destruct (compute_report_returns (rows_of two_channel_sheet ++ gift_row :: []))
    as [st' Hst']; [vm_compute; reflexivity|].
  exists st, st'. split; [exact Hst|]. split; [exact Hst'|].
  apply (other_label_leaves_channels (rows_of two_channel_sheet) [] gift_row
           st st'); [| |exact Hst|exact Hst'].
  - intros H. vm_compute in H. discriminate H.
  - intros H. vm_compute in H. discriminate H.
Defined.
